(** * ClearTok: cross-context workflow and state synchronisation

    A shallow embedding of the extension's state engine and automation
    workflow:

    - [background.js]            : [StateManager], the tab listeners and the
                                   runtime message listener;
    - [modules/state-store.js]   : [StateStore], the content-script proxy;
    - [modules/message-bus.js]   : [MessageBus.broadcast] / [send];
    - [modules/ui.js]            : [UIManager] (polling waits, auto-scroll);
    - [modules/workflow.js]      : [WorkflowManager].

    JavaScript objects are finite maps from property names to values, the
    three execution contexts share one [World], and every asynchronous
    function is a computation in a state-and-exception monad over it. *)

From Stdlib Require Import Ascii String ZArith Lia.
From stdpp Require Import gmap strings list fin_maps pretty.

Set Warnings "-register-all".
Set Default Proof Using "Type".
Open Scope Z_scope.
Open Scope string_scope.

(* ===================================================================== *)
(** * JavaScript values                                                   *)
(* ===================================================================== *)

(** The values that travel between contexts and live in the state tree:
    the JSON fragment of JavaScript.  Numbers are the integers the program
    uses (counters, indices, tab ids, millisecond timestamps).  [undefined]
    is not a stored value: a missing property reads as [None].

    A string is a sequence of UTF-16 code units, one [ascii] per unit, so
    the units are those below 256 (the Latin-1 range): [length],
    [substring], [includes], [split], [trim] and [toLowerCase] below are
    JavaScript's on such strings.  Text with other code units is outside
    the model. *)
Inductive JsVal :=
  | VNull
  | VBool (b : bool)
  | VNum (n : Z)
  | VStr (s : string)
  | VArr (l : list JsVal)
  | VObj (o : gmap string JsVal).

Abbreviation obj := (gmap string JsVal).

(** [!!v] / [if (v)] : JavaScript truthiness; [None] is [undefined]. *)
Definition truthy (v : option JsVal) : bool :=
  match v with
  | None | Some VNull => false
  | Some (VBool b) => b
  | Some (VNum n) => negb (Z.eqb n 0)
  | Some (VStr s) => negb (String.eqb s "")
  | Some (VArr _) | Some (VObj _) => true
  end.

(** [a || b]. *)
Definition js_or (a : option JsVal) (b : JsVal) : JsVal :=
  match a with
  | Some v => if truthy a then v else b
  | None => b
  end.

(** [v && typeof v === 'object' && !Array.isArray(v)]. *)
Definition isPlainObject (v : JsVal) : bool :=
  match v with VObj _ => true | _ => false end.

(** The index-keyed own properties of an array-like: ["0"], ["1"], ... *)
Definition indexed (l : list JsVal) : obj :=
  list_to_map (imap (fun i v => (pretty i, v)) l).

Definition chars (s : string) : list JsVal :=
  (fun a => VStr (String a EmptyString)) <$> String.list_ascii_of_string s.

(** [{ ...v }] : the own enumerable properties of [v].  Objects copy their
    properties, arrays and strings contribute their index keys, the other
    primitives, [null] and [undefined] contribute nothing. *)
Definition spread (v : option JsVal) : obj :=
  match v with
  | Some (VObj o) => o
  | Some (VArr l) => indexed l
  | Some (VStr s) => indexed (chars s)
  | _ => ∅
  end.

(** The outcome of running a piece of JavaScript. *)
Inductive JsError :=
  | TypeErrorRead (ofNull : bool) (prop : string)
                                       (* reading [prop] of undefined, or of null *)
  | TypeErrorNotIterable               (* spreading a non-iterable *)
  | ErrorMsg (msg : string).           (* [new Error(msg)] *)

Inductive Stuck :=
  | OutOfFuel        (* the loop bound of the model was reached *)
  | Unmodelled       (* the program left the modelled fragment of JS *)
  | NeverSettles.    (* the promise is never resolved nor rejected *)

Inductive Res (A : Type) :=
  | Ok (a : A)
  | Throw (e : JsError)
  | Halt (s : Stuck).
Arguments Ok {A} a.
Arguments Throw {A} e.
Arguments Halt {A} s.

(** [v.k] : a property read; it throws on [undefined] and [null]. *)
Definition getProp (v : option JsVal) (k : string) : Res (option JsVal) :=
  match v with
  | None => Throw (TypeErrorRead false k)
  | Some VNull => Throw (TypeErrorRead true k)
  | Some (VObj o) => Ok (o !! k)
  | Some _ => Ok None
  end.

(** [st.a.b] on a state object. *)
Definition getPath2 (st : obj) (a b : string) : Res (option JsVal) :=
  getProp (st !! a) b.

(** The integers whose successor a double holds exactly:
    [-2^53 <= n < 2^53]. *)
Definition succIsExact (n : Z) : bool :=
  Z.leb (- 9007199254740992) n && Z.ltb n 9007199254740992.

(** [x + 1] where [x] is a counter.  Beyond [2^53] the sum of doubles is
    rounded; that is outside the model, as [NaN] is. *)
Definition js_succ (v : option JsVal) : Res JsVal :=
  match v with
  | Some (VNum n) => if succIsExact n then Ok (VNum (n + 1)) else Halt Unmodelled
  | Some VNull => Ok (VNum 1)
  | Some (VBool b) => Ok (VNum (if b then 2 else 1))
  | Some (VStr s) => Ok (VStr (s ++ "1"))
  | _ => Halt Unmodelled          (* NaN, or an object-to-string coercion *)
  end.

(** [x > 0]. *)
Definition js_gt0 (v : option JsVal) : Res bool :=
  match v with
  | Some (VNum n) => Ok (Z.ltb 0 n)
  | Some (VBool b) => Ok b
  | None | Some VNull => Ok false
  | _ => Halt Unmodelled
  end.

(** [[...v]] : array spread. *)
Definition spreadArray (v : option JsVal) : Res (list JsVal) :=
  match v with
  | Some (VArr l) => Ok l
  | Some (VStr _) => Halt Unmodelled
  | _ => Throw TypeErrorNotIterable
  end.

(** The recursive merge shared by [StateManager.deepMerge] (background.js)
    and [StateStore.deepMerge] (state-store.js), whose bodies are the same:
<<
    const result = { ...target };
    for (const key in source) {
      if (source[key] && typeof source[key] === 'object'
          && !Array.isArray(source[key])) {
        result[key] = this.deepMerge(result[key] || {}, source[key]);
      } else {
        result[key] = source[key];
      }
    }
    return result;
>>
    The recursion is on the source value; [map_fold] is the [for .. in]
    loop, with [result] as accumulator.  [deepMerge] is only entered with
    an object as source (the callers pass update objects, the recursion
    passes plain objects), so the last branch of [deepMergeV] is not
    reached from it.

    An object of the model is the map of its own properties.  The
    assignment [result[key] = ...] writes an own property for every key
    but one: for the key [__proto__] it goes to the setter that
    [Object.prototype] has for that name, which replaces (or leaves) the
    prototype of [result] and writes no own property.  So the loop passes
    that key over here; the prototype itself is not part of an [obj], and
    the callers of the merge stop on an update that would set one (see
    [setsProto]). *)
Fixpoint deepMergeV (target : option JsVal) (source : JsVal) {struct source} : obj :=
  match source with
  | VObj s =>
      map_fold
        (fun key sv result =>
           if String.eqb key "__proto__" then result
           else <[key := if isPlainObject sv
                         then VObj (deepMergeV (Some (js_or (result !! key) (VObj ∅))) sv)
                         else sv]> result)
        (spread target) s
  | _ => spread target
  end.

(** The merge of [source] assigns to [__proto__] somewhere: at a key of
    [source] itself, or at a key of a plain object the merge descends
    into.  Arrays and primitives are stored as they are and not looked
    into. *)
Fixpoint setsProto (source : JsVal) : bool :=
  match source with
  | VObj s =>
      map_fold
        (fun key sv found =>
           found || String.eqb key "__proto__" || setsProto sv)
        false s
  | _ => false
  end.

Definition deepMerge (target : obj) (source : obj) : obj :=
  deepMergeV (Some (VObj target)) (VObj source).

(** What one pass of the loop writes for a key of the source. *)
Definition mergeField (old : option JsVal) (sv : JsVal) : JsVal :=
  if isPlainObject sv
  then VObj (deepMergeV (Some (js_or old (VObj ∅))) sv)
  else sv.


(* ===================================================================== *)
(** * The world: three contexts, the page and the clock                   *)
(* ===================================================================== *)

Inductive Ctx := Background | Content.

(** [{ type, payload, timestamp }].  The [id], [sender] and [componentType]
    fields that [MessageBus] adds hold generated identifiers which no
    receiver reads; they are left out. *)
Record Msg := mkMsg { mtype : string; payload : JsVal; timestamp : Z }.

Inductive BorderOp := BorderCreate | BorderRemove | BorderUpdate (isPaused : bool).

(** What the program does to the outside, in the order it does it. *)
Inductive Effect :=
  | RuntimeSend (from : Ctx) (m : Msg)   (* chrome.runtime.sendMessage(m) *)
  | TabsSend (tab : JsVal) (m : Msg)     (* chrome.tabs.sendMessage(tab, m) *)
  | StorageSet (key : string) (v : JsVal)(* chrome.storage.local.set *)
  | Click (selectorKey : string)         (* element.click() *)
  | KeyEscape                            (* dispatch of keydown Escape *)
  | Border (op : BorderOp)               (* window.clearTokBorder.* *)
  | ScrollBy (dy : Z)                    (* window.scrollBy(0, dy) *)
  | ScrollToBottom                       (* window.scrollTo(0, scrollHeight) *)
  | NewMessageBus.                       (* new window.MessageBus() *)

Record World := mkWorld {
  bgState : obj;          (* background: stateManager.state (canonical)   *)
  storage : obj;          (* chrome.storage.local                         *)
  csState : JsVal;        (* content script: clearTokStateStore.state     *)
  clock   : Z;            (* Date.now()                                   *)
  tick    : nat;          (* position in the environment's oracles        *)
  trace   : list Effect   (* effects so far, oldest first                 *)
}.

Definition set_bgState (s : obj) (w : World) : World :=
  mkWorld s (storage w) (csState w) (clock w) (tick w) (trace w).
Definition set_storage (s : obj) (w : World) : World :=
  mkWorld (bgState w) s (csState w) (clock w) (tick w) (trace w).
Definition set_csState (s : JsVal) (w : World) : World :=
  mkWorld (bgState w) (storage w) s (clock w) (tick w) (trace w).
Definition set_clock (t : Z) (w : World) : World :=
  mkWorld (bgState w) (storage w) (csState w) t (tick w) (trace w).
Definition set_tick (n : nat) (w : World) : World :=
  mkWorld (bgState w) (storage w) (csState w) (clock w) n (trace w).
Definition emit (e : Effect) (w : World) : World :=
  mkWorld (bgState w) (storage w) (csState w) (clock w) (tick w) (trace w ++ [e]).

(** ** The page and the rest of the environment *)

Record Elem := mkElem {
  textContent   : string;
  getAttribute  : string -> option string;
  disabled      : bool;
  color         : string;            (* getComputedStyle(el).color *)
  querySelectorIn : string -> bool   (* el.querySelector(sel) !== null *)
}.

(** [None] from a query is the [SyntaxError] of an invalid selector. *)
Record Dom := mkDom {
  querySelector    : string -> option (option Elem);
  querySelectorAll : string -> option (list Elem);
  scrollHeight     : Z;
  href             : string          (* window.location.href *)
}.

(** A selector entry of the configuration: one selector or a list. *)
Inductive Sel := SelOne (s : string) | SelMany (l : list string).

(** Messages that reach the content script from the other contexts. *)
Inductive Incoming :=
  | InStateChanged (p : option JsVal)   (* STATE_CHANGED, with its payload *)
  | InRestoreState (p : option JsVal)   (* RESTORE_STATE *)
  | InPause                             (* PAUSE_REMOVAL *)
  | InResume.                           (* RESUME_REMOVAL *)

(** Everything the program does not decide: the page at each moment, the
    messages other contexts send, how late timers fire, the random draws,
    and which globals the bundle has defined. *)
Record Env := mkEnv {
  selfTab   : Z;                        (* the tab the content script is in *)
  selectors : string -> option Sel;     (* ConfigManager.get               *)
  dom       : nat -> Dom;               (* the page, by oracle position     *)
  inbox     : nat -> list Incoming;     (* deliveries at each timer wait    *)
  lag       : nat -> nat;               (* lateness of each timer, in ms    *)
  random    : nat -> nat;               (* the draws of Math.random         *)
  window_MessageBus    : bool;          (* window.MessageBus is defined     *)
  window_clearTokBorder : bool          (* window.clearTokBorder is defined *)
}.

(** ** The monad of asynchronous code *)

Definition M (A : Type) : Type := World -> Res A * World.

Definition ret {A} (a : A) : M A := fun w => (Ok a, w).
Definition bind {A B} (m : M A) (f : A -> M B) : M B :=
  fun w => match m w with
           | (Ok a, w') => f a w'
           | (Throw e, w') => (Throw e, w')
           | (Halt s, w') => (Halt s, w')
           end.
Definition throw {A} (e : JsError) : M A := fun w => (Throw e, w).
Definition halt {A} (s : Stuck) : M A := fun w => (Halt s, w).
Definition lift {A} (r : Res A) : M A := fun w => (r, w).
Definition gets {A} (f : World -> A) : M A := fun w => (Ok (f w), w).
Definition modify (f : World -> World) : M unit := fun w => (Ok tt, f w).
Definition effect (e : Effect) : M unit := modify (emit e).

(** [try { body } catch (e) { handler(e) }]. *)
Definition try_catch {A} (body : M A) (handler : JsError -> M A) : M A :=
  fun w => match body w with
           | (Throw e, w') => handler e w'
           | r => r
           end.

(** [p.catch(() => {})] and listener boundaries: a failure inside is lost. *)
Definition swallow (body : M unit) : M unit := try_catch body (fun _ => ret tt).

Notation "x <- c1 ;; c2" := (bind c1 (fun x => c2))
  (at level 100, c1 at next level, right associativity).
Notation "c1 ;;; c2" := (bind c1 (fun _ => c2))
  (at level 100, right associativity).

Definition when (b : bool) (m : M unit) : M unit := if b then m else ret tt.

Definition now : M Z := gets clock.

(** [{ ..., k: v }] where [v] may be [undefined]: a property whose value is
    [undefined] reads like a missing one and is dropped when the object is
    sent or stored. *)
Definition optInsert (k : string) (ov : option JsVal) (o : obj) : obj :=
  match ov with
  | Some v => <[k := v]> o
  | None => o
  end.

(** A payload field the receiver needs to be present. *)
Definition required (ov : option JsVal) : Res JsVal :=
  match ov with
  | Some v => Ok v
  | None => Halt Unmodelled
  end.

(** [a === n] for a number [n]. *)
Definition strictEqNum (a : option JsVal) (n : Z) : bool :=
  match a with
  | Some (VNum m) => Z.eqb m n
  | _ => false
  end.

(* ===================================================================== *)
(** * Content-script listeners for pushed state (state-store.js 52-62,
      message-bus.js 194-200)                                             *)
(* ===================================================================== *)

Module Listeners.

(** [if (message.type === 'STATE_CHANGED')
       this.state = message.payload || this.state;] *)
Definition onStateChanged (p : option JsVal) : M unit :=
  modify (fun w => set_csState (js_or p (csState w)) w).

(** The bus passes [message.payload || {}] to the handler, which does
    [this.stateStore.state = payload]. *)
Definition onRestoreState (p : option JsVal) : M unit :=
  modify (set_csState (js_or p (VObj ∅))).

End Listeners.

(* ===================================================================== *)
(** * StateManager and the background listeners (background.js)           *)
(* ===================================================================== *)

Module StateManager.
Section WithEnv.
Variable E : Env.

(** The state the constructor installs. *)
Definition initialState : obj :=
  {[ "process" := VObj {[ "isRunning" := VBool false; "isPaused" := VBool false;
                          "tabId" := VNull; "startTime" := VNull ]};
     "stats" := VObj {[ "totalReposts" := VNum 0; "processedVideos" := VNum 0;
                        "removedVideos" := VNum 0; "skippedVideos" := VNum 0 ]};
     "currentVideo" := VObj {[ "index" := VNum 0; "title" := VStr "";
                               "author" := VStr ""; "url" := VStr "" ]};
     "removedList" := VArr [] ]}.

(** [saveToStorage]: only [stats] and [removedList] are written. *)
Definition saveToStorage : M unit :=
  st <- gets bgState ;;
  let snapshot := VObj (optInsert "stats" (st !! "stats")
                         (optInsert "removedList" (st !! "removedList") ∅)) in
  modify (fun w => set_storage (<["cleartokState" := snapshot]> (storage w)) w) ;;;
  effect (StorageSet "cleartokState" snapshot).

(** [chrome.tabs.sendMessage(tabId, message)]: the message is handed to
    the listeners of the content script in that tab.  Of the message
    types the background sends to a tab through this function, only
    STATE_CHANGED has a listener that acts here. *)
Definition tabsSend (tabId : JsVal) (m : Msg) : M unit :=
  match tabId with
  | VNum t =>
      effect (TabsSend tabId m) ;;;
      when (Z.eqb t (selfTab E) && String.eqb (mtype m) "STATE_CHANGED")
           (Listeners.onStateChanged (Some (payload m)))
  | _ => halt Unmodelled       (* chrome rejects a tab id that is no integer *)
  end.

Definition broadcastState : M unit :=
  st <- gets bgState ;;
  t <- now ;;
  let message := mkMsg "STATE_CHANGED" (VObj st) t in
  effect (RuntimeSend Background message) ;;;
  tabId <- lift (getPath2 st "process" "tabId") ;;
  match tabId with
  | Some tid => if truthy tabId then tabsSend tid message else ret tt
  | None => ret tt
  end.

Definition updateState (updates : obj) : M unit :=
  if setsProto (VObj updates) then halt Unmodelled
  else
    modify (fun w => set_bgState (deepMerge (bgState w) updates) w) ;;;
    broadcastState.

Definition emptyVideo : JsVal :=
  VObj {[ "index" := VNum 0; "title" := VStr ""; "author" := VStr "";
          "url" := VStr "" ]}.

Definition resetProcess (keepTabId : bool) : M unit :=
  let process : obj := {[ "isRunning" := VBool false; "isPaused" := VBool false;
                          "startTime" := VNull ]} in
  let process := if negb keepTabId then <["tabId" := VNull]> process else process in
  updateState {[ "process" := VObj process; "currentVideo" := emptyVideo ]}.

Definition resetProcessKeepStats : M unit :=
  st <- gets bgState ;;
  startTime <- lift (getPath2 st "process" "startTime") ;;
  let process : obj :=
    optInsert "startTime" startTime
      {[ "isRunning" := VBool false; "isPaused" := VBool false;
         "tabId" := VNull ]} in
  updateState {[ "process" := VObj process; "currentVideo" := emptyVideo ]} ;;;
  saveToStorage.

(** [chrome.tabs.onRemoved] listener. *)
Definition onRemoved (tabId : Z) : M unit :=
  st <- gets bgState ;;
  target <- lift (getPath2 st "process" "tabId") ;;
  when (strictEqNum target tabId)
    (resetProcessKeepStats ;;;
     st' <- gets bgState ;;
     removed <- lift (getPath2 st' "stats" "removedVideos") ;;
     hasRemoved <- lift (js_gt0 removed) ;;
     t <- now ;;
     effect (RuntimeSend Background
               (mkMsg "TAB_CLOSED"
                  (VObj (optInsert "stats" (st' !! "stats")
                           {[ "tabId" := VNum tabId;
                              "hasRemovedVideos" := VBool hasRemoved ]}))
                  t))).

(** The state update of [handleRemoveReposts], once the tab is chosen
    (background.js 466-480). *)
Definition handleRemoveReposts_updateState (tab : Z) : M unit :=
  t <- now ;;
  updateState
    {[ "process" := VObj {[ "isRunning" := VBool false; "isPaused" := VBool false;
                            "tabId" := VNum tab; "startTime" := VNum t ]};
       "stats" := VObj {[ "totalReposts" := VNum 0; "processedVideos" := VNum 0;
                          "removedVideos" := VNum 0; "skippedVideos" := VNum 0 ]};
       "removedList" := VArr [] ]}.

Definition handleContentMessage (type : string) (p : option JsVal) : M unit :=
  if String.eqb type "UPDATE_PROGRESS" then
    current <- lift (getProp p "current") ;;
    total <- lift (getProp p "total") ;;
    current <- lift (required current) ;;
    total <- lift (required total) ;;
    updateState {[ "stats" := VObj {[ "processedVideos" := current;
                                      "totalReposts" := total ]} ]}
  else if String.eqb type "VIDEO_REMOVED" then
    st <- gets bgState ;;
    removed <- lift (getPath2 st "stats" "removedVideos") ;;
    removed1 <- lift (js_succ removed) ;;
    old <- lift (spreadArray (st !! "removedList")) ;;
    t <- now ;;
    updateState
      {[ "stats" := VObj {[ "removedVideos" := removed1 ]};
         "removedList" := VArr (old ++ [VObj (<["removedAt" := VNum t]> (spread p))]) ]}
  else if String.eqb type "COMPLETE" || String.eqb type "ERROR"
          || String.eqb type "NO_REPOSTS_FOUND" then
    updateState {[ "process" := VObj {[ "isRunning" := VBool false;
                                        "isPaused" := VBool false ]} ]} ;;;
    saveToStorage
  else ret tt.

Definition contentUpdateTypes : list string :=
  ["UPDATE_PROGRESS"; "VIDEO_REMOVED"; "VIDEO_SKIPPED"; "STATUS_UPDATE";
   "ERROR"; "COMPLETE"; "NO_REPOSTS_FOUND"].

(** The synchronous [switch] of the [chrome.runtime.onMessage] listener.
    The result is what the sender's callback sees as [response?.result];
    a listener that throws sends no response.  (The branches before the
    switch forward PAUSE_REMOVAL, RESUME_REMOVAL and NAVIGATE_TO_REPOSTS
    to the tab; the content script never sends those to the background.) *)
Definition onMessage (senderIsTab : bool) (m : Msg) : M (option JsVal) :=
  let type := mtype m in
  if String.eqb type "PING" then ret None
  else if String.eqb type "GET_STATE" then
    st <- gets bgState ;; ret (Some (VObj st))
  else if String.eqb type "UPDATE_STATE" then
    match payload m with
    | VObj updates => updateState updates ;;; ret None
    | _ => halt Unmodelled
    end
  else if String.eqb type "RESET_STATE" then
    resetProcess false ;;; ret None
  else if bool_decide (type ∈ contentUpdateTypes) then
    when senderIsTab (handleContentMessage type (Some (payload m))) ;;; ret None
  else ret None.

End WithEnv.
End StateManager.

(* ===================================================================== *)
(** * StateStore, the content-script proxy (state-store.js)               *)
(* ===================================================================== *)

(** [s.split('.')]. *)
Fixpoint splitDots (s : string) : list string :=
  match s with
  | EmptyString => [EmptyString]
  | String c rest =>
      if Ascii.eqb c "."%char then EmptyString :: splitDots rest
      else match splitDots rest with
           | piece :: more => String c piece :: more
           | [] => [String c EmptyString]
           end
  end.

(** [keys.reduceRight((acc, key) => ({ [key]: acc }), { [lastKey]: value })]
    after [lastKey = keys.pop()]. *)
Fixpoint nestPath (keys : list string) (value : JsVal) : obj :=
  match keys with
  | [] => ∅                       (* not reached: [split] is never empty *)
  | [lastKey] => {[ lastKey := value ]}
  | key :: rest => {[ key := VObj (nestPath rest value) ]}
  end.

Module StateStore.
Section WithEnv.
Variable E : Env.

Definition defaultState : obj :=
  {[ "process" := VObj {[ "isRunning" := VBool false; "isPaused" := VBool false;
                          "tabId" := VNull; "startTime" := VNull ]};
     "stats" := VObj {[ "totalReposts" := VNum 0; "processedVideos" := VNum 0;
                        "removedVideos" := VNum 0; "skippedVideos" := VNum 0 ]};
     "currentVideo" := VObj {[ "index" := VNum 0; "title" := VStr "";
                               "author" := VStr ""; "url" := VStr "" ]};
     "removedList" := VArr [] ]}.

(** [sendToBackground(type, payload = {})]: one round trip through
    [chrome.runtime.sendMessage].  The promise resolves with
    [response?.result], or with [null] when no response came back (the
    background listener threw). *)
Definition sendToBackground (type : string) (p : obj) : M (option JsVal) :=
  t <- now ;;
  let message := mkMsg type (VObj p) t in
  effect (RuntimeSend Content message) ;;;
  try_catch (StateManager.onMessage E true message) (fun _ => ret None).

(** [window.location.protocol !== 'chrome-extension:']. *)
Definition isContentScript : M bool :=
  n <- gets tick ;;
  ret (negb (String.prefix "chrome-extension:" (href (dom E n)))).

Definition getState (forceRefresh : bool) : M obj :=
  inContent <- isContentScript ;;
  when (forceRefresh && inContent)
    (try_catch
       (response <- sendToBackground "GET_STATE" ∅ ;;
        match response with
        | Some r => when (truthy response) (modify (set_csState r))
        | None => ret tt
        end)
       (fun _ => ret tt)) ;;;
  st <- gets csState ;;
  ret (spread (Some st)).

Definition update (updates : obj) : M unit :=
  if setsProto (VObj updates) then halt Unmodelled
  else
    modify (fun w => set_csState (VObj (deepMergeV (Some (csState w)) (VObj updates))) w) ;;;
    _ <- sendToBackground "UPDATE_STATE" updates ;;
    ret tt.

Definition set (path : string) (value : JsVal) : M unit :=
  update (nestPath (splitDots path) value).

(** [startProcess(tabId)]; [None] is a call without argument. *)
Definition startProcess (tabId : option JsVal) : M unit :=
  t <- now ;;
  let process : obj := {[ "isRunning" := VBool true; "isPaused" := VBool false;
                          "startTime" := VNum t ]} in
  update
    {[ "process" := VObj (optInsert "tabId" tabId process);
       "stats" := VObj {[ "totalReposts" := VNum 0; "processedVideos" := VNum 0;
                          "removedVideos" := VNum 0; "skippedVideos" := VNum 0 ]};
       "removedList" := VArr [] ]}.

Definition stopProcess : M unit :=
  update {[ "process" := VObj {[ "isRunning" := VBool false; "isPaused" := VBool false;
                                 "tabId" := VNull; "startTime" := VNull ]} ]}.

Definition setPaused (isPaused : JsVal) : M unit :=
  set "process.isPaused" isPaused.

Definition incrementRemoved (videoInfo : option JsVal) : M unit :=
  state <- getState false ;;
  removed <- lift (getPath2 state "stats" "removedVideos") ;;
  removed1 <- lift (js_succ removed) ;;
  let updates : obj := {[ "stats" := VObj {[ "removedVideos" := removed1 ]} ]} in
  if truthy videoInfo then
    old <- lift (spreadArray (state !! "removedList")) ;;
    t <- now ;;
    update (<["removedList" :=
                VArr (old ++ [VObj (<["removedAt" := VNum t]> (spread videoInfo))])]>
              updates)
  else update updates.


Definition setTotal (count : JsVal) : M unit :=
  set "stats.totalReposts" count.

Definition setCurrentVideo (videoInfo : option JsVal) : M unit :=
  index <- lift (getProp videoInfo "index") ;;
  title <- lift (getProp videoInfo "title") ;;
  author <- lift (getProp videoInfo "author") ;;
  url <- lift (getProp videoInfo "url") ;;
  update {[ "currentVideo" :=
              VObj {[ "index" := js_or index (VNum 0);
                      "title" := js_or title (VStr "");
                      "author" := js_or author (VStr "");
                      "url" := js_or url (VStr "") ]} ]}.

Definition reset : M unit :=
  modify (set_csState (VObj defaultState)) ;;;
  _ <- sendToBackground "RESET_STATE" ∅ ;;
  ret tt.

(** [{ total, minutes, seconds }]. *)
Record Duration := mkDuration { total : Z; minutes : Z; seconds : Z }.

Definition getDuration : M Duration :=
  state <- getState false ;;
  startTime <- lift (getPath2 state "process" "startTime") ;;
  if negb (truthy startTime) then ret (mkDuration 0 0 0)
  else match startTime with
       | Some (VNum t0) =>
           t <- now ;;
           let totalDuration := t - t0 in
           ret (mkDuration totalDuration (totalDuration / 60000)
                  (Z.rem totalDuration 60000 / 1000))
       | _ => halt Unmodelled
       end.

Definition isProcessing : M bool :=
  state <- getState false ;;
  r <- lift (getPath2 state "process" "isRunning") ;;
  ret (truthy r).

Definition isPaused : M bool :=
  state <- getState false ;;
  running <- lift (getPath2 state "process" "isRunning") ;;
  paused <- lift (getPath2 state "process" "isPaused") ;;
  ret (truthy running && truthy paused).

End WithEnv.
End StateStore.

(* ===================================================================== *)
(** * MessageBus (message-bus.js) and the handlers of main.js             *)
(* ===================================================================== *)

(** Every code unit is in the ASCII range. *)
Fixpoint isAscii (s : string) : bool :=
  match s with
  | EmptyString => true
  | String c rest => Nat.ltb (nat_of_ascii c) 128 && isAscii rest
  end.

(** [c.toUpperCase()] on an ASCII code unit, then [-] to [_]. *)
Definition normChar (c : ascii) : ascii :=
  let n := nat_of_ascii c in
  if Ascii.eqb c "-"%char then "_"%char
  else if (Nat.leb 97 n && Nat.leb n 122)%bool then ascii_of_nat (n - 32)
  else c.

Fixpoint normChars (s : string) : string :=
  match s with
  | EmptyString => EmptyString
  | String c rest => String (normChar c) (normChars rest)
  end.

(** [type.toUpperCase().replace(/-/g, '_')] for a type name in ASCII, as
    all the type names of the extension are.  Above the ASCII range upper
    case can leave the alphabet of the model or change the length; there
    the function has no answer. *)
Definition normType (s : string) : option string :=
  if isAscii s then Some (normChars s) else None.

Module MessageBus.
Section WithEnv.
Variable E : Env.

(** [broadcast(type, payload)] in the content script: the message goes
    to the extension's runtime, where the background listener handles
    it; the fan-out to tabs is for the background context only.  The
    send is not awaited and its failure is dropped. *)
Definition broadcast (type : string) (p : obj) : M unit :=
  match normType type with
  | None => halt Unmodelled
  | Some type' =>
      t <- now ;;
      let message := mkMsg type' (VObj p) t in
      effect (RuntimeSend Content message) ;;;
      swallow (_ <- StateManager.onMessage E true message ;; ret tt)
  end.

(** [new MessageBus()] followed by [send('background', type, payload)],
    with the rejection dropped by the caller's [.catch(() => {})]. *)
Definition sendToBackground_dropped (type : string) (p : obj) : M unit :=
  effect NewMessageBus ;;;
  match normType type with
  | None => halt Unmodelled
  | Some type' =>
      t <- now ;;
      let message := mkMsg type' (VObj p) t in
      effect (RuntimeSend Content message) ;;;
      swallow (_ <- StateManager.onMessage E true message ;; ret tt)
  end.

End WithEnv.
End MessageBus.

Module Main.
Section WithEnv.
Variable E : Env.

Definition border (op : BorderOp) : M unit :=
  when (window_clearTokBorder E) (effect (Border op)).

(** [tempMessageBus.on('PAUSE_REMOVAL', ...)]; the bus catches what the
    handler throws and answers with a failure. *)
Definition onPauseRemoval : M unit :=
  swallow
    (StateStore.setPaused E (VBool true) ;;;
     border (BorderUpdate true) ;;;
     MessageBus.broadcast E "STATUS_UPDATE" {[ "status" := VStr "Paused by user." ]}).

Definition onResumeRemoval : M unit :=
  swallow
    (StateStore.setPaused E (VBool false) ;;;
     border (BorderUpdate false) ;;;
     MessageBus.broadcast E "STATUS_UPDATE" {[ "status" := VStr "Resuming process..." ]}).

Definition deliver (i : Incoming) : M unit :=
  match i with
  | InStateChanged p => Listeners.onStateChanged p
  | InRestoreState p => Listeners.onRestoreState p
  | InPause => onPauseRemoval
  | InResume => onResumeRemoval
  end.

Fixpoint deliverAll (l : list Incoming) : M unit :=
  match l with
  | [] => ret tt
  | i :: rest => deliver i ;;; deliverAll rest
  end.

(** The content script gives up control for [dt] milliseconds: the clock
    moves, the page may change, pending messages are handled. *)
Definition wait (dt : Z) : M unit :=
  n <- gets tick ;;
  modify (fun w => set_tick (S n) (set_clock (clock w + dt) w)) ;;;
  deliverAll (inbox E n).

(** [setTimeout(resume, ms)]: fires [ms] later, or later still. *)
Definition timer (ms : Z) : M unit :=
  n <- gets tick ;;
  wait (ms + Z.of_nat (lag E n)).

(** [element.click()]: the page reacts at once. *)
Definition click (selectorKey : string) : M unit :=
  effect (Click selectorKey) ;;;
  modify (fun w => set_tick (S (tick w)) w).

(** The background listener's branch for PAUSE_REMOVAL / RESUME_REMOVAL
    (background.js 326-343): forwarded to the processing tab, if any. *)
Definition forwardPauseResume (pause : bool) : M unit :=
  st <- gets bgState ;;
  tabId <- lift (getPath2 st "process" "tabId") ;;
  if truthy tabId then
    t <- now ;;
    let message := mkMsg (if pause then "PAUSE_REMOVAL" else "RESUME_REMOVAL") (VObj ∅) t in
    match tabId with
    | Some (VNum tab) =>
        effect (TabsSend (VNum tab) message) ;;;
        when (Z.eqb tab (selfTab E))
             (if pause then onPauseRemoval else onResumeRemoval)
    | _ => halt Unmodelled
    end
  else ret tt.

End WithEnv.
End Main.

(* ===================================================================== *)
(** * Strings, as the page and the workflow use them                      *)
(* ===================================================================== *)

(** [c.toLowerCase()] on one code unit: the letters [A]-[Z] and, above
    the ASCII range, the capital letters U+00C0-U+00DE other than the
    multiplication sign U+00D7; each has its small letter 32 further. *)
Definition lowerChar (c : ascii) : ascii :=
  let n := nat_of_ascii c in
  if ((Nat.leb 65 n && Nat.leb n 90)
      || (Nat.leb 192 n && Nat.leb n 222 && negb (Nat.eqb n 215)))%bool
  then ascii_of_nat (n + 32) else c.

Fixpoint toLowerCase (s : string) : string :=
  match s with
  | EmptyString => EmptyString
  | String c rest => String (lowerChar c) (toLowerCase rest)
  end.

(** The white space and line terminators of JavaScript among the code
    units below 256: tab, line feed, vertical tab, form feed, carriage
    return, space and the no-break space U+00A0. *)
Definition isSpace (c : ascii) : bool :=
  let n := nat_of_ascii c in
  (Nat.eqb n 32 || (Nat.leb 9 n && Nat.leb n 13) || Nat.eqb n 160)%bool.

Fixpoint trimStart (s : string) : string :=
  match s with
  | String c rest => if isSpace c then trimStart rest else s
  | EmptyString => EmptyString
  end.

(** [s.trim()]. *)
Definition trim (s : string) : string :=
  String.rev (trimStart (String.rev (trimStart s))).

(** [hay.includes(needle)]. *)
Fixpoint includes (needle hay : string) : bool :=
  (String.prefix needle hay ||
   match hay with
   | String _ rest => includes needle rest
   | EmptyString => false
   end)%bool.

(** [s.split(sep)] for a non-empty separator; [skip] counts the characters
    of a matched separator still to be passed over. *)
Fixpoint splitGo (sep : string) (skip : nat) (s : string) : list string :=
  match s with
  | EmptyString => [EmptyString]
  | String c rest =>
      match skip with
      | S k => splitGo sep k rest
      | O =>
          if String.prefix sep s
          then EmptyString :: splitGo sep (String.length sep - 1) rest
          else match splitGo sep 0 rest with
               | piece :: more => String c piece :: more
               | [] => [String c EmptyString]
               end
      end
  end.

Definition split (sep s : string) : list string := splitGo sep 0 s.

(** [s.substring(0, n)]. *)
Definition substring0 (n : nat) (s : string) : string := String.substring 0 n s.

(** String conversion, as in a template literal. *)
Fixpoint toStr (v : JsVal) : string :=
  match v with
  | VNull => "null"
  | VBool b => if b then "true" else "false"
  | VNum n => pretty n
  | VStr s => s
  | VArr l => String.concat "," (List.map (fun x => match x with
                                                  | VNull => ""
                                                  | _ => toStr x
                                                  end) l)
  | VObj _ => "[object Object]"
  end.

Definition toStrU (v : option JsVal) : string :=
  match v with
  | Some x => toStr x
  | None => "undefined"
  end.

(** A number of the program: finite, or [Infinity]. *)
Inductive Num := Fin (z : Z) | Infinity.

(* ===================================================================== *)
(** * UIManager (ui.js)                                                   *)
(* ===================================================================== *)

Module UIManager.
Section WithEnv.
Variable E : Env.

Definition selList (s : Sel) : list string :=
  match s with
  | SelOne x => [x]
  | SelMany l => l
  end.

(** [!selectors]. *)
Definition noSelectors (s : option Sel) : bool :=
  match s with
  | None => true
  | Some (SelOne x) => String.eqb x ""
  | Some (SelMany _) => false
  end.

(** The loop of [findElement]: the first selector that matches; a
    selector the page rejects is logged and passed over. *)
Fixpoint firstMatch (q : string -> option (option Elem)) (l : list string) : option Elem :=
  match l with
  | [] => None
  | selector :: rest =>
      match q selector with
      | Some (Some element) => Some element
      | _ => firstMatch q rest
      end
  end.

(** [findElement(selectorKey)] on the page at oracle position [n]. *)
Definition findAt (selectorKey : string) (n : nat) : option Elem :=
  let sels := selectors E selectorKey in
  if noSelectors sels then None
  else match sels with
       | Some s => firstMatch (querySelector (dom E n)) (selList s)
       | None => None
       end.

Definition findElement (selectorKey : string) : M (option Elem) :=
  n <- gets tick ;;
  ret (findAt selectorKey n).

(** [findElement(selectorKey, parent) !== null] for an element [parent]. *)
Definition findElementIn (selectorKey : string) (parent : Elem) : bool :=
  let sels := selectors E selectorKey in
  if noSelectors sels then false
  else match sels with
       | Some s => existsb (querySelectorIn parent) (selList s)
       | None => false
       end.

(** [findAllElements(selectorKey)] on the page at oracle position [n];
    [None] when the query throws. *)
Definition findAllAt (selectorKey : string) (n : nat) : option (list Elem) :=
  let sels := selectors E selectorKey in
  let selectorString :=
    if noSelectors sels then ""
    else match sels with
         | Some (SelMany l) => String.concat ", " l
         | Some (SelOne x) => x
         | None => ""
         end in
  querySelectorAll (dom E n) selectorString.

Definition findAllElements (selectorKey : string) : M (list Elem) :=
  n <- gets tick ;;
  match findAllAt selectorKey n with
  | Some l => ret l
  | None => throw (ErrorMsg "SyntaxError")
  end.

Fixpoint firstWithText (targetText : string) (caseSensitive : bool)
                       (elements : list Elem) : option Elem :=
  match elements with
  | [] => None
  | element :: rest =>
      let elementText := trim (textContent element) in
      let comparableText := if caseSensitive then elementText
                            else toLowerCase elementText in
      if includes targetText comparableText then Some element
      else firstWithText targetText caseSensitive rest
  end.

Definition findByText (selectorKey text : string) (caseSensitive : bool)
  : M (option Elem) :=
  elements <- findAllElements selectorKey ;;
  let targetText := if caseSensitive then text else toLowerCase text in
  ret (firstWithText targetText caseSensitive elements).

Definition sleep (ms : Z) : M unit := Main.timer E ms.

(** The report of a wait that ran out (ui.js 85-95). *)
Definition reportTimeout (selectorKey : string) (timeout : Z) : M unit :=
  swallow
    (when (window_MessageBus E)
       (n <- gets tick ;;
        MessageBus.sendToBackground_dropped E "UI_WAIT_TIMEOUT"
          {[ "selectorKey" := VStr selectorKey;
             "timeout" := VNum timeout;
             "url" := VStr (href (dom E n)) ]})).

(** [check], rescheduled every 200 ms.  [polls] bounds the number of
    reschedulings; [waitForElement] starts it with more than the
    deadline allows. *)
Fixpoint check (polls : nat) (selectorKey : string) (timeout endTime : Z)
  : M (option Elem) :=
  element <- findElement selectorKey ;;
  match element with
  | Some e => ret (Some e)
  | None =>
      t <- now ;;
      if Z.ltb endTime t then
        reportTimeout selectorKey timeout ;;; ret None
      else match polls with
           | O => halt OutOfFuel
           | S polls' => Main.timer E 200 ;;; check polls' selectorKey timeout endTime
           end
  end.

Definition waitForElement (selectorKey : string) (timeout : Z) : M (option Elem) :=
  t <- now ;;
  check (Z.to_nat (timeout / 200) + 1) selectorKey timeout (t + timeout).

(** [click(selectorKey, timeout)]. *)
Definition click (selectorKey : string) (timeout : Z) : M bool :=
  try_catch
    (element <- waitForElement selectorKey timeout ;;
     match element with
     | Some _ => Main.click selectorKey ;;; ret true
     | None => ret false
     end)
    (fun _ => ret false).

(** ** autoScrollToBottom *)

Definition POLL_INTERVAL : Z := 800.
Definition ABSOLUTE_TIMEOUT : Z := 300000.

(** [(isFinite(cappedMax) && cappedMax > 200) ? 6 : 3]. *)
Definition maxNoChangeCount (cappedMax : Num) : nat :=
  match cappedMax with
  | Fin m => if Z.ltb 200 m then 6%nat else 3%nat
  | Infinity => 3%nat
  end.

(** [isFinite(cappedMax) && currentCount >= cappedMax + 10]. *)
Definition reachedCap (cappedMax : Num) (currentCount : nat) : bool :=
  match cappedMax with
  | Fin m => Z.leb (m + 10) (Z.of_nat currentCount)
  | Infinity => false
  end.

(** The variables the interval callback keeps between polls. *)
Record ScrollVars := mkScrollVars {
  lastItemsCount : nat;
  lastHeight : Z;
  noChangeCount : nat;
  firstProgressReported : bool
}.

(** [finalize]: once [finished] is set and the timers are cleared, a
    failing re-measure leaves the promise pending for ever.  [onProgress]
    is an async function called without [await]: what it throws is not
    seen here. *)
Definition finalize (itemSelectorKey : string) (onProgress : nat -> bool -> M unit)
  : M nat :=
  try_catch
    (finalItems <- findAllElements itemSelectorKey ;;
     swallow (onProgress (length finalItems) true) ;;;
     ret (length finalItems))
    (fun _ => halt NeverSettles).

Inductive PollOutcome := Finalized (count : nat) | Continue (v : ScrollVars).

(** One run of the interval callback.  The deferred scroll to the bottom
    (30 ms later) is recorded with the jitter that precedes it. *)
Definition poll (itemSelectorKey : string) (onProgress : nat -> bool -> M unit)
                (cappedMax : Num) (v : ScrollVars) : M PollOutcome :=
  n <- gets tick ;;
  let jitter := Z.of_nat (random E n mod 101) in
  when (Z.ltb 0 jitter) (effect (ScrollBy (- jitter))) ;;;
  effect ScrollToBottom ;;;
  modify (fun w => set_tick (S (tick w)) w) ;;;
  try_catch
    (currentItems <- findAllElements itemSelectorKey ;;
     let currentCount := length currentItems in
     when (negb (firstProgressReported v)) (swallow (onProgress currentCount false)) ;;;
     let grew := Nat.ltb (lastItemsCount v) currentCount in
     when grew (swallow (onProgress currentCount false)) ;;;
     let lastItemsCount' := if grew then currentCount else lastItemsCount v in
     let noChange1 := if grew then O else S (noChangeCount v) in
     if reachedCap cappedMax currentCount then
       count <- finalize itemSelectorKey onProgress ;; ret (Finalized count)
     else
       k <- gets tick ;;
       let currentHeight := scrollHeight (dom E k) in
       let heightChanged := negb (Z.eqb currentHeight (lastHeight v)) in
       let lastHeight' := if heightChanged then currentHeight else lastHeight v in
       let noChange2 := if heightChanged then O else noChange1 in
       if Nat.leb (maxNoChangeCount cappedMax) noChange2 then
         count <- finalize itemSelectorKey onProgress ;; ret (Finalized count)
       else ret (Continue (mkScrollVars lastItemsCount' lastHeight' noChange2 true)))
    (fun _ => ret (Continue v)).

(** The interval and the absolute timeout.  Each turn waits for the next
    firing of the interval, unless the 5-minute timer is due before it. *)
Fixpoint scrollLoop (polls : nat) (itemSelectorKey : string)
                    (onProgress : nat -> bool -> M unit) (cappedMax : Num)
                    (deadline : Z) (v : ScrollVars) : M nat :=
  match polls with
  | O => halt OutOfFuel
  | S polls' =>
      t <- now ;;
      n <- gets tick ;;
      let due := t + POLL_INTERVAL + Z.of_nat (lag E n) in
      if Z.ltb deadline due then
        Main.wait E (Z.max 0 (deadline - t)) ;;;
        finalize itemSelectorKey onProgress
      else
        Main.wait E (due - t) ;;;
        r <- poll itemSelectorKey onProgress cappedMax v ;;
        match r with
        | Finalized count => ret count
        | Continue v' =>
            scrollLoop polls' itemSelectorKey onProgress cappedMax deadline v'
        end
  end.

(** [autoScrollToBottom(itemSelectorKey, onProgress, maxItems)];
    [maxItems] is [Infinity] when the argument is left out. *)
Definition autoScrollToBottom (itemSelectorKey : string)
                              (onProgress : nat -> bool -> M unit)
                              (maxItems : Num) : M nat :=
  let cappedMax := maxItems in
  t <- now ;;
  scrollLoop (Z.to_nat (ABSOLUTE_TIMEOUT / POLL_INTERVAL) + 1) itemSelectorKey
             onProgress cappedMax (t + ABSOLUTE_TIMEOUT)
             (mkScrollVars 0 0 0 false).

End WithEnv.
End UIManager.

(* ===================================================================== *)
(** * WorkflowManager (workflow.js)                                       *)
(* ===================================================================== *)

(** A value used as a number. *)
Definition asNum (v : JsVal) : Res Z :=
  match v with
  | VNum n => Ok n
  | _ => Halt Unmodelled
  end.

(** [a > v] for a number [a]. *)
Definition numGt (a : Z) (v : option JsVal) : Res bool :=
  match v with
  | Some (VNum n) => Ok (Z.ltb n a)
  | None => Ok false                      (* a > undefined *)
  | Some VNull => Ok (Z.ltb 0 a)
  | Some (VBool b) => Ok (Z.ltb (if b then 1 else 0) a)
  | _ => Halt Unmodelled
  end.

Definition errToString (e : JsError) : string :=
  match e with
  | TypeErrorRead ofNull prop =>
      "TypeError: Cannot read properties of "
      ++ (if ofNull then "null" else "undefined") ++ " (reading '" ++ prop ++ "')"
  | TypeErrorNotIterable => "TypeError: object is not iterable"
  | ErrorMsg msg => "Error: " ++ msg
  end.

Inductive LoopExit :=
  | Stopped          (* [if (!state.process.isRunning) break] *)
  | LimitReached     (* the quota check *)
  | EndOfList.       (* no usable "next" control *)

Record VideoInfo := mkVideoInfo { title : string; url : string; author : string }.

Module WorkflowManager.
Section WithEnv.
Variable E : Env.
(** Bound on the turns of the loops that wait for the outside
    ([checkPauseState], the processing loop). *)
Variable fuel : nat.

Definition batchSize : Z := 100.

Definition broadcastStatus (status statusKey : string) : M unit :=
  MessageBus.broadcast E "STATUS_UPDATE"
    {[ "status" := VStr status; "statusKey" := VStr statusKey ]}.

Fixpoint checkPauseLoop (n : nat) : M unit :=
  state <- StateStore.getState E false ;;
  paused <- lift (getPath2 state "process" "isPaused") ;;
  running <- lift (getPath2 state "process" "isRunning") ;;
  if (negb (truthy paused) || negb (truthy running))%bool then ret tt
  else match n with
       | O => halt OutOfFuel
       | S n' => UIManager.sleep E 500 ;;; checkPauseLoop n'
       end.

Definition checkPauseState : M unit := checkPauseLoop fuel.

Fixpoint pausableSleepLoop (n : nat) (ms elapsed : Z) : M unit :=
  if Z.ltb elapsed ms then
    match n with
    | O => halt OutOfFuel
    | S n' =>
        checkPauseState ;;;
        state <- StateStore.getState E false ;;
        running <- lift (getPath2 state "process" "isRunning") ;;
        if negb (truthy running) then ret tt
        else UIManager.sleep E 100 ;;; pausableSleepLoop n' ms (elapsed + 100)
    end
  else ret tt.

(** [pausableSleep(ms)], in steps of 100 ms. *)
Definition pausableSleep (ms : Z) : M unit :=
  pausableSleepLoop (Z.to_nat (ms / 100) + 1) ms 0.

Definition reset : M unit := StateStore.reset E.

(** [Math.floor(Math.random() * (max - min + 1)) + min]. *)
Definition getRandomDelay (min max : Z) : M Z :=
  n <- gets tick ;;
  modify (set_tick (S n)) ;;;
  ret (Z.of_nat (random E n) mod (max - min + 1) + min).

Definition handleError (message : string) (error : option JsError) : M unit :=
  StateStore.stopProcess E ;;;
  Main.border E BorderRemove ;;;
  MessageBus.broadcast E "ERROR"
    {[ "message" := VStr message;
       "error" := VStr (match error with Some e => errToString e | None => "" end) ]}.

Definition durationVal (d : StateStore.Duration) : JsVal :=
  VObj {[ "total" := VNum (StateStore.total d);
          "minutes" := VNum (StateStore.minutes d);
          "seconds" := VNum (StateStore.seconds d) ]}.

Definition finishProcess (message : string) : M unit :=
  state <- StateStore.getState E false ;;
  duration <- StateStore.getDuration E ;;
  StateStore.stopProcess E ;;;
  Main.border E BorderRemove ;;;
  removed <- lift (getPath2 state "stats" "removedVideos") ;;
  totalCount <- lift (getPath2 state "stats" "totalReposts") ;;
  MessageBus.broadcast E "COMPLETE"
    (optInsert "removedCount" removed
       (optInsert "totalCount" totalCount
          {[ "duration" := durationVal duration ]})).

Definition UNLIMITED : Z := 9007199254740991.   (* Number.MAX_SAFE_INTEGER *)

(** [getQuotaInfo]: the stored snapshot when its [remaining] is a number,
    else the "unlimited" default. *)
Definition getQuotaInfo : M obj :=
  store <- gets storage ;;
  let quotaInfo := store !! "quotaInfo" in
  let fallback : obj := {[ "remaining" := VNum UNLIMITED;
                           "daily_limit" := VNum UNLIMITED;
                           "is_premium" := VBool true ]} in
  match quotaInfo with
  | Some (VObj q) =>
      match q !! "remaining" with
      | Some (VNum _) => ret q
      | _ => ret fallback
      end
  | _ => ret fallback
  end.

(** [quotaInfo.remaining || 100]. *)
Definition maxRemovalOf (quotaInfo : obj) : Res Z :=
  asNum (js_or (quotaInfo !! "remaining") (VNum 100)).

Definition step_navigateToProfile : M bool :=
  broadcastStatus "Navigating to your profile..." "statusNavigatingProfile" ;;;
  repostTab <- UIManager.waitForElement E "navigation.repostTab" 2000 ;;
  if bool_decide (is_Some repostTab) then ret true
  else
    profileButton <- UIManager.waitForElement E "navigation.profileButton" 5000 ;;
    if negb (bool_decide (is_Some profileButton)) then
      handleError "Cannot find profile button. Please make sure you're on TikTok.com and logged in." None ;;;
      ret false
    else
      Main.click "navigation.profileButton" ;;;
      repostTabAfterNav <- UIManager.waitForElement E "navigation.repostTab" 7000 ;;
      if negb (bool_decide (is_Some repostTabAfterNav)) then
        handleError "Failed to navigate to profile page. Please try again." None ;;;
        ret false
      else ret true.

Definition step_navigateToRepostsTab : M bool :=
  broadcastStatus "Navigating to Reposts tab..." "statusNavigateToRepostsTab" ;;;
  repostTab <- UIManager.waitForElement E "navigation.repostTab" 10000 ;;
  found <- match repostTab with
           | Some _ => ret (Some "navigation.repostTab")
           | None =>
               byText <- UIManager.findByText E "navigation.repostTabFallback" "Reposts" false ;;
               ret (match byText with
                    | Some _ => Some "navigation.repostTabFallback"
                    | None => None
                    end)
           end ;;
  match found with
  | Some key =>
      Main.click key ;;;
      _ <- UIManager.waitForElement E "video.containers" 15000 ;;
      broadcastStatus "On reposts tab, showing results." "statusOnRepostsTab" ;;;
      ret true
  | None =>
      broadcastStatus "Could not find Reposts tab." "statusCouldNotFindRepostsTab" ;;;
      ret false
  end.

(** The progress callback handed to [autoScrollToBottom]. *)
Definition onProgress (current : Z) (phase : string) (progress : nat) (isFinal : bool)
  : M unit :=
  let count := VNum (Z.of_nat progress) in
  MessageBus.broadcast E "UPDATE_PROGRESS"
    {[ "current" := VNum current;
       "total" := count;
       "phase" := VStr (if isFinal then "final" else phase);
       "status" := VStr ("Loaded " ++ toStr count ++ " reposts so far...");
       "statusKey" := VStr "statusLoadedSoFar";
       "statusParams" := VObj {[ "count" := count ]} ]}.

Definition step_switchToRepostsTabAndScroll : M bool :=
  broadcastStatus "Looking for Reposts tab..." "statusLookingForRepostsTab" ;;;
  ok <- step_navigateToRepostsTab ;;
  if negb ok then
    handleError "Could not find or click the 'Reposts' tab." None ;;; ret false
  else
    maxItems <-
      try_catch
        (quotaInfo <- getQuotaInfo ;;
         let maxItems :=
           match quotaInfo !! "remaining" with
           | Some (VNum quotaRemaining) => Z.min quotaRemaining batchSize
           | _ => batchSize        (* Math.min(Infinity, batchSize) *)
           end in
         broadcastStatus "Scrolling to load initial reposts ..." "statusScrolling" ;;;
         ret maxItems)
        (fun _ => ret 100) ;;
    totalFound <- UIManager.autoScrollToBottom E "video.containers"
                    (onProgress 0 "first") (Fin maxItems) ;;
    StateStore.setTotal E (VNum (Z.of_nat totalFound)) ;;;
    state <- StateStore.getState E false ;;
    total <- lift (getPath2 state "stats" "totalReposts") ;;
    MessageBus.broadcast E "STATUS_UPDATE"
      {[ "status" := VStr ("Found " ++ toStrU total ++ " reposts.");
         "statusKey" := VStr "statusFoundTotal";
         "statusParams" := VObj (optInsert "total" total ∅) ]} ;;;
    ret true.

Definition step_openFirstVideo : M bool :=
  broadcastStatus "Opening the first repost..." "statusOpeningFirstRepost" ;;;
  success <- UIManager.click E "video.containers" 15000 ;;
  if negb success then
    handleError "No reposted videos found on the page to click." None ;;; ret false
  else
    _ <- UIManager.waitForElement E "video.repostButton" 7000 ;;
    ret true.

(** [getVideoInfo]; nothing in its [try] block throws here. *)
Definition getVideoInfo : M VideoInfo :=
  n <- gets tick ;;
  let url := href (dom E n) in
  titleElement <- UIManager.findElement E "video.title" ;;
  let title :=
    match titleElement with
    | Some el => trim (textContent el)
    | None => ""
    end in
  authorElement <- UIManager.findElement E "video.author" ;;
  let author :=
    match authorElement with
    | Some el =>
        let authorText := trim (textContent el) in
        if String.eqb authorText "" then ""
        else if String.prefix "@" authorText then authorText
        else "@" ++ authorText
    | None => ""
    end in
  let author :=
    if (String.eqb author "" && includes "/@" url)%bool then
      match split "/@" url with
      | _ :: part :: _ =>
          match split "/" part with
          | authorPart :: _ =>
              if String.eqb authorPart "" then author else "@" ++ authorPart
          | [] => author
          end
      | _ => author
      end
    else author in
  let title :=
    if (String.eqb title "" && includes "/video/" url)%bool then
      match split "/video/" url with
      | _ :: part :: _ =>
          match split "?" part with
          | videoId :: _ =>
              if String.eqb videoId "" then title
              else "Video " ++ substring0 8 videoId ++ "..."
          | [] => title
          end
      | _ => title
      end
    else title in
  let title :=
    if Nat.ltb 50 (String.length title) then substring0 50 title ++ "..." else title in
  let title := if String.eqb title "" then "Untitled video" else title in
  let author := if String.eqb author "" then "@unknown" else author in
  ret (mkVideoInfo title url author).

(** [{ ...videoInfo }]. *)
Definition videoFields (v : VideoInfo) : obj :=
  {[ "title" := VStr (title v); "url" := VStr (url v); "author" := VStr (author v) ]}.

(** [this.config.get(key)] used as an attribute name. *)
Definition attributeName (key : string) : string :=
  match selectors E key with
  | Some (SelOne a) => a
  | Some (SelMany l) => String.concat "," l
  | None => "null"
  end.

Definition isVideoReposted (repostButton : Elem) : bool :=
  let isPressed :=
    bool_decide (getAttribute repostButton (attributeName "repostStatus.pressedAttribute")
                 = Some "true") in
  let hasActiveColor := negb (String.eqb (color repostButton) "rgb(255, 255, 255)") in
  let hasFilledIcon := UIManager.findElementIn E "repostStatus.svgFillSelector" repostButton in
  (isPressed || hasActiveColor || hasFilledIcon)%bool.

(** The [while (true)] loop of [step_processVideoQueue], with its local
    variables as arguments.  It returns how the loop was left and the
    final [currentIndex] and [removedCount]. *)
Fixpoint queueLoop (n : nat) (maxRemoval currentIndex removedCount : Z)
  : M (LoopExit * Z * Z) :=
  match n with
  | O => halt OutOfFuel
  | S n' =>
      checkPauseState ;;;
      state <- StateStore.getState E false ;;
      running <- lift (getPath2 state "process" "isRunning") ;;
      if negb (truthy running) then ret (Stopped, currentIndex, removedCount)
      else
        totalReposts <- lift (getPath2 state "stats" "totalReposts") ;;
        known <- lift (asNum (js_or totalReposts (VNum 0))) ;;
        when (Z.leb known currentIndex)
          (let target := known + batchSize in
           newlyFound <- UIManager.autoScrollToBottom E "video.containers"
                           (onProgress currentIndex "batch") (Fin target) ;;
           when (negb (Nat.eqb newlyFound 0) && Z.ltb known (Z.of_nat newlyFound))
                (StateStore.setTotal E (VNum (Z.of_nat newlyFound)))) ;;;
        if Z.leb maxRemoval removedCount then
          broadcastStatus "Daily limit reached" "statusDailyLimitReached" ;;;
          ret (LimitReached, currentIndex, removedCount)
        else
          let currentIndex := currentIndex + 1 in
          let displayTotal := Z.max currentIndex known in
          grow <- lift (numGt displayTotal totalReposts) ;;
          when grow (StateStore.setTotal E (VNum displayTotal)) ;;;
          MessageBus.broadcast E "STATUS_UPDATE"
            {[ "status" := VStr ("Processing repost " ++ pretty currentIndex ++ " of "
                                 ++ pretty displayTotal ++ "...");
               "statusKey" := VStr "statusProcessingRepostOf";
               "statusParams" := VObj {[ "current" := VNum currentIndex;
                                         "total" := VNum displayTotal ]} ]} ;;;
          videoInfo <- getVideoInfo ;;
          StateStore.setCurrentVideo E
            (Some (VObj (<["index" := VNum currentIndex]> (videoFields videoInfo)))) ;;;
          MessageBus.broadcast E "UPDATE_PROGRESS"
            (<["current" := VNum currentIndex]>
               (<["total" := VNum displayTotal]> (videoFields videoInfo))) ;;;
          repostButton <- UIManager.waitForElement E "video.repostButton" 5000 ;;
          removedCount <-
            match repostButton with
            | Some button =>
                if isVideoReposted button then
                  Main.click "video.repostButton" ;;;
                  swallow (MessageBus.broadcast E "VIDEO_REMOVED"
                             (<["index" := VNum currentIndex]> (videoFields videoInfo))) ;;;
                  delay <- getRandomDelay 200 400 ;;
                  pausableSleep delay ;;;
                  ret (removedCount + 1)
                else
                  MessageBus.broadcast E "VIDEO_SKIPPED"
                    (<["index" := VNum currentIndex]>
                       (<["reason" := VStr "Not a repost or button not found"]>
                          (videoFields videoInfo))) ;;;
                  ret removedCount
            | None =>
                MessageBus.broadcast E "VIDEO_SKIPPED"
                  (<["index" := VNum currentIndex]>
                     (<["reason" := VStr "Not a repost or button not found"]>
                        (videoFields videoInfo))) ;;;
                ret removedCount
            end ;;
          nextButton <- UIManager.waitForElement E "video.nextButton" 5000 ;;
          match nextButton with
          | Some button =>
              if negb (disabled button) then
                Main.click "video.nextButton" ;;;
                delay <- getRandomDelay 300 900 ;;
                pausableSleep delay ;;;
                (if Z.eqb (Z.rem currentIndex 35) 0 then
                   delay <- getRandomDelay 1500 4000 ;; pausableSleep delay
                 else if Z.eqb (Z.rem currentIndex 10) 0 then
                   delay <- getRandomDelay 700 1500 ;; pausableSleep delay
                 else ret tt) ;;;
                queueLoop n' maxRemoval currentIndex removedCount
              else ret (EndOfList, currentIndex, removedCount)
          | None => ret (EndOfList, currentIndex, removedCount)
          end
  end.

(** The part of [step_processVideoQueue] before the player is closed. *)
Definition processQueue : M (LoopExit * Z * Z) :=
  quotaInfo <- getQuotaInfo ;;
  maxRemoval <- lift (maxRemovalOf quotaInfo) ;;
  queueLoop fuel maxRemoval 0 0.

Definition step_processVideoQueue : M unit :=
  _ <- processQueue ;;
  closeButton <- UIManager.waitForElement E "video.closeButton" 3000 ;;
  match closeButton with
  | Some _ => Main.click "video.closeButton"
  | None => effect KeyEscape
  end.

(** What [start] does once its guard lets it through, up to the [try]. *)
Definition enterRun : M unit :=
  StateStore.startProcess E None ;;;
  broadcastStatus "Starting removal process..." "statusStarting" ;;;
  Main.border E BorderCreate.

(** The body of the [try] block of [start]. *)
Definition runPhases : M unit :=
  ok <- step_navigateToProfile ;;
  if negb ok then ret tt
  else
    ok <- step_switchToRepostsTabAndScroll ;;
    if negb ok then ret tt
    else
      currentState <- StateStore.getState E false ;;
      total <- lift (getPath2 currentState "stats" "totalReposts") ;;
      if strictEqNum total 0 then
        duration <- StateStore.getDuration E ;;
        MessageBus.broadcast E "NO_REPOSTS_FOUND" {[ "duration" := durationVal duration ]} ;;;
        finishProcess "No reposts found to remove."
      else
        ok <- step_openFirstVideo ;;
        if negb ok then ret tt
        else
          step_processVideoQueue ;;;
          finishProcess "All reposts have been processed." ;;;
          _ <- step_navigateToRepostsTab ;;
          ret tt.

Definition start : M unit :=
  state <- StateStore.getState E false ;;
  running <- lift (getPath2 state "process" "isRunning") ;;
  if truthy running then ret tt
  else
    enterRun ;;;
    try_catch runPhases
      (fun error =>
         handleError "An unexpected error occurred in the main workflow." (Some error)).

End WithEnv.
End WorkflowManager.

(* ===================================================================== *)
(** * Vocabulary of the specification                                     *)
(* ===================================================================== *)

(** Own property [k] of a value: what [v.k] reads for a data field. *)
Definition field (v : option JsVal) (k : string) : option JsVal := spread v !! k.

(** The STATE_CHANGED message a world's background sends. *)
Definition stateChanged (w : World) : Msg :=
  mkMsg "STATE_CHANGED" (VObj (bgState w)) (clock w).

(** [process.k] of the canonical state and of the cached replica, read as
    a condition. *)
Definition canonicalFlag (w : World) (k : string) : bool :=
  truthy (field (bgState w !! "process") k).
Definition cachedFlag (w : World) (k : string) : bool :=
  truthy (field (field (Some (csState w)) "process") k).

(** The cached replica has a [process] section to read from. *)
Definition cachedProcess (w : World) : Prop :=
  exists p, field (Some (csState w)) "process" = Some (VObj p).

(** Where [broadcastState] pushes to, besides the extension's runtime. *)
Definition pushTarget (st : obj) : Res (option Z) :=
  match getPath2 st "process" "tabId" with
  | Ok tabId =>
      if truthy tabId then
        match tabId with
        | Some (VNum t) => Ok (Some t)
        | _ => Halt Unmodelled
        end
      else Ok None
  | Throw e => Throw e
  | Halt s => Halt s
  end.

(** [broadcastState], as one step on the world. *)
Definition afterBroadcast (E : Env) (w : World) : Res unit * World :=
  let w1 := emit (RuntimeSend Background (stateChanged w)) w in
  match pushTarget (bgState w) with
  | Ok None => (Ok tt, w1)
  | Ok (Some t) =>
      let w2 := emit (TabsSend (VNum t) (stateChanged w)) w1 in
      (Ok tt, if Z.eqb t (selfTab E) then set_csState (VObj (bgState w)) w2 else w2)
  | Throw e => (Throw e, w1)
  | Halt s => (Halt s, w1)
  end.

(** What [saveToStorage] writes for a state. *)
Definition snapshotOf (st : obj) : JsVal :=
  VObj (optInsert "stats" (st !! "stats")
          (optInsert "removedList" (st !! "removedList") ∅)).

(** ** A concrete page and world, to run the program on *)

Definition elemOf (txt : string) : Elem :=
  mkElem txt (fun _ => None) false "rgb(254, 44, 85)" (fun _ => false).

(** A player view over ten reposted items: every control is present. *)
Definition page0 : Dom :=
  mkDom (fun sel =>
           Some (if bool_decide (sel ∈ ["video.repostButton"; "video.nextButton";
                                         "navigation.repostTab"; "video.containers";
                                         "video.title"])
                 then Some (elemOf sel) else None))
        (fun sel => if String.eqb sel "video.containers"
                    then Some (replicate 10 (elemOf "item")) else Some [])
        1000 "https://www.tiktok.com/@me/video/123456789012?x=1".

Definition E0 : Env :=
  mkEnv 7 (fun k => Some (SelOne k)) (fun _ => page0) (fun _ => [])
        (fun _ => 0%nat) (fun _ => 0%nat) true true.

(** A run in tab 7: ten items found, four removed so far. *)
Definition running0 : obj :=
  {[ "process" := VObj {[ "isRunning" := VBool true; "isPaused" := VBool false;
                          "tabId" := VNum 7; "startTime" := VNum 500 ]};
     "stats" := VObj {[ "totalReposts" := VNum 10; "processedVideos" := VNum 4;
                        "removedVideos" := VNum 4; "skippedVideos" := VNum 0 ]};
     "currentVideo" := VObj {[ "index" := VNum 4; "title" := VStr "t";
                               "author" := VStr "@a"; "url" := VStr "u" ]};
     "removedList" := VArr [VObj {[ "title" := VStr "t0" ]}] ]}.

Definition quota (n : Z) : obj := {[ "quotaInfo" := VObj {[ "remaining" := VNum n ]} ]}.

Definition w_running : World := mkWorld running0 (quota 3) (VObj running0) 1000 0 [].


(* ===================================================================== *)
(** * More of background.js: start-up load and the selector update        *)
(* ===================================================================== *)

(** [a?.k]: [undefined] when [a] is [undefined] or [null]. *)
Definition optChain (v : option JsVal) (k : string) : option JsVal :=
  match v with
  | Some (VObj o) => o !! k
  | _ => None
  end.

(** [a === b] on values that were read from storage or from a response:
    primitives compare by value, two objects or arrays are never the same
    object. *)
Definition strictEq (a b : option JsVal) : bool :=
  match a, b with
  | None, None => true
  | Some VNull, Some VNull => true
  | Some (VBool x), Some (VBool y) => Bool.eqb x y
  | Some (VNum x), Some (VNum y) => Z.eqb x y
  | Some (VStr x), Some (VStr y) => String.eqb x y
  | _, _ => false
  end.

(** What [fetch(META_URL)] followed by [res.json()] gives. *)
Inductive FetchOutcome :=
  | FetchRejected                (* the request fails *)
  | FetchNotOk                   (* [res.ok] is false *)
  | FetchBadJson                 (* [res.json()] rejects *)
  | FetchJson (meta : JsVal).    (* the parsed body *)

(** Which [return] of [checkMetaAndUpdate] was taken. *)
Inductive MetaOutcome :=
  | Throttled        (* fetched less than a minute ago *)
  | FetchFailed      (* [!res.ok] *)
  | InvalidMeta      (* no version or no selectors *)
  | UpToDate         (* same version *)
  | Updated          (* selectors written *)
  | Caught.          (* an exception, logged *)

Module Background.
Section WithEnv.
Variable E : Env.

(** [StateManager.loadFromStorage]: the stored snapshot is assigned over
    the state, then the run-time flags of [process] are reset.  The class
    body is strict code: writing a property of a primitive throws, as
    writing one of [undefined] does; the [catch] logs it. *)
Definition loadFromStorage : M unit :=
  swallow
    (store <- gets storage ;;
     let stored := store !! "cleartokState" in
     when (truthy stored)
       (modify (fun w => set_bgState (spread stored ∪ bgState w) w) ;;;
        st <- gets bgState ;;
        match st !! "process" with
        | Some (VObj p) =>
            modify (set_bgState
                      (<["process" := VObj (<["tabId" := VNull]>
                                             (<["isPaused" := VBool false]>
                                               (<["isRunning" := VBool false]> p)))]> st))
        | Some (VArr _) => halt Unmodelled
        | _ => throw (ErrorMsg "TypeError: cannot set property isRunning")
        end)).

Definition META_FRESH : Z := 60000.

(** [!force && selectorsMeta && Date.now() - selectorsMeta.fetchedAt < 60_000]. *)
Definition metaIsFresh (force : bool) (selectorsMeta : option JsVal) (t : Z) : Res bool :=
  if force then Ok false
  else if negb (truthy selectorsMeta) then Ok false
  else match getProp selectorsMeta "fetchedAt" with
       | Ok (Some (VNum fetchedAt)) => Ok (Z.ltb (t - fetchedAt) META_FRESH)
       | Ok None => Ok false                   (* NaN < 60000 *)
       | Ok (Some VNull) => Ok (Z.ltb t META_FRESH)
       | _ => Halt Unmodelled
       end.

(** [checkMetaAndUpdate(force)], given what the fetch returns.  The one
    [storage.set] call writes two keys; SELECTORS_UPDATED carries no
    payload (receivers read [payload || {}]).  What the tab does with
    the message, reloading its selectors from the storage, is outside
    the world: the selectors of the page are part of the environment. *)
Definition checkMetaAndUpdate (fetched : FetchOutcome) (force : bool) : M MetaOutcome :=
  store <- gets storage ;;
  let selectorsMeta := store !! "selectorsMeta" in
  t <- now ;;
  fresh <- lift (metaIsFresh force selectorsMeta t) ;;
  if fresh then ret Throttled
  else
    try_catch
      (match fetched with
       | FetchRejected => throw (ErrorMsg "TypeError: Failed to fetch")
       | FetchNotOk => ret FetchFailed
       | FetchBadJson => throw (ErrorMsg "SyntaxError")
       | FetchJson meta =>
           match optChain (Some meta) "version", optChain (Some meta) "selectors" with
           | Some version, Some sels =>
               if (negb (truthy (Some version)) || negb (truthy (Some sels)))%bool
               then ret InvalidMeta
               else if strictEq (optChain selectorsMeta "version") (Some version)
               then ret UpToDate
               else
                 t <- now ;;
                 let newMeta := VObj {[ "version" := version; "fetchedAt" := VNum t ]} in
                 modify (fun w => set_storage
                                    (<["selectorsMeta" := newMeta]>
                                       (<["selectors" := sels]> (storage w))) w) ;;;
                 effect (StorageSet "selectors" sels) ;;;
                 effect (StorageSet "selectorsMeta" newMeta) ;;;
                 st <- gets bgState ;;
                 tabId <- lift (getPath2 st "process" "tabId") ;;
                 (match tabId with
                  | Some tid =>
                      if truthy tabId
                      then StateManager.tabsSend E tid (mkMsg "SELECTORS_UPDATED" (VObj ∅) t)
                      else ret tt
                  | None => ret tt
                  end) ;;;
                 ret Updated
           | _, _ => ret InvalidMeta
           end
       end)
      (fun _ => ret Caught).

End WithEnv.
End Background.

(* ===================================================================== *)
(** * More of workflow.js: the login check                                *)
(* ===================================================================== *)

(** [error.message], where the model knows its text: the rendering of
    the expression in "... is not iterable" is the engine's. *)
Definition errMessage (e : JsError) : option string :=
  match e with
  | TypeErrorRead ofNull prop =>
      Some ("Cannot read properties of "
            ++ (if ofNull then "null" else "undefined") ++ " (reading '" ++ prop ++ "')")
  | TypeErrorNotIterable => None
  | ErrorMsg msg => Some msg
  end.

Module LoginCheck.
Section WithEnv.
Variable E : Env.

(** [usernamePart && usernamePart.trim().length > 0]: the empty string
    itself when the part is empty, [undefined] when there is no part. *)
Definition loggedInValue (usernamePart : option string) : option JsVal :=
  match usernamePart with
  | None => None
  | Some part =>
      if String.eqb part "" then Some (VStr "")
      else Some (VBool (Nat.ltb 0 (String.length (trim part))))
  end.

(** [WorkflowManager.runInitialChecks]; nothing in its [try] block throws
    here, the [catch] is kept for the shape. *)
Definition runInitialChecks : M unit :=
  try_catch
    (profileLink <- UIManager.findElement E "loginStatus.profileLink" ;;
     let href := match profileLink with
                 | Some link => getAttribute link "href"
                 | None => None
                 end in
     match profileLink, href with
     | Some link, Some h =>
         if includes "/@" h then
           let usernamePart := nth_error (split "/@" h) 1 in
           let isLoggedIn := loggedInValue usernamePart in
           let hasAvatar := UIManager.findElementIn E "loginStatus.avatarImage" link in
           let username := match usernamePart with
                           | Some part => if truthy isLoggedIn then VStr (trim part) else VNull
                           | None => VNull
                           end in
           MessageBus.broadcast E "LOGIN_STATUS_UPDATE"
             (optInsert "isLoggedIn" isLoggedIn
                {[ "username" := username; "hasUserAvatar" := VBool hasAvatar ]})
         else
           MessageBus.broadcast E "LOGIN_STATUS_UPDATE" {[ "isLoggedIn" := VBool false ]}
     | _, _ =>
         MessageBus.broadcast E "LOGIN_STATUS_UPDATE" {[ "isLoggedIn" := VBool false ]}
     end)
    (fun error =>
       match errMessage error with
       | Some text =>
           MessageBus.broadcast E "LOGIN_STATUS_UPDATE"
             {[ "isLoggedIn" := VBool false; "error" := VStr text ]}
       | None => halt Unmodelled
       end).

End WithEnv.
End LoginCheck.

(* ===================================================================== *)
(** * More of message-bus.js: the handler registry and dispatch           *)
(* ===================================================================== *)

(** A handler gets [message.payload || {}] and returns its result. *)
Definition Handler : Type := JsVal -> M (option JsVal).

(** What [sendResponse] is called with. *)
Inductive Reply :=
  | ReplyOk (result : option JsVal)     (* { success: true, result } *)
  | ReplyError (error : string).        (* { success: false, error } *)

(** The names of the six default handlers. *)
Definition defaultHandlerNames : list string :=
  ["UPDATE_PROGRESS"; "VIDEO_REMOVED"; "STATUS_UPDATE"; "ERROR"; "PING"; "RESTORE_STATE"].

(** Names every object literal answers to through its prototype. *)
Definition objectPrototypeNames : list string :=
  ["constructor"; "__proto__"; "hasOwnProperty"; "isPrototypeOf";
   "propertyIsEnumerable"; "toLocaleString"; "toString"; "valueOf";
   "__defineGetter__"; "__defineSetter__"; "__lookupGetter__"; "__lookupSetter__"].

Module Bus.
Section WithEnv.
Variable E : Env.

(** [on(type, handler)]. *)
Definition on (type : string) (handler : Handler) (handlers : gmap string Handler)
  : option (gmap string Handler) :=
  match normType type with
  | Some type' => Some (<[type' := handler]> handlers)
  | None => None
  end.

(** [off(type)]. *)
Definition off (type : string) (handlers : gmap string Handler)
  : option (gmap string Handler) :=
  match normType type with
  | Some type' => Some (delete type' handlers)
  | None => None
  end.

(** [getDefaultHandler(type)]: [stateHandlers[type]].  The lookup goes
    through the prototype of the literal, so the names of
    [Object.prototype] find something too: [toString] finds the function
    that, called without a receiver, returns the tag of [undefined];
    [__proto__] finds the prototype itself, which is no function, so
    calling it throws; [constructor] finds [Object], which returns the
    object it is given (the payload is never falsy here; a primitive one
    would be boxed, which is not modelled); the others find functions
    that throw a [TypeError] when called without a receiver, with a
    message text that is the engine's: these are not modelled. *)
Definition getDefaultHandler (type : string) : Res (option Handler) :=
  if String.eqb type "UPDATE_PROGRESS" then
    Ok (Some (fun p =>
                current <- lift (getProp (Some p) "current") ;;
                total <- lift (getProp (Some p) "total") ;;
                current <- lift (required current) ;;
                total <- lift (required total) ;;
                StateStore.update E {[ "stats" := VObj {[ "processedVideos" := current;
                                                          "totalReposts" := total ]} ]} ;;;
                ret None))
  else if String.eqb type "VIDEO_REMOVED" then
    Ok (Some (fun p => StateStore.incrementRemoved E (Some p) ;;; ret None))
  else if String.eqb type "STATUS_UPDATE" then
    Ok (Some (fun _ => ret None))
  else if String.eqb type "ERROR" then
    Ok (Some (fun p =>
                error <- lift (getProp (Some p) "error") ;;
                error <- lift (required error) ;;
                StateStore.update E {[ "lastError" := error ]} ;;;
                ret None))
  else if String.eqb type "PING" then
    Ok (Some (fun _ => ret (Some (VStr "PONG"))))
  else if String.eqb type "RESTORE_STATE" then
    Ok (Some (fun p => modify (set_csState p) ;;; ret None))
  else if String.eqb type "toString" then
    Ok (Some (fun _ => ret (Some (VStr "[object Undefined]"))))
  else if String.eqb type "__proto__" then
    Ok (Some (fun _ => throw (ErrorMsg "handler is not a function")))
  else if String.eqb type "constructor" then
    Ok (Some (fun p => match p with
                       | VObj _ | VArr _ => ret (Some p)
                       | _ => halt Unmodelled
                       end))
  else if bool_decide (type ∈ objectPrototypeNames) then Halt Unmodelled
  else Ok None.

(** [handleMessage(message, sender, sendResponse)]: the reply. *)
Definition handleMessage (handlers : gmap string Handler) (m : Msg) : M Reply :=
  handler <- match handlers !! mtype m with
             | Some h => ret (Some h)
             | None => lift (getDefaultHandler (mtype m))
             end ;;
  match handler with
  | Some h =>
      try_catch
        (result <- h (js_or (Some (payload m)) (VObj ∅)) ;; ret (ReplyOk result))
        (fun error =>
           match errMessage error with
           | Some text => ret (ReplyError text)
           | None => halt Unmodelled
           end)
  | None => ret (ReplyError ("Unknown message type: " ++ mtype m))
  end.

End WithEnv.
End Bus.

(** [StateStore.init]: the first fetch of the canonical state. *)
Module StoreInit.
Section WithEnv.
Variable E : Env.

Definition init : M unit :=
  try_catch
    (response <- StateStore.sendToBackground E "GET_STATE" ∅ ;;
     match response with
     | Some r => when (truthy response) (modify (set_csState r))
     | None => ret tt
     end)
    (fun _ => ret tt).

End WithEnv.
End StoreInit.

(* ===================================================================== *)
(** * More of background.js: the tab that navigates                       *)
(* ===================================================================== *)

Module TabEvents.
Section WithEnv.
Variable E : Env.

(** [tab.url && tab.url.includes('tiktok.com')]. *)
Definition onTikTok (url : option string) : bool :=
  match url with
  | Some u => negb (String.eqb u "") && includes "tiktok.com" u
  | None => false
  end.

(** The [chrome.tabs.onUpdated] listener (background.js 265-291);
    [injected] is what [ensureScriptsInjected(tabId)] resolves to.  The
    RESTORE_STATE message is handled in the tab by the bus's default
    handler. *)
Definition onUpdated (tabId : Z) (status url : option string) (injected : bool)
  : M unit :=
  st <- gets bgState ;;
  target <- lift (getPath2 st "process" "tabId") ;;
  when (strictEqNum target tabId)
    (when (bool_decide (status = Some "complete"))
       (if onTikTok url then
          when injected
            (st <- gets bgState ;;
             running <- lift (getPath2 st "process" "isRunning") ;;
             when (truthy running)
               (t <- now ;;
                effect (TabsSend (VNum tabId) (mkMsg "RESTORE_STATE" (VObj st) t)) ;;;
                when (Z.eqb tabId (selfTab E))
                     (Listeners.onRestoreState (Some (VObj st)))))
        else StateManager.resetProcess E false)).

End WithEnv.
End TabEvents.

(* ===================================================================== *)
(** * The CSV export of the removed list (utils.js, process-logger.js)    *)
(* ===================================================================== *)

Module ClearTokUtils.

(** The double-quote character. *)
Definition quote : ascii := ascii_of_nat 34.

(** [s.replace(/q/g, qq)] for the quote character [q]. *)
Fixpoint doubleQuotes (s : string) : string :=
  match s with
  | EmptyString => EmptyString
  | String c rest =>
      if Ascii.eqb c quote then String quote (String quote (doubleQuotes rest))
      else String c (doubleQuotes rest)
  end.

(** [escapeCSV(str)]: the string form of [str ?? ''] with its quotes
    doubled. *)
Definition escapeCSV (str : option JsVal) : string :=
  match str with
  | None | Some VNull => doubleQuotes ""
  | Some v => doubleQuotes (toStr v)
  end.

(** One cell of a row of [exportRemovedCSV]: the escaped text between
    quotes. *)
Definition csvCell (s : option JsVal) : string :=
  String quote (escapeCSV s ++ String quote EmptyString).

End ClearTokUtils.

(** How a CSV reader reads a quoted cell: after the opening quote, two
    quotes stand for one and a single quote ends the cell.  The result is
    the cell's text and what follows the cell. *)
Fixpoint readQuotedBody (s : string) : option (string * string) :=
  match s with
  | EmptyString => None
  | String c r =>
      if Ascii.eqb c ClearTokUtils.quote then
        match r with
        | String c2 r2 =>
            if Ascii.eqb c2 ClearTokUtils.quote then
              match readQuotedBody r2 with
              | Some (text, rest) => Some (String ClearTokUtils.quote text, rest)
              | None => None
              end
            else Some (EmptyString, r)
        | EmptyString => Some (EmptyString, EmptyString)
        end
      else
        match readQuotedBody r with
        | Some (text, rest) => Some (String c text, rest)
        | None => None
        end
  end.

Definition readQuoted (s : string) : option (string * string) :=
  match s with
  | String c body => if Ascii.eqb c ClearTokUtils.quote then readQuotedBody body else None
  | EmptyString => None
  end.

(** The text does not begin with a quote. *)
Definition noLeadingQuote (s : string) : bool :=
  match s with
  | String c _ => negb (Ascii.eqb c ClearTokUtils.quote)
  | EmptyString => true
  end.

(* ===================================================================== *)
(** * More vocabulary                                                     *)
(* ===================================================================== *)

(** The world after [update(updates)]: the cache is merged first, the
    update is sent, the background merges and broadcasts. *)
Definition afterUpdate (E : Env) (u : obj) (w : World) : Res unit * World :=
  afterBroadcast E
    (set_bgState (deepMerge (bgState w) u)
       (emit (RuntimeSend Content (mkMsg "UPDATE_STATE" (VObj u) (clock w)))
          (set_csState (VObj (deepMergeV (Some (csState w)) (VObj u))) w))).

(** The cached replica is the canonical state. *)
Definition inSync (w : World) : Prop := csState w = VObj (bgState w).

(** A computation that keeps a replica in sync whenever it completes. *)
Definition KeepsSync (m : M unit) : Prop :=
  forall w, inSync w -> (m w).1 = Ok tt -> inSync (m w).2.

(** The background starts again: its state is the constructor's, the
    storage is what it was. *)
Definition restarted (w : World) : World := set_bgState StateManager.initialState w.

(** No character of the string is a dot. *)
Fixpoint noDot (s : string) : bool :=
  match s with
  | EmptyString => true
  | String c rest => negb (Ascii.eqb c "."%char) && noDot rest
  end.

(** The messages of a given type among the effects. *)
Definition sentOfType (type : string) (e : Effect) : bool :=
  match e with
  | RuntimeSend Content m => String.eqb (mtype m) type
  | _ => false
  end.

Definition isClickOn (key : string) (e : Effect) : bool :=
  match e with
  | Click k => String.eqb k key
  | _ => false
  end.

(** Only state pushes arrive while the content script waits. *)
Definition isPush (i : Incoming) : bool :=
  match i with
  | InStateChanged _ | InRestoreState _ => true
  | InPause | InResume => false
  end.

(** The world after one GET_STATE round trip that refreshes the cache. *)
Definition refreshed (w : World) : World :=
  set_csState (VObj (bgState w))
    (emit (RuntimeSend Content (mkMsg "GET_STATE" (VObj ∅) (clock w))) w).

(** The canonical tab id is an integer id or reads as "no tab". *)
Definition tabIdUsable (w : World) : Prop :=
  match field (bgState w !! "process") "tabId" with
  | Some (VNum _) => True
  | v => truthy v = false
  end.

(** An update that leaves [stats.skippedVideos] alone. *)
Definition leavesSkipped (u : obj) : Prop :=
  match u !! "stats" with
  | None => True
  | Some (VObj su) => su !! "skippedVideos" = None
  | Some _ => False
  end.

(** What [stopProcess()] merges into a state, and the state after it. *)
Definition stopUpdate : obj :=
  {[ "process" := VObj {[ "isRunning" := VBool false; "isPaused" := VBool false;
                          "tabId" := VNull; "startTime" := VNull ]} ]}.

Definition stopped (st : obj) : obj := deepMerge st stopUpdate.

(** The effects of a terminal message of type [type] sent by the content
    script at time [t], when the canonical state [st] names no tab: the
    message, the background's push to the runtime, the write. *)
Definition terminalEffects (type : string) (p : obj) (t : Z) (st : obj) : list Effect :=
  [ RuntimeSend Content (mkMsg type (VObj p) t);
    RuntimeSend Background (mkMsg "STATE_CHANGED" (VObj st) t);
    StorageSet "cleartokState" (snapshotOf st) ].

(** The effects of [stopProcess()] at time [t], leaving the state [st]. *)
Definition stopEffects (t : Z) (st : obj) : list Effect :=
  [ RuntimeSend Content (mkMsg "UPDATE_STATE" (VObj stopUpdate) t);
    RuntimeSend Background (mkMsg "STATE_CHANGED" (VObj st) t) ].

Definition borderEffects (E : Env) (op : BorderOp) : list Effect :=
  if window_clearTokBorder E then [Border op] else [].

(** [runInitialChecks] completes, and what it does is to send one
    LOGIN_STATUS_UPDATE message with the payload [p]. *)
Definition sendsLoginStatus (E : Env) (w : World) (p : obj) : Prop :=
  LoginCheck.runInitialChecks E w =
    (Ok tt, emit (RuntimeSend Content (mkMsg "LOGIN_STATUS_UPDATE" (VObj p) (clock w))) w).

(** No code unit is a small ASCII letter or a dash: the type name is in
    the form the bus files it under. *)
Fixpoint isNormalised (s : string) : bool :=
  match s with
  | EmptyString => true
  | String c rest =>
      let n := nat_of_ascii c in
      negb (Nat.leb 97 n && Nat.leb n 122) && negb (Ascii.eqb c "-"%char)
      && isNormalised rest
  end.

(** [v[k1][k2]...[kn]] over own enumerable properties: what is found in
    [v] along the keys, [None] when a key is missing on the way. *)
Fixpoint readPath (keys : list string) (v : JsVal) : option JsVal :=
  match keys with
  | [] => Some v
  | k :: rest =>
      match spread (Some v) !! k with
      | Some x => readPath rest x
      | None => None
      end
  end.

(* ===================================================================== *)
(** * A second page, to look elements up on                               *)
(* ===================================================================== *)

(** The capital and the small e with acute accent, U+00C9 and U+00E9. *)
Definition capitalEAcute : ascii := ascii_of_nat 201.
Definition smallEAcute : ascii := ascii_of_nat 233.

(** The word REPOSTS with an accented E, in capitals between white space
    (two spaces before, a no-break space after), and in small letters. *)
Definition textREPOSTS : string :=
  "  R" ++ String capitalEAcute "POSTS" ++ String (ascii_of_nat 160) EmptyString.
Definition textReposts : string := "r" ++ String smallEAcute "posts".

(** A profile page: of the three selectors of the Reposts tab the first
    is rejected as invalid, the second matches nothing and the third
    finds the tab; the fallback selector finds three tabs, the second of
    them labelled with [textREPOSTS]. *)
Definition page1 : Dom :=
  mkDom (fun sel =>
           if String.eqb sel "p[" then None
           else if String.eqb sel "[data-e2e=repost-tab]" then Some (Some (elemOf "Reposts"))
           else Some None)
        (fun sel =>
           Some (if String.eqb sel ".tab"
                 then [elemOf " Videos "; elemOf textREPOSTS; elemOf "Liked"]
                 else []))
        1200 "https://www.tiktok.com/@someone".

Definition E1 : Env :=
  mkEnv 7
        (fun k =>
           if String.eqb k "navigation.repostTab"
           then Some (SelMany ["p["; ".missing"; "[data-e2e=repost-tab]"])
           else if String.eqb k "navigation.repostTabFallback" then Some (SelOne ".tab")
           else None)
        (fun _ => page1) (fun _ => []) (fun _ => 0%nat) (fun _ => 0%nat) true true.

(** Thirty small e with acute accent: thirty code units. *)
Definition accentedTitle : string :=
  string_of_list_ascii (replicate 30 smallEAcute).

(** A player view whose title is [accentedTitle] between a line feed, two
    spaces and a no-break space, and which shows no author. *)
Definition page2 : Dom :=
  mkDom (fun sel =>
           Some (if String.eqb sel ".title"
                 then Some (elemOf (String (ascii_of_nat 10) "  " ++ accentedTitle
                                      ++ String (ascii_of_nat 160) EmptyString))
                 else None))
        (fun _ => Some [])
        900 "https://www.tiktok.com/@me/video/123456789012?x=1".

Definition E2 : Env :=
  mkEnv 7
        (fun k =>
           if String.eqb k "video.title" then Some (SelOne ".title")
           else if String.eqb k "video.author" then Some (SelOne ".author")
           else None)
        (fun _ => page2) (fun _ => []) (fun _ => 0%nat) (fun _ => 0%nat) true true.
(* ===================================================================== *)
(** * Reasoning about runs                                                *)
(* ===================================================================== *)

#[local] Arguments deepMerge : simpl never.
#[local] Arguments deepMergeV : simpl never.
#[local] Arguments mergeField : simpl never.
#[local] Arguments truthy : simpl never.
#[local] Arguments js_or : simpl never.
#[local] Arguments getPath2 : simpl never.
#[local] Arguments getProp : simpl never.
#[local] Arguments String.eqb : simpl never.
#[local] Arguments Z.eqb : simpl never.
#[local] Arguments Z.ltb : simpl never.
#[local] Arguments Z.leb : simpl never.
#[local] Arguments Z.add : simpl never.
#[local] Arguments Z.mul : simpl never.
#[local] Arguments Z.div : simpl never.
#[local] Arguments Z.modulo : simpl never.
#[local] Arguments Z.to_nat : simpl never.
#[local] Arguments Z.of_nat : simpl never.

Ltac unfold_monad :=
  unfold bind, ret, gets, modify, effect, lift, when, now, throw, halt, swallow,
    try_catch in *.

(** Lookups in object literals. *)
Ltac map_lookup :=
  repeat first
    [ rewrite lookup_insert_eq
    | rewrite lookup_insert_ne by (intros ?; discriminate)
    | rewrite lookup_singleton_eq
    | rewrite lookup_singleton_ne by (intros ?; discriminate)
    | rewrite lookup_empty ].

Section Merge.

(** The loop of [deepMerge], key by key: a key of the source other than
    [__proto__] is written by [mergeField], every other key keeps the
    target's value. *)
Lemma deepMergeV_lookup_any (target : option JsVal) (s : obj) (k : string) :
  deepMergeV target (VObj s) !! k =
    match (if String.eqb k "__proto__" then None else s !! k) with
    | Some sv => Some (mergeField (spread target !! k) sv)
    | None => spread target !! k
    end.
Proof.
  unfold deepMergeV; fold deepMergeV.
  apply (map_fold_weak_ind
           (fun (r : obj) (m : obj) =>
              r !! k = match (if String.eqb k "__proto__" then None else m !! k) with
                       | Some sv => Some (mergeField (spread target !! k) sv)
                       | None => spread target !! k
                       end)).
  - rewrite lookup_empty. by destruct (String.eqb k "__proto__").
  - intros i x m r Hi IH.
    destruct (String.eqb_spec i "__proto__") as [->|Hproto].
    + destruct (String.eqb_spec k "__proto__") as [->|Hk]; [exact IH|].
      by rewrite lookup_insert_ne.
    + destruct (decide (i = k)) as [->|Hne].
      * rewrite !lookup_insert_eq. rewrite Hi in IH.
        destruct (String.eqb_spec k "__proto__") as [->|Hk]; [done|].
        unfold mergeField. by rewrite IH.
      * by rewrite !lookup_insert_ne.
Qed.

Lemma deepMergeV_lookup (target : option JsVal) (s : obj) (k : string) :
  s !! "__proto__" = None ->
  deepMergeV target (VObj s) !! k =
    match s !! k with
    | Some sv => Some (mergeField (spread target !! k) sv)
    | None => spread target !! k
    end.
Proof.
  intros Hs. rewrite deepMergeV_lookup_any.
  destruct (String.eqb_spec k "__proto__") as [->|Hk]; [by rewrite Hs|done].
Qed.

Lemma deepMerge_lookup (target source : obj) (k : string) :
  source !! "__proto__" = None ->
  deepMerge target source !! k =
    match source !! k with
    | Some sv => Some (mergeField (target !! k) sv)
    | None => target !! k
    end.
Proof. intros Hs. unfold deepMerge. by rewrite deepMergeV_lookup. Qed.

Lemma mergeField_cases (old : option JsVal) (sv : JsVal) :
  mergeField old sv =
    match sv with
    | VObj s => VObj (deepMergeV (Some (js_or old (VObj ∅))) (VObj s))
    | _ => sv
    end.
Proof. by destruct sv. Qed.

Lemma js_or_obj (o : obj) (b : JsVal) : js_or (Some (VObj o)) b = VObj o.
Proof. reflexivity. Qed.

(** A one-key update rewrites that key and nothing else. *)
Lemma deepMerge_singleton (target : obj) (k : string) (sv : JsVal) :
  k <> "__proto__" ->
  deepMerge target {[ k := sv ]} = <[k := mergeField (target !! k) sv]> target.
Proof.
  intros Hk. apply map_eq. intros j.
  rewrite deepMerge_lookup by (by rewrite lookup_singleton_ne).
  destruct (decide (k = j)) as [->|Hne].
  - by rewrite lookup_singleton_eq, lookup_insert_eq.
  - by rewrite lookup_singleton_ne, lookup_insert_ne.
Qed.

(** [spread (v || {})] has the fields of [v]. *)
Lemma spread_js_or_empty (v : option JsVal) :
  spread (Some (js_or v (VObj ∅))) = spread v.
Proof.
  destruct v as [[ |b|n|s|l|o]|]; try reflexivity.
  - by destruct b.
  - unfold js_or, truthy. by destruct (Z.eqb n 0) eqn:Hn; [apply Z.eqb_eq in Hn as ->|].
  - unfold js_or, truthy. destruct (String.eqb s "") eqn:Hs; [|done].
    by apply String.eqb_eq in Hs as ->.
Qed.

(** Fields of a merged section: the fields of the update are written,
    the others are those the section had. *)
Lemma mergeField_field (old : option JsVal) (s : obj) (k : string) :
  s !! "__proto__" = None ->
  field (Some (mergeField old (VObj s))) k =
    match s !! k with
    | Some sv => Some (mergeField (field old k) sv)
    | None => field old k
    end.
Proof.
  intros Hs. unfold field. rewrite mergeField_cases. cbn [spread].
  by rewrite deepMergeV_lookup, spread_js_or_empty.
Qed.

(** An update that sets no prototype has no [__proto__] key, and neither
    have the objects it holds. *)
Lemma setsProto_false (s : obj) :
  setsProto (VObj s) = false ->
  s !! "__proto__" = None
  /\ forall k o, s !! k = Some (VObj o) -> setsProto (VObj o) = false.
Proof.
  unfold setsProto at 1; fold setsProto.
  apply (map_fold_weak_ind
           (fun (r : bool) (m : obj) =>
              r = false ->
              m !! "__proto__" = None
              /\ forall k o, m !! k = Some (VObj o) -> setsProto (VObj o) = false)).
  - intros _. split; [apply lookup_empty|]. intros k o. by rewrite lookup_empty.
  - intros i x m r Hi IH Hr.
    apply orb_false_iff in Hr as [Hr Hx]. apply orb_false_iff in Hr as [Hr Hi'].
    destruct (IH Hr) as [IH1 IH2]. apply String.eqb_neq in Hi'. split.
    + by rewrite lookup_insert_ne.
    + intros k o. destruct (decide (i = k)) as [->|Hne].
      * rewrite lookup_insert_eq. by intros [= ->].
      * rewrite lookup_insert_ne by done. apply IH2.
Qed.

Lemma setsProto_key (s : obj) : setsProto (VObj s) = false -> s !! "__proto__" = None.
Proof. intros H. by apply setsProto_false. Qed.

(** A one-key update sets a prototype when the key is [__proto__] or the
    value does. *)
Lemma setsProto_singleton (k : string) (sv : JsVal) :
  setsProto (VObj {[ k := sv ]}) = String.eqb k "__proto__" || setsProto sv.
Proof.
  unfold setsProto at 1; fold setsProto. by rewrite map_fold_singleton.
Qed.

(** An array contributes its elements under their indices. *)
Lemma indexed_lookup (l : list JsVal) (i : nat) : indexed l !! pretty i = l !! i.
Proof.
  unfold indexed.
  assert (Hgen : forall (n : nat) (l : list JsVal) (i : nat),
             (list_to_map (imap (fun j v => (pretty (n + j)%nat, v)) l) : obj)
               !! pretty (n + i)%nat = l !! i
             /\ forall m : nat, (m < n)%nat ->
                  (list_to_map (imap (fun j v => (pretty (n + j)%nat, v)) l) : obj)
                    !! pretty m = None).
  { clear. intros n l. revert n. induction l as [|x l IH]; intros n i.
    - split; [reflexivity|]. intros m _. reflexivity.
    - cbn [imap].
      assert (Hext : imap ((fun j v => (pretty (n + j)%nat, v)) ∘ S) l
                     = imap (fun j v => (pretty (S n + j)%nat, v)) l).
      { apply imap_ext. intros j y _. cbn. do 2 f_equal. lia. }
      rewrite Hext, list_to_map_cons. split.
      + destruct i as [|i].
        * rewrite Nat.add_0_r. by rewrite lookup_insert_eq.
        * rewrite lookup_insert_ne.
          2:{ intros Heq. apply (inj pretty) in Heq. lia. }
          replace (n + S i)%nat with (S n + i)%nat by lia.
          apply (IH (S n) i).
      + intros m Hm. rewrite lookup_insert_ne.
        2:{ intros Heq. apply (inj pretty) in Heq. lia. }
        apply (IH (S n) 0%nat). lia. }
  apply (Hgen 0%nat l i).
Qed.

End Merge.

(** An object literal has no [__proto__] key, and sets no prototype. *)
Ltac noproto :=
  first [ assumption | (map_lookup; reflexivity) | (vm_compute; reflexivity) ].

Section StateManagerRuns.
Variable E : Env.

Lemma broadcastState_run w :
  StateManager.broadcastState E w = afterBroadcast E w.
Proof.
  unfold StateManager.broadcastState, afterBroadcast, pushTarget,
    StateManager.tabsSend, Listeners.onStateChanged, stateChanged.
  unfold_monad. cbn.
  destruct (getPath2 _ _ _) as [[tid|]| |]; cbn; try reflexivity.
  destruct (truthy (Some tid)) eqn:Ht; cbn; try reflexivity.
  destruct tid; cbn; try reflexivity.
  rewrite String.eqb_refl, andb_true_r. by destruct (Z.eqb _ _).
Qed.

Lemma updateState_run updates w :
  setsProto (VObj updates) = false ->
  StateManager.updateState E updates w =
    afterBroadcast E (set_bgState (deepMerge (bgState w) updates) w).
Proof.
  intros Hproto. unfold StateManager.updateState. rewrite Hproto.
  unfold bind at 1. unfold modify at 1.
  by rewrite broadcastState_run.
Qed.

(** An update that would set a prototype is not run. *)
Lemma updateState_proto updates w :
  setsProto (VObj updates) = true ->
  StateManager.updateState E updates w = (Halt Unmodelled, w).
Proof. intros Hproto. unfold StateManager.updateState. by rewrite Hproto. Qed.

Lemma afterBroadcast_bgState w : bgState (afterBroadcast E w).2 = bgState w.
Proof.
  unfold afterBroadcast. destruct (pushTarget _) as [[t|]| |]; cbn; try done.
  by destruct (Z.eqb _ _).
Qed.

Lemma afterBroadcast_storage w : storage (afterBroadcast E w).2 = storage w.
Proof.
  unfold afterBroadcast. destruct (pushTarget _) as [[t|]| |]; cbn; try done.
  by destruct (Z.eqb _ _).
Qed.

Lemma afterBroadcast_clock w : clock (afterBroadcast E w).2 = clock w.
Proof.
  unfold afterBroadcast. destruct (pushTarget _) as [[t|]| |]; cbn; try done.
  by destruct (Z.eqb _ _).
Qed.

Lemma afterBroadcast_tick w : tick (afterBroadcast E w).2 = tick w.
Proof.
  unfold afterBroadcast. destruct (pushTarget _) as [[t|]| |]; cbn; try done.
  by destruct (Z.eqb _ _).
Qed.

(** The cache after a broadcast: overwritten with the canonical state
    when the push goes to this tab, untouched otherwise. *)
Lemma afterBroadcast_csState w :
  csState (afterBroadcast E w).2 = VObj (bgState w) \/
  csState (afterBroadcast E w).2 = csState w.
Proof.
  unfold afterBroadcast. destruct (pushTarget _) as [[t|]| |]; cbn; auto.
  destruct (Z.eqb _ _); cbn; auto.
Qed.

Lemma afterBroadcast_trace w :
  exists rest,
    trace (afterBroadcast E w).2
    = (trace w ++ RuntimeSend Background (stateChanged w) :: rest)%list
    /\ (rest = [] \/ exists t, rest = [TabsSend (VNum t) (stateChanged w)]).
Proof.
  unfold afterBroadcast.
  destruct (pushTarget _) as [[t|]| |]; cbn; try (exists []; split; [done|by left]).
  exists [TabsSend (VNum t) (stateChanged w)]. split; [|right; eauto].
  destruct (Z.eqb _ _); cbn; by rewrite <- app_assoc.
Qed.

Lemma updateState_bgState updates w :
  setsProto (VObj updates) = false ->
  bgState (StateManager.updateState E updates w).2 = deepMerge (bgState w) updates.
Proof. intros Hproto. by rewrite updateState_run, afterBroadcast_bgState. Qed.

End StateManagerRuns.



(* ===================================================================== *)
(** * Stepping through runs                                               *)
(* ===================================================================== *)

Section Monad.
Context {A B C : Type}.

Lemma bind_ret (a : A) (k : A -> M B) w : (x <- ret a ;; k x) w = k a w.
Proof. reflexivity. Qed.

Lemma bind_gets (f : World -> A) (k : A -> M B) w : (x <- gets f ;; k x) w = k (f w) w.
Proof. reflexivity. Qed.

Lemma bind_now (k : Z -> M B) w : (x <- now ;; k x) w = k (clock w) w.
Proof. reflexivity. Qed.

Lemma bind_modify (f : World -> World) (k : unit -> M B) w :
  (x <- modify f ;; k x) w = k tt (f w).
Proof. reflexivity. Qed.

Lemma bind_effect (e : Effect) (k : unit -> M B) w :
  (x <- effect e ;; k x) w = k tt (emit e w).
Proof. reflexivity. Qed.

Lemma bind_lift (r : Res A) (k : A -> M B) w :
  (x <- lift r ;; k x) w =
    match r with
    | Ok a => k a w
    | Throw e => (Throw e, w)
    | Halt s => (Halt s, w)
    end.
Proof. by destruct r. Qed.

Lemma bind_bind (m : M A) (f : A -> M B) (g : B -> M C) w :
  (y <- (x <- m ;; f x) ;; g y) w = (x <- m ;; y <- f x ;; g y) w.
Proof. unfold bind. by destruct (m w) as [[a|e|s] w1]. Qed.

Lemma bind_run (m : M A) (k : A -> M B) w a w1 :
  m w = (Ok a, w1) -> (x <- m ;; k x) w = k a w1.
Proof. unfold bind. by intros ->. Qed.

Lemma bind_split (m : M A) (k : A -> M B) w :
  (x <- m ;; k x) w =
    match m w with
    | (Ok a, w1) => k a w1
    | (Throw e, w1) => (Throw e, w1)
    | (Halt s, w1) => (Halt s, w1)
    end.
Proof. reflexivity. Qed.

Lemma run_ret (a : A) w : ret a w = (Ok a, w).
Proof. reflexivity. Qed.

End Monad.

Lemma run_effect (e : Effect) w : effect e w = (Ok tt, emit e w).
Proof. reflexivity. Qed.

Lemma run_modify (f : World -> World) w : modify f w = (Ok tt, f w).
Proof. reflexivity. Qed.

Lemma bind_when (b : bool) (m : M unit) {B} (k : unit -> M B) w :
  (x <- when b m ;; k x) w = if b then (x <- m ;; k x) w else k tt w.
Proof. by destruct b. Qed.

Lemma swallow_snd (m : M unit) w : (swallow m w).2 = (m w).2.
Proof. unfold swallow, try_catch. by destruct (m w) as [[[]|e|s] w1]. Qed.

(** One step of a run: the first action of a sequence is performed. *)
Ltac mstep :=
  first [ rewrite bind_bind
        | rewrite bind_ret
        | rewrite bind_gets
        | rewrite bind_now
        | rewrite bind_modify
        | rewrite bind_effect
        | rewrite run_ret
        | rewrite run_effect
        | rewrite run_modify ];
  cbv beta.

Ltac wsimpl :=
  cbn [bgState storage csState clock tick trace emit set_bgState set_storage
       set_csState set_clock set_tick fst snd].

Ltac msteps := repeat (mstep; wsimpl).

(** Run the first action of a sequence with an equation for it. *)
Tactic Notation "mrun" constr(L) :=
  first [ rewrite L | rewrite bind_split, L ]; cbv iota beta; wsimpl.

Section StoreRuns.
Variable E : Env.

Lemma getPath2_obj (st o : obj) (a b : string) :
  st !! a = Some (VObj o) -> getPath2 st a b = Ok (o !! b).
Proof. unfold getPath2. by intros ->. Qed.

Lemma saveToStorage_run w :
  StateManager.saveToStorage w =
    (Ok tt, emit (StorageSet "cleartokState" (snapshotOf (bgState w)))
              (set_storage (<["cleartokState" := snapshotOf (bgState w)]> (storage w)) w)).
Proof. reflexivity. Qed.

Lemma onMessage_UPDATE_STATE (u : obj) (t : Z) (w : World) :
  StateManager.onMessage E true (mkMsg "UPDATE_STATE" (VObj u) t) w =
    (x <- StateManager.updateState E u ;; ret None) w.
Proof. reflexivity. Qed.

Lemma update_run (u : obj) (w : World) :
  setsProto (VObj u) = false ->
  StateStore.update E u w =
    (match (afterUpdate E u w).1 with
     | Halt s => Halt s
     | _ => Ok tt
     end, (afterUpdate E u w).2).
Proof.
  intros Hproto.
  unfold StateStore.update, StateStore.sendToBackground, afterUpdate. rewrite Hproto.
  unfold bind at 1. unfold modify at 1.
  unfold bind at 1. unfold bind at 1. unfold now at 1, gets at 1.
  unfold bind at 1. unfold effect at 1, modify at 1.
  unfold try_catch. rewrite onMessage_UPDATE_STATE.
  unfold bind at 1. rewrite updateState_run by exact Hproto.
  cbn [clock set_csState bgState emit].
  destruct (afterBroadcast _ _) as [[[]|e|s] w1]; reflexivity.
Qed.

(** An update that would set a prototype is not run. *)
Lemma update_proto (u : obj) (w : World) :
  setsProto (VObj u) = true -> StateStore.update E u w = (Halt Unmodelled, w).
Proof. intros Hproto. unfold StateStore.update. by rewrite Hproto. Qed.

Lemma update_bgState (u : obj) (w : World) :
  setsProto (VObj u) = false ->
  bgState (StateStore.update E u w).2 = deepMerge (bgState w) u.
Proof.
  intros Hproto. rewrite update_run by exact Hproto. cbn [snd]. unfold afterUpdate.
  by rewrite afterBroadcast_bgState.
Qed.

Lemma getState_cached (w : World) :
  StateStore.getState E false w = (Ok (spread (Some (csState w))), w).
Proof. reflexivity. Qed.

End StoreRuns.
(* ===================================================================== *)
(** * StateStore: mutations, refresh, duration                            *)
(* ===================================================================== *)

Section StoreSync.
Variable E : Env.

Lemma update_keeps_sync (u : obj) : KeepsSync (StateStore.update E u).
Proof.
  intros w Hsync Hok. unfold inSync in *.
  destruct (setsProto (VObj u)) eqn:Hproto.
  { rewrite update_proto in Hok by exact Hproto. discriminate. }
  rewrite update_run by exact Hproto. cbn [snd]. unfold afterUpdate.
  rewrite afterBroadcast_bgState. cbn [bgState set_bgState].
  destruct (afterBroadcast_csState E
              (set_bgState (deepMerge (bgState w) u)
                 (emit (RuntimeSend Content (mkMsg "UPDATE_STATE" (VObj u) (clock w)))
                    (set_csState (VObj (deepMergeV (Some (csState w)) (VObj u))) w))))
    as [H|H]; rewrite H; cbn [bgState csState set_bgState set_csState emit];
    [reflexivity|].
  by rewrite Hsync.
Qed.




End StoreSync.



Section StoreFields.
Variable E : Env.

(** Fields of a section after a merge that names the section. *)
Lemma field_section_merge (st u pp : obj) (sec k : string) :
  u !! "__proto__" = None -> pp !! "__proto__" = None ->
  u !! sec = Some (VObj pp) ->
  field (deepMerge st u !! sec) k =
    match pp !! k with
    | Some sv => Some (mergeField (field (st !! sec) k) sv)
    | None => field (st !! sec) k
    end.
Proof.
  intros Hnu Hnp Hu. by rewrite deepMerge_lookup, Hu, mergeField_field.
Qed.

Lemma field_section_mergeV (cs : JsVal) (u pp : obj) (sec k : string) :
  u !! "__proto__" = None -> pp !! "__proto__" = None ->
  u !! sec = Some (VObj pp) ->
  field (field (Some (VObj (deepMergeV (Some cs) (VObj u)))) sec) k =
    match pp !! k with
    | Some sv => Some (mergeField (field (field (Some cs) sec) k) sv)
    | None => field (field (Some cs) sec) k
    end.
Proof.
  intros Hnu Hnp Hu. unfold field at 2. cbn [spread].
  by rewrite deepMergeV_lookup, Hu, mergeField_field.
Qed.

(** The cache after [update]: the pushed canonical state, or the cache's
    own merge. *)
Lemma update_csState (u : obj) (w : World) :
  setsProto (VObj u) = false ->
  csState (StateStore.update E u w).2 = VObj (deepMerge (bgState w) u)
  \/ csState (StateStore.update E u w).2 = VObj (deepMergeV (Some (csState w)) (VObj u)).
Proof.
  intros Hproto. rewrite update_run by exact Hproto. cbn [snd]. unfold afterUpdate.
  destruct (afterBroadcast_csState E
              (set_bgState (deepMerge (bgState w) u)
                 (emit (RuntimeSend Content (mkMsg "UPDATE_STATE" (VObj u) (clock w)))
                    (set_csState (VObj (deepMergeV (Some (csState w)) (VObj u))) w))))
    as [H|H]; rewrite H; cbn [bgState csState set_bgState set_csState emit]; auto.
Qed.

Lemma update_clock (u : obj) (w : World) : clock (StateStore.update E u w).2 = clock w.
Proof.
  destruct (setsProto (VObj u)) eqn:Hproto; [by rewrite update_proto|].
  rewrite update_run by exact Hproto. cbn [snd]. unfold afterUpdate.
  by rewrite afterBroadcast_clock.
Qed.

Lemma update_tick (u : obj) (w : World) : tick (StateStore.update E u w).2 = tick w.
Proof.
  destruct (setsProto (VObj u)) eqn:Hproto; [by rewrite update_proto|].
  rewrite update_run by exact Hproto. cbn [snd]. unfold afterUpdate.
  by rewrite afterBroadcast_tick.
Qed.

Lemma update_storage (u : obj) (w : World) : storage (StateStore.update E u w).2 = storage w.
Proof.
  destruct (setsProto (VObj u)) eqn:Hproto; [by rewrite update_proto|].
  rewrite update_run by exact Hproto. cbn [snd]. unfold afterUpdate.
  by rewrite afterBroadcast_storage.
Qed.

Lemma startProcess_is_update (tabId : option JsVal) (w : World) :
  StateStore.startProcess E tabId w =
    StateStore.update E
      {[ "process" := VObj (optInsert "tabId" tabId
                              {[ "isRunning" := VBool true; "isPaused" := VBool false;
                                 "startTime" := VNum (clock w) ]});
         "stats" := VObj {[ "totalReposts" := VNum 0; "processedVideos" := VNum 0;
                            "removedVideos" := VNum 0; "skippedVideos" := VNum 0 ]};
         "removedList" := VArr [] ]} w.
Proof. reflexivity. Qed.

End StoreFields.

(** Read a field of a section after a merge with an object literal. *)
Ltac merged_field :=
  rewrite ?deepMerge_lookup by noproto; map_lookup; cbv iota;
  rewrite ?mergeField_field by noproto; map_lookup; cbv iota.

(** X2.  [startProcess()] without a tab id marks the canonical state as
    running, not paused, started now; sets the four counters to zero and
    empties the removed list; and keeps the tab id the background chose,
    as well as [currentVideo].  The cache reads running and not paused
    afterwards.  With a tab id given, that id is written. *)
Theorem startProcess_resets_run_keeps_tab (E : Env) (w : World) (n : Z) :
  let w' := (StateStore.startProcess E None w).2 in
  field (bgState w' !! "process") "tabId" = field (bgState w !! "process") "tabId"
  /\ field (bgState w' !! "process") "isRunning" = Some (VBool true)
  /\ field (bgState w' !! "process") "isPaused" = Some (VBool false)
  /\ field (bgState w' !! "process") "startTime" = Some (VNum (clock w))
  /\ field (bgState w' !! "stats") "totalReposts" = Some (VNum 0)
  /\ field (bgState w' !! "stats") "processedVideos" = Some (VNum 0)
  /\ field (bgState w' !! "stats") "removedVideos" = Some (VNum 0)
  /\ field (bgState w' !! "stats") "skippedVideos" = Some (VNum 0)
  /\ bgState w' !! "removedList" = Some (VArr [])
  /\ bgState w' !! "currentVideo" = bgState w !! "currentVideo"
  /\ cachedFlag w' "isRunning" = true
  /\ cachedFlag w' "isPaused" = false
  /\ field (bgState (StateStore.startProcess E (Some (VNum n)) w).2 !! "process") "tabId"
     = Some (VNum n).
Proof.
  cbv zeta. rewrite !startProcess_is_update, !update_bgState by (vm_compute; reflexivity).
  cbn [optInsert].
  split_and!; try (merged_field; reflexivity).
  - unfold cachedFlag.
    set (pp := ({[ "isRunning" := VBool true; "isPaused" := VBool false;
                   "startTime" := VNum (clock w) ]} : obj)).
    set (u := ({[ "process" := VObj pp;
                  "stats" := VObj {[ "totalReposts" := VNum 0; "processedVideos" := VNum 0;
                                     "removedVideos" := VNum 0; "skippedVideos" := VNum 0 ]};
                  "removedList" := VArr [] ]} : obj)).
    assert (Hnp : setsProto (VObj u) = false) by (vm_compute; reflexivity).
    assert (Hnu : u !! "__proto__" = None) by (vm_compute; reflexivity).
    assert (Hnpp : pp !! "__proto__" = None) by (vm_compute; reflexivity).
    assert (Hu : u !! "process" = Some (VObj pp)) by (subst u; by map_lookup).
    destruct (update_csState E u w Hnp) as [H|H]; rewrite H.
    + unfold field at 2. cbn [spread].
      rewrite (field_section_merge _ _ _ "process" "isRunning" Hnu Hnpp Hu).
      subst pp. by map_lookup.
    + rewrite (field_section_mergeV _ _ _ "process" "isRunning" Hnu Hnpp Hu).
      subst pp. by map_lookup.
  - unfold cachedFlag.
    set (pp := ({[ "isRunning" := VBool true; "isPaused" := VBool false;
                   "startTime" := VNum (clock w) ]} : obj)).
    set (u := ({[ "process" := VObj pp;
                  "stats" := VObj {[ "totalReposts" := VNum 0; "processedVideos" := VNum 0;
                                     "removedVideos" := VNum 0; "skippedVideos" := VNum 0 ]};
                  "removedList" := VArr [] ]} : obj)).
    assert (Hnp : setsProto (VObj u) = false) by (vm_compute; reflexivity).
    assert (Hnu : u !! "__proto__" = None) by (vm_compute; reflexivity).
    assert (Hnpp : pp !! "__proto__" = None) by (vm_compute; reflexivity).
    assert (Hu : u !! "process" = Some (VObj pp)) by (subst u; by map_lookup).
    destruct (update_csState E u w Hnp) as [H|H]; rewrite H.
    + unfold field at 2. cbn [spread].
      rewrite (field_section_merge _ _ _ "process" "isPaused" Hnu Hnpp Hu).
      subst pp. by map_lookup.
    + rewrite (field_section_mergeV _ _ _ "process" "isPaused" Hnu Hnpp Hu).
      subst pp. by map_lookup.
Qed.

(** X3.  [getState(true)] in a content script makes one GET_STATE round
    trip, replaces the cache by the canonical state and returns it; the
    background is not changed.  On an extension page (a
    [chrome-extension:] address) the flag is ignored and the cache is
    returned as it is.  [init] makes the same round trip wherever it
    runs. *)
Theorem getState_forced_refresh (E : Env) (w : World) :
  StateStore.getState E true w =
    (if String.prefix "chrome-extension:" (href (dom E (tick w)))
     then (Ok (spread (Some (csState w))), w)
     else (Ok (bgState w), refreshed w))
  /\ StoreInit.init E w = (Ok tt, refreshed w)
  /\ bgState (refreshed w) = bgState w
  /\ inSync (refreshed w)
  /\ trace (refreshed w)
     = (trace w ++ [RuntimeSend Content (mkMsg "GET_STATE" (VObj ∅) (clock w))])%list.
Proof.
  split_and!; try reflexivity.
  unfold StateStore.getState, StateStore.isContentScript. msteps.
  destruct (String.prefix _ _); reflexivity.
Qed.

(** X4.  [getDuration] for a run started at [t0] (not after now): the
    total is the time since [t0]; minutes and seconds are its whole
    minutes and the whole seconds left over, so seconds stay below 60.
    Nothing is sent or changed. *)
Theorem getDuration_splits_elapsed_time
    (E : Env) (w : World) (p : obj) (t0 : Z)
    (Hp : field (Some (csState w)) "process" = Some (VObj p))
    (Ht0 : p !! "startTime" = Some (VNum t0))
    (Hnz : t0 <> 0)
    (Hle : t0 <= clock w) :
  exists d,
    StateStore.getDuration E w = (Ok d, w)
    /\ StateStore.total d = clock w - t0
    /\ 0 <= StateStore.minutes d
    /\ 0 <= StateStore.seconds d <= 59
    /\ 60000 * StateStore.minutes d + 1000 * StateStore.seconds d <= StateStore.total d
    /\ StateStore.total d < 60000 * StateStore.minutes d + 1000 * StateStore.seconds d + 1000.
Proof.
  unfold StateStore.getDuration.
  rewrite (bind_run _ _ _ _ _ (getState_cached E w)), bind_lift.
  unfold field in Hp. rewrite (getPath2_obj _ _ _ _ Hp), Ht0.
  assert (Htr : truthy (Some (VNum t0)) = true).
  { unfold truthy. apply negb_true_iff. by apply Z.eqb_neq. }
  rewrite Htr. cbn [negb]. rewrite bind_now, run_ret.
  eexists. split; [reflexivity|]. cbn [StateStore.total StateStore.minutes StateStore.seconds].
  set (T := clock w - t0). assert (0 <= T) by (subst T; lia).
  rewrite Z.rem_mod_nonneg by lia.
  pose proof (Z.mod_pos_bound T 60000 ltac:(lia)) as Hm.
  pose proof (Z.div_mod T 60000 ltac:(lia)) as Hd.
  pose proof (Z.mod_pos_bound (T mod 60000) 1000 ltac:(lia)) as Hm2.
  pose proof (Z.div_mod (T mod 60000) 1000 ltac:(lia)) as Hd2.
  assert (0 <= T / 60000) by (apply Z.div_pos; lia).
  assert (0 <= T mod 60000 / 1000) by (apply Z.div_pos; lia).
  assert (T mod 60000 / 1000 <= 59).
  { apply Z.lt_succ_r. apply Z.div_lt_upper_bound; lia. }
  split_and!; lia.
Qed.

(** X4 on the running world: started at 500, read at 1000. *)
Lemma getDuration_splits_elapsed_time_witness :
  500 <= clock w_running
  /\ exists d, StateStore.getDuration E0 w_running = (Ok d, w_running)
               /\ StateStore.total d = 500.
Proof.
  split; [vm_compute; discriminate|].
  destruct (getDuration_splits_elapsed_time E0 w_running
              {[ "isRunning" := VBool true; "isPaused" := VBool false;
                 "tabId" := VNum 7; "startTime" := VNum 500 ]} 500
              ltac:(reflexivity) ltac:(reflexivity) ltac:(discriminate)
              ltac:(vm_compute; discriminate)) as (d & Hd & Ht & _).
  exists d. split; [exact Hd|exact Ht].
Defined.

(* ===================================================================== *)
(** * Counting removals                                                   *)
(* ===================================================================== *)

(** X5.  [incrementRemoved(videoInfo)] computes the new count and the new
    list from the cache and sends them as the update: for a cached count
    [r] from [-2^53] to below [2^53] (where adding one is exact),
    afterwards the
    canonical [removedVideos] is [r + 1] and the canonical [removedList]
    is the cached list with one entry appended (the video's fields and
    [removedAt], the current time), whatever the canonical count and list
    were before.  The other counters of the canonical [stats] are
    kept. *)
Theorem incrementRemoved_writes_cached_count_plus_one
    (E : Env) (w : World) (s info : obj) (r : Z) (l : list JsVal) (k : string)
    (Hs : field (Some (csState w)) "stats" = Some (VObj s))
    (Hr : s !! "removedVideos" = Some (VNum r))
    (Hb : - 9007199254740992 <= r < 9007199254740992)
    (Hl : field (Some (csState w)) "removedList" = Some (VArr l))
    (Hk : k <> "removedVideos") :
  let w' := (StateStore.incrementRemoved E (Some (VObj info)) w).2 in
  let entry := VObj (<["removedAt" := VNum (clock w)]> info) in
  field (bgState w' !! "stats") "removedVideos" = Some (VNum (r + 1))
  /\ bgState w' !! "removedList" = Some (VArr (l ++ [entry]))
  /\ field (bgState w' !! "stats") k = field (bgState w !! "stats") k
  /\ bgState w' !! "process" = bgState w !! "process"
  /\ field (field (Some (csState w')) "stats") "removedVideos" = Some (VNum (r + 1)).
Proof.
  cbv zeta. unfold field in Hs, Hl.
  assert (Hexact : succIsExact r = true).
  { unfold succIsExact. apply andb_true_iff. split; [apply Z.leb_le|apply Z.ltb_lt]; lia. }
  set (u := (<["removedList" :=
                 VArr (l ++ [VObj (<["removedAt" := VNum (clock w)]> info)])]>
               ({[ "stats" := VObj {[ "removedVideos" := VNum (r + 1) ]} ]} : obj))).
  assert (Hnp : setsProto (VObj u) = false) by (vm_compute; reflexivity).
  assert (Hnu : u !! "__proto__" = None) by (subst u; by map_lookup).
  assert (Hrun : StateStore.incrementRemoved E (Some (VObj info)) w =
                 StateStore.update E u w).
  { unfold StateStore.incrementRemoved.
    rewrite (bind_run _ _ _ _ _ (getState_cached E w)), bind_lift.
    rewrite (getPath2_obj _ _ _ _ Hs), Hr, bind_lift. cbn [js_succ]. rewrite Hexact.
    change (truthy (Some (VObj info))) with true. cbv iota.
    rewrite bind_lift, Hl. cbn [spreadArray]. rewrite bind_now. reflexivity. }
  rewrite Hrun, update_bgState by exact Hnp.
  assert (Hu : u !! "stats" = Some (VObj {[ "removedVideos" := VNum (r + 1) ]}))
    by (subst u; by map_lookup).
  assert (Hnpp : ({[ "removedVideos" := VNum (r + 1) ]} : obj) !! "__proto__" = None)
    by (by map_lookup).
  split_and!.
  - rewrite (field_section_merge _ _ _ "stats" "removedVideos" Hnu Hnpp Hu). by map_lookup.
  - rewrite deepMerge_lookup by exact Hnu. subst u. by map_lookup.
  - rewrite (field_section_merge _ _ _ "stats" k Hnu Hnpp Hu).
    by rewrite lookup_singleton_ne.
  - rewrite deepMerge_lookup by exact Hnu. subst u. by map_lookup.
  - destruct (update_csState E u w Hnp) as [H|H]; rewrite H.
    + unfold field at 2. cbn [spread].
      rewrite (field_section_merge _ _ _ "stats" "removedVideos" Hnu Hnpp Hu).
      by map_lookup.
    + rewrite (field_section_mergeV _ _ _ "stats" "removedVideos" Hnu Hnpp Hu).
      by map_lookup.
Qed.

(** X5 on a world whose canonical count (9) is ahead of the cached one
    (4): the canonical count becomes 5. *)
Lemma incrementRemoved_writes_cached_count_plus_one_witness :
  let w := set_bgState
             (<["stats" := VObj {[ "removedVideos" := VNum 9 ]}]> running0) w_running in
  "totalReposts" <> "removedVideos"
  /\ - 9007199254740992 <= 4 < 9007199254740992
  /\ field (bgState w !! "stats") "removedVideos" = Some (VNum 9)
  /\ field (bgState (StateStore.incrementRemoved E0 (Some (VObj ∅)) w).2 !! "stats")
       "removedVideos" = Some (VNum 5).
Proof.
  cbv zeta. split; [discriminate|]. split; [lia|]. split; [reflexivity|].
  exact (proj1 (incrementRemoved_writes_cached_count_plus_one E0
                  (set_bgState (<["stats" := VObj {[ "removedVideos" := VNum 9 ]}]> running0)
                     w_running)
                  {[ "totalReposts" := VNum 10; "processedVideos" := VNum 4;
                     "removedVideos" := VNum 4; "skippedVideos" := VNum 0 ]}
                  ∅ 4 [VObj {[ "title" := VStr "t0" ]}] "totalReposts"
                  ltac:(reflexivity) ltac:(reflexivity) ltac:(lia) ltac:(reflexivity)
                  ltac:(discriminate))).
Defined.

(* ===================================================================== *)
(** * The background's handling of content messages                       *)
(* ===================================================================== *)

Section ContentMessages.
Variable E : Env.

Lemma updateState_snd_bgState (u : obj) (k : M unit) w :
  setsProto (VObj u) = false ->
  (forall w1, bgState (k w1).2 = bgState w1) ->
  bgState ((StateManager.updateState E u ;;; k) w).2 = deepMerge (bgState w) u.
Proof.
  intros Hproto Hk. rewrite bind_split.
  pose proof (updateState_bgState E u w Hproto) as H.
  destruct (StateManager.updateState E u w) as [[[]|e|s] w1]; cbn [snd] in *;
    [by rewrite Hk|done|done].
Qed.

(** What a content message does to the canonical state: nothing, or one
    merge that does not name [stats.skippedVideos]. *)
Lemma handleContentMessage_bgState (type : string) (p : option JsVal) w :
  bgState (StateManager.handleContentMessage E type p w).2 = bgState w
  \/ exists u, bgState (StateManager.handleContentMessage E type p w).2
               = deepMerge (bgState w) u
               /\ leavesSkipped u.
Proof.
  unfold StateManager.handleContentMessage.
  destruct (String.eqb type "UPDATE_PROGRESS").
  { rewrite bind_lift. destruct (getProp p "current") as [c| |]; [|by left|by left].
    rewrite bind_lift. destruct (getProp p "total") as [t| |]; [|by left|by left].
    rewrite bind_lift. destruct (required c) as [c'| |]; [|by left|by left].
    rewrite bind_lift. destruct (required t) as [t'| |]; [|by left|by left].
    destruct (setsProto (VObj {[ "stats" := VObj {[ "processedVideos" := c';
                                                    "totalReposts" := t' ]} ]})) eqn:Hproto.
    { left. by rewrite updateState_proto. }
    right. eexists. split; [by apply updateState_bgState|].
    unfold leavesSkipped. by map_lookup. }
  destruct (String.eqb type "VIDEO_REMOVED").
  { rewrite bind_gets, bind_lift.
    destruct (getPath2 _ _ _) as [r| |]; [|by left|by left].
    rewrite bind_lift. destruct (js_succ r) as [r1| |]; [|by left|by left].
    rewrite bind_lift. destruct (spreadArray _) as [old| |]; [|by left|by left].
    rewrite bind_now.
    match goal with
    | |- context [StateManager.updateState E ?u w] =>
        destruct (setsProto (VObj u)) eqn:Hproto
    end.
    { left. by rewrite updateState_proto. }
    right. eexists. split; [by apply updateState_bgState|].
    unfold leavesSkipped. by map_lookup. }
  destruct (_ || _).
  { right. eexists. split.
    - apply updateState_snd_bgState; [vm_compute; reflexivity|].
      intros w1. by rewrite saveToStorage_run.
    - unfold leavesSkipped. by map_lookup. }
  by left.
Qed.

Lemma snd_then_ret {A B} (m : M A) (b : B) w :
  ((x <- m ;; ret b) w).2 = (m w).2.
Proof. rewrite bind_split. by destruct (m w) as [[a|e|s] w1]. Qed.

Lemma deepMergeV_lookup_any_stats (st u : obj) :
  deepMerge st u !! "stats" =
    match u !! "stats" with
    | Some sv => Some (mergeField (st !! "stats") sv)
    | None => st !! "stats"
    end.
Proof. unfold deepMerge. by rewrite deepMergeV_lookup_any. Qed.

Lemma leavesSkipped_field (st u : obj) :
  leavesSkipped u ->
  field (deepMerge st u !! "stats") "skippedVideos" = field (st !! "stats") "skippedVideos".
Proof.
  unfold leavesSkipped. intros Hu. rewrite deepMergeV_lookup_any_stats.
  destruct (u !! "stats") as [[ | | | | |su]|]; try done.
  unfold field. rewrite mergeField_cases. cbn [spread].
  rewrite deepMergeV_lookup_any, spread_js_or_empty.
  change (String.eqb "skippedVideos" "__proto__") with false. cbv iota.
  by rewrite Hu.
Qed.

Lemma onMessage_content (m : Msg) (fromTab : bool) w :
  mtype m ∈ StateManager.contentUpdateTypes ->
  StateManager.onMessage E fromTab m w =
    (x <- when fromTab
            (StateManager.handleContentMessage E (mtype m) (Some (payload m))) ;;
     ret None) w.
Proof.
  intros Hin. unfold StateManager.onMessage.
  apply list_elem_of_In in Hin. cbn in Hin.
  destruct Hin as [<-|[<-|[<-|[<-|[<-|[<-|[<-|[]]]]]]]]; reflexivity.
Qed.

End ContentMessages.

(** X6.  The progress messages of the content script ([UPDATE_PROGRESS],
    [VIDEO_REMOVED], [VIDEO_SKIPPED], [STATUS_UPDATE], [ERROR],
    [COMPLETE], [NO_REPOSTS_FOUND]) act on the canonical state only when
    they come from a tab: from any other sender they are acknowledged and
    nothing changes.  And none of them, [VIDEO_SKIPPED] included, changes
    [stats.skippedVideos]. *)
Theorem content_messages_need_a_tab_and_keep_skipped
    (E : Env) (m : Msg) (w : World)
    (Htype : mtype m ∈ StateManager.contentUpdateTypes) :
  StateManager.onMessage E false m w = (Ok None, w)
  /\ field (bgState (StateManager.onMessage E true m w).2 !! "stats") "skippedVideos"
     = field (bgState w !! "stats") "skippedVideos".
Proof.
  rewrite !(onMessage_content E m _ w Htype). split; [reflexivity|].
  unfold when. rewrite snd_then_ret.
  destruct (handleContentMessage_bgState E (mtype m) (Some (payload m)) w)
    as [H|(u & H & Hu)]; rewrite H; [reflexivity|].
  by apply leavesSkipped_field.
Qed.

(** X6 on the running world, for a skipped video. *)
Lemma content_messages_need_a_tab_and_keep_skipped_witness :
  "VIDEO_SKIPPED" ∈ StateManager.contentUpdateTypes
  /\ field (bgState (StateManager.onMessage E0 true
                       (mkMsg "VIDEO_SKIPPED" (VObj {[ "index" := VNum 5 ]}) 1000)
                       w_running).2 !! "stats") "skippedVideos"
     = field (bgState w_running !! "stats") "skippedVideos".
Proof.
  assert (H : "VIDEO_SKIPPED" ∈ StateManager.contentUpdateTypes).
  { apply list_elem_of_In. cbn. tauto. }
  split; [exact H|].
  exact (proj2 (content_messages_need_a_tab_and_keep_skipped E0
                  (mkMsg "VIDEO_SKIPPED" (VObj {[ "index" := VNum 5 ]}) 1000)
                  w_running H)).
Defined.

(* ===================================================================== *)
(** * updateState: the merge and the rebroadcast                          *)
(* ===================================================================== *)

Section Rebroadcast.
Variable E : Env.

(** The nested law of the merge, with the two kinds of source value
    told apart. *)
Lemma deepMergeV_lookup_cases (target : option JsVal) (s : obj) (k : string) :
  s !! "__proto__" = None ->
  deepMergeV target (VObj s) !! k =
    match s !! k with
    | Some (VObj s') =>
        Some (VObj (deepMergeV (Some (js_or (spread target !! k) (VObj ∅))) (VObj s')))
    | Some sv => Some sv
    | None => spread target !! k
    end.
Proof.
  intros Hs. rewrite deepMergeV_lookup by exact Hs.
  destruct (s !! k) as [[ | | | | | ]|]; reflexivity.
Qed.

Lemma chars_lookup (s : string) (i : nat) :
  spread (Some (VStr s)) !! pretty i
  = (fun c => VStr (String c EmptyString)) <$> (String.list_ascii_of_string s !! i).
Proof. cbn [spread]. rewrite indexed_lookup. unfold chars. apply list_lookup_fmap. Qed.

(** The push of a state whose tab id is a non-zero integer. *)
Lemma afterBroadcast_to_tab (p : obj) (tab : Z) w :
  bgState w !! "process" = Some (VObj p) -> p !! "tabId" = Some (VNum tab) -> tab <> 0 ->
  afterBroadcast E w =
    (Ok tt,
     let w2 := emit (TabsSend (VNum tab) (stateChanged w))
                 (emit (RuntimeSend Background (stateChanged w)) w) in
     if Z.eqb tab (selfTab E) then set_csState (VObj (bgState w)) w2 else w2).
Proof.
  intros Hp Ht Hz. unfold afterBroadcast, pushTarget.
  rewrite (getPath2_obj _ _ _ _ Hp), Ht. unfold truthy.
  by rewrite (proj2 (Z.eqb_neq tab 0) Hz).
Qed.

Lemma afterBroadcast_nowhere (p : obj) w :
  bgState w !! "process" = Some (VObj p) -> truthy (p !! "tabId") = false ->
  afterBroadcast E w = (Ok tt, emit (RuntimeSend Background (stateChanged w)) w).
Proof.
  intros Hp Ht. unfold afterBroadcast, pushTarget.
  by rewrite (getPath2_obj _ _ _ _ Hp), Ht.
Qed.

End Rebroadcast.

(** C9.  [updateState(partial)] merges recursively and rebroadcasts.  For
    an update that assigns to no [__proto__] key, and a new state whose
    [process] is an object with a tab id that is an integer or reads as
    "no tab":

    - the call completes, the new state is the merge, the storage is not
      touched;
    - key by key, at every depth: a key whose value in the update is a
      plain object holds the merge of that object into what was there
      (into [{}] if that was falsy); a key whose value is an array, a
      primitive or [null] holds that value; a key the update does not
      name keeps its value;
    - what was there contributes its own properties: an object its
      keys, an array its elements under their indices, a string its
      characters under theirs, a number, a boolean, [null] or nothing at
      all no key;
    - an update of one field [f] of [stats] leaves every other field of
      [stats] and every other section as they were, and [f] holds the
      value (merged into what was there if it is a plain object);
    - one STATE_CHANGED message with the full new state goes to the
      runtime and, exactly when the new [process.tabId] is truthy, the
      same message goes to that tab; the cached replica of the content
      script becomes the new state when that tab is its own and stays as
      it is otherwise;
    - round trip: with the processing tab being the content script's
      own, [StateStore.update({stats: {removedVideos: n}})] leaves the
      cached replica equal to the canonical state, with
      [stats.removedVideos] at [n], every other field of [stats] and
      every other section as the canonical state had them. *)
Theorem updateState_merges_and_rebroadcasts
    (E : Env) (w : World) (updates p : obj)
    (Hproto : setsProto (VObj updates) = false)
    (Hp : deepMerge (bgState w) updates !! "process" = Some (VObj p))
    (Htab : match p !! "tabId" with
            | Some (VNum _) => True
            | v => truthy v = false
            end) :
  let st' := deepMerge (bgState w) updates in
  let message := mkMsg "STATE_CHANGED" (VObj st') (clock w) in
  let r := (StateManager.updateState E updates w).1 in
  let w' := (StateManager.updateState E updates w).2 in
  r = Ok tt
  /\ bgState w' = st'
  /\ storage w' = storage w
  /\ (forall k,
        st' !! k =
          match updates !! k with
          | Some (VObj s) =>
              Some (VObj (deepMergeV (Some (js_or (bgState w !! k) (VObj ∅))) (VObj s)))
          | Some sv => Some sv
          | None => bgState w !! k
          end)
  /\ (forall target s k,
        s !! "__proto__" = None ->
        deepMergeV target (VObj s) !! k =
          match s !! k with
          | Some (VObj s') =>
              Some (VObj (deepMergeV (Some (js_or (spread target !! k) (VObj ∅)))
                            (VObj s')))
          | Some sv => Some sv
          | None => spread target !! k
          end)
  /\ (forall k o, updates !! k = Some (VObj o) ->
        o !! "__proto__" = None /\ setsProto (VObj o) = false)
  /\ (forall o, spread (Some (VObj o)) = o)
  /\ (forall (l : list JsVal) (i : nat), spread (Some (VArr l)) !! pretty i = l !! i)
  /\ (forall (s : string) (i : nat),
        spread (Some (VStr s)) !! pretty i
        = (fun c => VStr (String c EmptyString)) <$> (String.list_ascii_of_string s !! i))
  /\ (forall n b, spread (Some (VNum n)) = ∅ /\ spread (Some (VBool b)) = ∅
                  /\ spread (Some VNull) = ∅ /\ spread None = ∅)
  /\ (forall (f f' sec : string) (v : JsVal),
        f' <> f -> sec <> "stats" -> f <> "__proto__" -> setsProto v = false ->
        let w1 := (StateManager.updateState E
                     {[ "stats" := VObj {[ f := v ]} ]} w).2 in
        field (bgState w1 !! "stats") f' = field (bgState w !! "stats") f'
        /\ field (bgState w1 !! "stats") f
           = match v with
             | VObj s =>
                 Some (VObj (deepMergeV
                               (Some (js_or (field (bgState w !! "stats") f) (VObj ∅)))
                               (VObj s)))
             | _ => Some v
             end
        /\ bgState w1 !! sec = bgState w !! sec)
  /\ (forall tab, p !! "tabId" = Some (VNum tab) -> tab <> 0 ->
        trace w' = (trace w ++ [RuntimeSend Background message;
                                TabsSend (VNum tab) message])%list
        /\ csState w' = if Z.eqb tab (selfTab E) then VObj st' else csState w)
  /\ (truthy (p !! "tabId") = false ->
        trace w' = (trace w ++ [RuntimeSend Background message])%list
        /\ csState w' = csState w)
  /\ (forall (p0 : obj) (n : Z) (f' sec : string),
        bgState w !! "process" = Some (VObj p0) ->
        p0 !! "tabId" = Some (VNum (selfTab E)) -> selfTab E <> 0 ->
        f' <> "removedVideos" -> sec <> "stats" ->
        let u : obj := {[ "stats" := VObj {[ "removedVideos" := VNum n ]} ]} in
        let w2 := (StateStore.update E u w).2 in
        (StateStore.update E u w).1 = Ok tt
        /\ csState w2 = VObj (bgState w2)
        /\ field (field (Some (csState w2)) "stats") "removedVideos" = Some (VNum n)
        /\ field (field (Some (csState w2)) "stats") f' = field (bgState w !! "stats") f'
        /\ field (Some (csState w2)) sec = bgState w !! sec).
Proof.
  cbv zeta.
  pose proof (setsProto_false updates Hproto) as [Hnu Hnested].
  rewrite updateState_run by exact Hproto.
  set (w0 := set_bgState (deepMerge (bgState w) updates) w).
  assert (Hp0 : bgState w0 !! "process" = Some (VObj p)) by exact Hp.
  assert (Hrun : afterBroadcast E w0 =
                 (Ok tt,
                  match p !! "tabId" with
                  | Some (VNum tab) =>
                      if Z.eqb tab 0 then emit (RuntimeSend Background (stateChanged w0)) w0
                      else
                        let w2 := emit (TabsSend (VNum tab) (stateChanged w0))
                                    (emit (RuntimeSend Background (stateChanged w0)) w0) in
                        if Z.eqb tab (selfTab E)
                        then set_csState (VObj (bgState w0)) w2 else w2
                  | _ => emit (RuntimeSend Background (stateChanged w0)) w0
                  end)).
  { destruct (p !! "tabId") as [[ | |tab| | | ]|] eqn:Ht;
      try (apply (afterBroadcast_nowhere E p); [exact Hp0|by rewrite Ht]).
    destruct (Z.eqb_spec tab 0) as [->|Hz].
    - apply (afterBroadcast_nowhere E p); [exact Hp0|by rewrite Ht].
    - by apply (afterBroadcast_to_tab E p). }
  rewrite Hrun. cbn [fst snd].
  split; [reflexivity|].
  split.
  { destruct (p !! "tabId") as [[ | |tab| | | ]|]; try reflexivity.
    destruct (Z.eqb tab 0); [reflexivity|]. by destruct (Z.eqb tab (selfTab E)). }
  split.
  { destruct (p !! "tabId") as [[ | |tab| | | ]|]; try reflexivity.
    destruct (Z.eqb tab 0); [reflexivity|]. by destruct (Z.eqb tab (selfTab E)). }
  split.
  { intros k. unfold deepMerge. rewrite deepMergeV_lookup_cases by exact Hnu. reflexivity. }
  split; [intros target s k Hs; by apply deepMergeV_lookup_cases|].
  split.
  { intros k o Hk. pose proof (Hnested k o Hk) as Hno. split; [|exact Hno].
    by apply setsProto_key. }
  split; [reflexivity|].
  split; [intros l i; apply indexed_lookup|].
  split; [intros s i; apply chars_lookup|].
  split; [by intros|].
  split.
  { intros f f' sec v Hne Hsec Hf Hv. cbv zeta.
    set (u1 := ({[ "stats" := VObj {[ f := v ]} ]} : obj)).
    assert (Hin : ({[ f := v ]} : obj) !! "__proto__" = None)
      by (by rewrite lookup_singleton_ne).
    assert (Hu1 : u1 !! "__proto__" = None) by (by subst u1; map_lookup).
    assert (Hs1 : setsProto (VObj u1) = false).
    { subst u1. rewrite !setsProto_singleton, Hv, orb_false_r.
      rewrite (proj2 (String.eqb_neq f "__proto__") Hf). reflexivity. }
    assert (Hst : u1 !! "stats" = Some (VObj {[ f := v ]})) by (by subst u1; map_lookup).
    rewrite (updateState_bgState E u1 w Hs1).
    split; [|split].
    - rewrite (field_section_merge _ _ _ "stats" f' Hu1 Hin Hst).
      by rewrite lookup_singleton_ne.
    - rewrite (field_section_merge _ _ _ "stats" f Hu1 Hin Hst).
      rewrite lookup_singleton_eq, mergeField_cases. by destruct v.
    - rewrite deepMerge_lookup by exact Hu1. subst u1. by rewrite lookup_singleton_ne. }
  split.
  { intros tab Ht Hz. rewrite Ht. rewrite (proj2 (Z.eqb_neq tab 0) Hz). cbv zeta.
    destruct (Z.eqb tab (selfTab E)); cbn [trace csState emit set_csState set_bgState w0];
      (split; [by rewrite <- app_assoc|reflexivity]). }
  split.
  { intros Hfalse.
    destruct (p !! "tabId") as [[ | |tab| | | ]|]; try (by split); try discriminate.
    unfold truthy in Hfalse. apply negb_false_iff in Hfalse. by rewrite Hfalse. }
  intros p0 n f' sec Hp0' Htab0 Hself Hf Hsec.
  set (u := ({[ "stats" := VObj {[ "removedVideos" := VNum n ]} ]} : obj)).
  assert (Hnp : setsProto (VObj u) = false) by (vm_compute; reflexivity).
  assert (Hnu' : u !! "__proto__" = None) by (by subst u; map_lookup).
  assert (Hnpp : ({[ "removedVideos" := VNum n ]} : obj) !! "__proto__" = None)
    by (by map_lookup).
  assert (Hu : u !! "stats" = Some (VObj {[ "removedVideos" := VNum n ]}))
    by (by subst u; map_lookup).
  rewrite update_run by exact Hnp. cbn [fst snd]. unfold afterUpdate.
  set (w1 := set_bgState (deepMerge (bgState w) u) _).
  assert (Hp1 : bgState w1 !! "process" = Some (VObj p0)).
  { subst w1. cbn [bgState set_bgState]. rewrite deepMerge_lookup by exact Hnu'.
    subst u. by map_lookup. }
  rewrite (afterBroadcast_to_tab E p0 (selfTab E) w1 Hp1 Htab0 Hself).
  cbv zeta. rewrite Z.eqb_refl. cbn [fst snd csState bgState set_csState emit].
  subst w1. cbn [bgState set_bgState].
  split; [reflexivity|]. split; [reflexivity|].
  split.
  { unfold field at 2. cbn [spread].
    rewrite (field_section_merge _ _ _ "stats" "removedVideos" Hnu' Hnpp Hu).
    by map_lookup. }
  split.
  { unfold field at 2. cbn [spread].
    rewrite (field_section_merge _ _ _ "stats" f' Hnu' Hnpp Hu).
    by rewrite lookup_singleton_ne. }
  unfold field. cbn [spread]. rewrite deepMerge_lookup by exact Hnu'.
  subst u. by rewrite lookup_singleton_ne.
Qed.

(** C9 on the running world, whose processing tab is the content
    script's own (tab 7): setting [removedVideos] to 5 is pushed to the
    runtime and to tab 7, the replica follows, and [totalReposts] stays
    at 10. *)
Lemma updateState_merges_and_rebroadcasts_witness :
  let u : obj := {[ "stats" := VObj {[ "removedVideos" := VNum 5 ]} ]} in
  let st' := deepMerge (bgState w_running) u in
  let message := mkMsg "STATE_CHANGED" (VObj st') (clock w_running) in
  setsProto (VObj u) = false
  /\ (StateManager.updateState E0 u w_running).1 = Ok tt
  /\ bgState (StateManager.updateState E0 u w_running).2 = st'
  /\ field (st' !! "stats") "removedVideos" = Some (VNum 5)
  /\ field (st' !! "stats") "totalReposts" = Some (VNum 10)
  /\ trace (StateManager.updateState E0 u w_running).2
     = [RuntimeSend Background message; TabsSend (VNum 7) message]
  /\ csState (StateManager.updateState E0 u w_running).2 = VObj st'
  /\ field (field (Some (csState (StateStore.update E0 u w_running).2)) "stats")
       "removedVideos" = Some (VNum 5)
  /\ field (field (Some (csState (StateStore.update E0 u w_running).2)) "stats")
       "totalReposts" = Some (VNum 10).
Proof.
  cbv zeta.
  set (u := ({[ "stats" := VObj {[ "removedVideos" := VNum 5 ]} ]} : obj)).
  set (p := ({[ "isRunning" := VBool true; "isPaused" := VBool false;
                "tabId" := VNum 7; "startTime" := VNum 500 ]} : obj)).
  assert (Hproto : setsProto (VObj u) = false) by (vm_compute; reflexivity).
  assert (Hp : deepMerge (bgState w_running) u !! "process" = Some (VObj p))
    by (vm_compute; reflexivity).
  assert (Hid : match p !! "tabId" with
                | Some (VNum _) => True
                | v => truthy v = false
                end) by exact I.
  assert (Ht : p !! "tabId" = Some (VNum 7)) by (vm_compute; reflexivity).
  assert (Hp0 : bgState w_running !! "process" = Some (VObj p)) by (vm_compute; reflexivity).
  pose proof (updateState_merges_and_rebroadcasts E0 w_running u p Hproto Hp Hid)
    as (Hr & Hbg & _ & Hkeys & Hnest & _ & _ & _ & _ & _ & Hone & Hpush & _ & Hround).
  cbv zeta in Hr, Hbg, Hkeys, Hone, Hpush, Hround.
  destruct (Hone "removedVideos" "totalReposts" "process" (VNum 5)
              ltac:(discriminate) ltac:(discriminate) ltac:(discriminate) eq_refl)
    as (Hkept & Hset & _).
  destruct (Hpush 7 Ht ltac:(lia)) as [Htrace Hcache].
  destruct (Hround p 5 "totalReposts" "process" Hp0 Ht ltac:(vm_compute; lia)
              ltac:(discriminate) ltac:(discriminate))
    as (_ & _ & Hnew & Hsib & _).
  split; [exact Hproto|]. split; [exact Hr|]. split; [exact Hbg|].
  split; [rewrite <- Hbg; exact Hset|].
  split; [rewrite <- Hbg; exact (eq_trans Hkept eq_refl)|].
  split; [exact Htrace|]. split; [exact Hcache|].
  split; [exact Hnew|]. exact (eq_trans Hsib eq_refl).
Defined.

Section Terminal.
Variable E : Env.

Lemma handle_VIDEO_REMOVED (p : option JsVal) (s : obj) (r : Z) (l : list JsVal) w :
  bgState w !! "stats" = Some (VObj s) ->
  s !! "removedVideos" = Some (VNum r) ->
  succIsExact r = true ->
  bgState w !! "removedList" = Some (VArr l) ->
  StateManager.handleContentMessage E "VIDEO_REMOVED" p w =
    StateManager.updateState E
      {[ "stats" := VObj {[ "removedVideos" := VNum (r + 1) ]};
         "removedList" := VArr (l ++ [VObj (<["removedAt" := VNum (clock w)]> (spread p))]) ]}
      w.
Proof.
  intros Hs Hr Hb Hl. unfold StateManager.handleContentMessage.
  change (String.eqb "VIDEO_REMOVED" "UPDATE_PROGRESS") with false.
  change (String.eqb "VIDEO_REMOVED" "VIDEO_REMOVED") with true. cbv iota.
  rewrite bind_gets, bind_lift, (getPath2_obj _ _ _ _ Hs), Hr, bind_lift.
  cbn [js_succ]. rewrite Hb, bind_lift, Hl. cbn [spreadArray]. by rewrite bind_now.
Qed.

(** The push target of a state from the tab id of its [process]. *)
Lemma pushTarget_usable (st : obj) :
  (exists p, st !! "process" = Some (VObj p)) ->
  match field (st !! "process") "tabId" with
  | Some (VNum _) => True
  | v => truthy v = false
  end ->
  exists t, pushTarget st = Ok t.
Proof.
  intros [p Hp] Hok. unfold pushTarget. rewrite (getPath2_obj _ _ _ _ Hp).
  unfold field in Hok. rewrite Hp in Hok. cbn [spread] in Hok.
  destruct (p !! "tabId") as [[ | |n| | | ]|]; try (rewrite Hok; by eexists).
  destruct (truthy (Some (VNum n))); by eexists.
Qed.

Lemma afterBroadcast_ok w :
  (exists t, pushTarget (bgState w) = Ok t) -> (afterBroadcast E w).1 = Ok tt.
Proof. intros [t Ht]. unfold afterBroadcast. rewrite Ht. by destruct t. Qed.

End Terminal.

(** X7.  A [VIDEO_REMOVED] message from the tab adds one to the canonical
    [removedVideos], for a count from [-2^53] to below [2^53] (where
    adding one is exact), and appends one entry to [removedList]: the payload's fields
    with [removedAt] set to the time of handling.  The other counters and
    [process] are kept, and nothing is written to storage by this
    message. *)
Theorem video_removed_counts_one
    (E : Env) (w : World) (p : JsVal) (t : Z) (s : obj) (r : Z) (l : list JsVal)
    (k : string)
    (Hs : bgState w !! "stats" = Some (VObj s))
    (Hr : s !! "removedVideos" = Some (VNum r))
    (Hb : - 9007199254740992 <= r < 9007199254740992)
    (Hl : bgState w !! "removedList" = Some (VArr l))
    (Hk : k <> "removedVideos") :
  let w' := (StateManager.onMessage E true (mkMsg "VIDEO_REMOVED" p t) w).2 in
  field (bgState w' !! "stats") "removedVideos" = Some (VNum (r + 1))
  /\ bgState w' !! "removedList"
     = Some (VArr (l ++ [VObj (<["removedAt" := VNum (clock w)]> (spread (Some p)))]))
  /\ field (bgState w' !! "stats") k = s !! k
  /\ bgState w' !! "process" = bgState w !! "process"
  /\ storage w' = storage w.
Proof.
  cbv zeta.
  assert (Hin : "VIDEO_REMOVED" ∈ StateManager.contentUpdateTypes).
  { apply list_elem_of_In. cbn. tauto. }
  rewrite (onMessage_content E (mkMsg "VIDEO_REMOVED" p t) true w Hin).
  unfold when. rewrite snd_then_ret.
  assert (Hexact : succIsExact r = true).
  { unfold succIsExact. apply andb_true_iff. split; [apply Z.leb_le|apply Z.ltb_lt]; lia. }
  cbn [mtype payload]. rewrite (handle_VIDEO_REMOVED E _ s r l w Hs Hr Hexact Hl).
  rewrite updateState_run by (vm_compute; reflexivity).
  rewrite afterBroadcast_bgState, afterBroadcast_storage.
  cbn [bgState storage set_bgState].
  split_and!; try reflexivity.
  - merged_field. reflexivity.
  - merged_field. reflexivity.
  - rewrite deepMerge_lookup by noproto. map_lookup. cbv iota.
    rewrite mergeField_field by noproto.
    rewrite lookup_singleton_ne by done. unfold field. by rewrite Hs.
  - rewrite deepMerge_lookup by noproto. by map_lookup.
Qed.

(** X7 on the running world: the fifth removal. *)
Lemma video_removed_counts_one_witness :
  "totalReposts" <> "removedVideos"
  /\ - 9007199254740992 <= 4 < 9007199254740992
  /\ field (bgState (StateManager.onMessage E0 true
                       (mkMsg "VIDEO_REMOVED" (VObj {[ "index" := VNum 5 ]}) 1000)
                       w_running).2 !! "stats") "removedVideos" = Some (VNum 5).
Proof.
  split; [discriminate|]. split; [lia|].
  exact (proj1 (video_removed_counts_one E0 w_running (VObj {[ "index" := VNum 5 ]}) 1000
                  {[ "totalReposts" := VNum 10; "processedVideos" := VNum 4;
                     "removedVideos" := VNum 4; "skippedVideos" := VNum 0 ]}
                  4 [VObj {[ "title" := VStr "t0" ]}] "totalReposts"
                  ltac:(reflexivity) ltac:(reflexivity) ltac:(lia) ltac:(reflexivity)
                  ltac:(discriminate))).
Defined.

(** X8.  [COMPLETE], [ERROR] and [NO_REPOSTS_FOUND] from the tab end the
    run on the canonical side: [isRunning] and [isPaused] become false
    while the tab id, the start time, [stats] and [removedList] stay, and
    [stats] and [removedList] are written to storage at once. *)
Theorem terminal_messages_stop_and_persist
    (E : Env) (w : World) (type : string) (payload : option JsVal)
    (Htype : type ∈ ["COMPLETE"; "ERROR"; "NO_REPOSTS_FOUND"])
    (Htab : tabIdUsable w) :
  let res := (StateManager.handleContentMessage E type payload w).1 in
  let w' := (StateManager.handleContentMessage E type payload w).2 in
  res = Ok tt
  /\ field (bgState w' !! "process") "isRunning" = Some (VBool false)
  /\ field (bgState w' !! "process") "isPaused" = Some (VBool false)
  /\ field (bgState w' !! "process") "tabId" = field (bgState w !! "process") "tabId"
  /\ field (bgState w' !! "process") "startTime" = field (bgState w !! "process") "startTime"
  /\ bgState w' !! "stats" = bgState w !! "stats"
  /\ bgState w' !! "removedList" = bgState w !! "removedList"
  /\ storage w' = <["cleartokState" := snapshotOf (bgState w)]> (storage w).
Proof.
  cbv zeta.
  set (u := ({[ "process" := VObj {[ "isRunning" := VBool false;
                                      "isPaused" := VBool false ]} ]} : obj)).
  assert (Hrun : StateManager.handleContentMessage E type payload w =
                 (StateManager.updateState E u ;;; StateManager.saveToStorage) w).
  { apply list_elem_of_In in Htype. cbn in Htype.
    destruct Htype as [<-|[<-|[<-|[]]]]; reflexivity. }
  assert (Hnp : setsProto (VObj u) = false) by (vm_compute; reflexivity).
  rewrite Hrun, bind_split, updateState_run by exact Hnp.
  set (w1 := set_bgState (deepMerge (bgState w) u) w).
  assert (Hproc : exists p, bgState w1 !! "process" = Some (VObj p)).
  { subst w1 u. cbn [bgState set_bgState]. rewrite deepMerge_lookup by noproto. map_lookup.
    rewrite mergeField_cases. by eexists. }
  assert (Htab1 : field (bgState w1 !! "process") "tabId"
                  = field (bgState w !! "process") "tabId").
  { subst w1 u. cbn [bgState set_bgState]. merged_field. reflexivity. }
  assert (Hok : (afterBroadcast E w1).1 = Ok tt).
  { apply afterBroadcast_ok, pushTarget_usable; [exact Hproc|].
    rewrite Htab1. exact Htab. }
  pose proof (afterBroadcast_bgState E w1) as Hbg.
  pose proof (afterBroadcast_storage E w1) as Hst.
  destruct (afterBroadcast E w1) as [r w2]. cbn [fst snd] in *. subst r.
  rewrite saveToStorage_run. cbn [fst snd bgState storage emit set_storage].
  rewrite Hbg, Hst. subst w1 u. cbn [bgState storage set_bgState].
  split_and!; try reflexivity.
  - merged_field. reflexivity.
  - merged_field. reflexivity.
  - merged_field. reflexivity.
  - merged_field. reflexivity.
  - rewrite deepMerge_lookup by noproto. by map_lookup.
  - rewrite deepMerge_lookup by noproto. by map_lookup.
  - unfold snapshotOf. rewrite !deepMerge_lookup by noproto. by map_lookup.
Qed.

(** X8 on the running world. *)
Lemma terminal_messages_stop_and_persist_witness :
  "COMPLETE" ∈ ["COMPLETE"; "ERROR"; "NO_REPOSTS_FOUND"]
  /\ tabIdUsable w_running
  /\ field (bgState (StateManager.handleContentMessage E0 "COMPLETE" None w_running).2
              !! "process") "isRunning" = Some (VBool false).
Proof.
  assert (H1 : "COMPLETE" ∈ ["COMPLETE"; "ERROR"; "NO_REPOSTS_FOUND"]).
  { apply list_elem_of_In. cbn. tauto. }
  assert (H2 : tabIdUsable w_running) by exact I.
  split; [exact H1|]. split; [exact H2|].
  exact (proj1 (proj2 (terminal_messages_stop_and_persist E0 w_running "COMPLETE" None
                         H1 H2))).
Defined.

(* ===================================================================== *)
(** * Tabs that navigate, and requests without a tab                      *)
(* ===================================================================== *)

Section NoTab.
Variable E : Env.

(** A canonical state whose tab id is [null] pushes to no tab. *)
Lemma pushTarget_null (st : obj) (p : obj) :
  st !! "process" = Some (VObj p) -> p !! "tabId" = Some VNull ->
  pushTarget st = Ok None.
Proof.
  intros Hp Ht. unfold pushTarget. by rewrite (getPath2_obj _ _ _ _ Hp), Ht.
Qed.

Lemma afterBroadcast_no_tab w :
  pushTarget (bgState w) = Ok None ->
  afterBroadcast E w = (Ok tt, emit (RuntimeSend Background (stateChanged w)) w).
Proof. unfold afterBroadcast. by intros ->. Qed.

Lemma resetProcess_false_run w :
  StateManager.resetProcess E false w =
    (Ok tt,
     let w1 := set_bgState
                 (deepMerge (bgState w)
                    {[ "process" := VObj (<["tabId" := VNull]>
                                            {[ "isRunning" := VBool false;
                                               "isPaused" := VBool false;
                                               "startTime" := VNull ]});
                       "currentVideo" := StateManager.emptyVideo ]}) w in
     emit (RuntimeSend Background (stateChanged w1)) w1).
Proof.
  unfold StateManager.resetProcess. cbn [negb].
  rewrite updateState_run by (vm_compute; reflexivity). cbv zeta.
  apply afterBroadcast_no_tab. cbn [bgState set_bgState].
  eapply pushTarget_null.
  - rewrite deepMerge_lookup by noproto. map_lookup. cbv iota. by rewrite mergeField_cases.
  - rewrite deepMergeV_lookup by noproto. by map_lookup.
Qed.

End NoTab.

(** X9.  When the processing tab finishes loading a page whose address
    does not contain the text [tiktok.com] (or has no address), the run
    is reset on the canonical side: not running, not paused, no tab id,
    no start time, the four fields of [currentVideo] emptied, while
    [stats] and [removedList] stay.  Unlike a closed tab, nothing is
    written to storage, and the one STATE_CHANGED message goes to the
    runtime only: the tab's cached replica is left as it was.  The test
    is on the text of the address: a page of another site whose address
    contains [tiktok.com] counts as TikTok, and there, as long as the
    scripts are not injected anew, nothing changes.  Updates of another
    tab, or other than [complete], change nothing either. *)
Theorem tab_leaving_tiktok_resets_without_saving
    (E : Env) (w : World) (p : obj) (tab : Z) (url : option string) (injected : bool)
    (Hp : bgState w !! "process" = Some (VObj p))
    (Htab : p !! "tabId" = Some (VNum tab))
    (Hurl : match url with
            | Some u => u = "" \/ includes "tiktok.com" u = false
            | None => True
            end) :
  let r := (TabEvents.onUpdated E tab (Some "complete") url injected w).1 in
  let w' := (TabEvents.onUpdated E tab (Some "complete") url injected w).2 in
  r = Ok tt
  /\ field (bgState w' !! "process") "isRunning" = Some (VBool false)
  /\ field (bgState w' !! "process") "isPaused" = Some (VBool false)
  /\ field (bgState w' !! "process") "tabId" = Some VNull
  /\ field (bgState w' !! "process") "startTime" = Some VNull
  /\ field (bgState w' !! "currentVideo") "index" = Some (VNum 0)
  /\ field (bgState w' !! "currentVideo") "title" = Some (VStr "")
  /\ field (bgState w' !! "currentVideo") "author" = Some (VStr "")
  /\ field (bgState w' !! "currentVideo") "url" = Some (VStr "")
  /\ bgState w' !! "stats" = bgState w !! "stats"
  /\ bgState w' !! "removedList" = bgState w !! "removedList"
  /\ storage w' = storage w
  /\ csState w' = csState w
  /\ trace w' = (trace w ++ [RuntimeSend Background (stateChanged w')])%list
  /\ (forall url', url' <> "" -> includes "tiktok.com" url' = true ->
        TabEvents.onUpdated E tab (Some "complete") (Some url') false w = (Ok tt, w))
  /\ includes "tiktok.com" "https://example.org/?from=tiktok.com" = true
  /\ (forall tab' status url',
        tab' <> tab \/ status <> Some "complete" ->
        TabEvents.onUpdated E tab' status url' injected w = (Ok tt, w)).
Proof.
  cbv zeta.
  assert (Hrun : TabEvents.onUpdated E tab (Some "complete") url injected w
                 = StateManager.resetProcess E false w).
  { unfold TabEvents.onUpdated. rewrite bind_gets, bind_lift.
    rewrite (getPath2_obj _ _ _ _ Hp), Htab. cbn [strictEqNum].
    rewrite Z.eqb_refl. cbn [when]. rewrite bool_decide_eq_true_2 by done.
    assert (Hoff : TabEvents.onTikTok url = false).
    { unfold TabEvents.onTikTok. destruct url as [u|]; [|reflexivity].
      destruct Hurl as [->|Hinc]; [reflexivity|]. rewrite Hinc. apply andb_false_r. }
    by rewrite Hoff. }
  rewrite Hrun, resetProcess_false_run. cbv zeta.
  cbn [fst snd bgState storage csState trace emit set_bgState].
  split_and!; try reflexivity.
  - merged_field. reflexivity.
  - merged_field. reflexivity.
  - merged_field. reflexivity.
  - merged_field. reflexivity.
  - unfold StateManager.emptyVideo. merged_field. reflexivity.
  - unfold StateManager.emptyVideo. merged_field. reflexivity.
  - unfold StateManager.emptyVideo. merged_field. reflexivity.
  - unfold StateManager.emptyVideo. merged_field. reflexivity.
  - rewrite deepMerge_lookup by noproto. by map_lookup.
  - rewrite deepMerge_lookup by noproto. by map_lookup.
  - intros url' Hne Hinc. unfold TabEvents.onUpdated.
    rewrite bind_gets, bind_lift, (getPath2_obj _ _ _ _ Hp), Htab. cbn [strictEqNum].
    rewrite Z.eqb_refl. cbn [when]. rewrite bool_decide_eq_true_2 by done.
    unfold TabEvents.onTikTok. rewrite Hinc, (proj2 (String.eqb_neq url' "") Hne).
    reflexivity.
  - intros tab' status url' Hor. unfold TabEvents.onUpdated.
    rewrite bind_gets, bind_lift, (getPath2_obj _ _ _ _ Hp), Htab. cbn [strictEqNum].
    destruct (Z.eqb_spec tab tab') as [->|Hne]; [|reflexivity].
    destruct Hor as [Hor|Hor]; [exfalso; apply Hor; reflexivity|]. cbn [when].
    rewrite (bool_decide_eq_false_2 _ Hor). reflexivity.
Qed.

(** X9 on the running world: its tab goes to another site. *)
Lemma tab_leaving_tiktok_resets_without_saving_witness :
  includes "tiktok.com" "https://example.org/" = false
  /\ field (bgState (TabEvents.onUpdated E0 7 (Some "complete")
                       (Some "https://example.org/") true w_running).2 !! "process")
       "isRunning" = Some (VBool false)
  /\ field (bgState (TabEvents.onUpdated E0 7 (Some "complete")
                       (Some "https://example.org/") true w_running).2 !! "currentVideo")
       "title" = Some (VStr "").
Proof.
  assert (H : includes "tiktok.com" "https://example.org/" = false)
    by (vm_compute; reflexivity).
  assert (Hp : bgState w_running !! "process"
               = Some (VObj {[ "isRunning" := VBool true; "isPaused" := VBool false;
                               "tabId" := VNum 7; "startTime" := VNum 500 ]}))
    by (vm_compute; reflexivity).
  assert (Ht : ({[ "isRunning" := VBool true; "isPaused" := VBool false;
                   "tabId" := VNum 7; "startTime" := VNum 500 ]} : obj) !! "tabId"
               = Some (VNum 7)) by (vm_compute; reflexivity).
  pose proof (tab_leaving_tiktok_resets_without_saving E0 w_running _ 7
                (Some "https://example.org/") true Hp Ht (or_intror H))
    as (_ & Hrun & _ & _ & _ & _ & Htitle & _).
  split; [exact H|]. split; [exact Hrun|exact Htitle].
Defined.

Section Requests.
Variable E : Env.

Lemma forwardPauseResume_no_tab (pause : bool) (p : obj) w :
  bgState w !! "process" = Some (VObj p) -> p !! "tabId" = Some VNull ->
  Main.forwardPauseResume E pause w = (Ok tt, w).
Proof.
  intros Hp Ht. unfold Main.forwardPauseResume.
  by rewrite bind_gets, bind_lift, (getPath2_obj _ _ _ _ Hp), Ht.
Qed.

(** A merge whose [process] names a tab id leaves that id in the state. *)
Lemma merged_process_tabId (st u pp : obj) (v : JsVal) :
  u !! "__proto__" = None -> pp !! "__proto__" = None ->
  u !! "process" = Some (VObj pp) -> pp !! "tabId" = Some v ->
  (forall o, v <> VObj o) ->
  exists p, deepMerge st u !! "process" = Some (VObj p) /\ p !! "tabId" = Some v.
Proof.
  intros Hnu Hnp Hu Hpp Hv. rewrite deepMerge_lookup, Hu, mergeField_cases by exact Hnu.
  eexists. split; [reflexivity|].
  rewrite deepMergeV_lookup, Hpp by exact Hnp. f_equal. rewrite mergeField_cases.
  destruct v; try reflexivity. by edestruct Hv.
Qed.

Lemma pushTarget_tab (st p : obj) (tab : Z) :
  st !! "process" = Some (VObj p) -> p !! "tabId" = Some (VNum tab) -> tab <> 0 ->
  pushTarget st = Ok (Some tab).
Proof.
  intros Hp Ht Hz. unfold pushTarget. rewrite (getPath2_obj _ _ _ _ Hp), Ht.
  unfold truthy. by rewrite (proj2 (Z.eqb_neq tab 0) Hz).
Qed.

End Requests.

(** X10.  A pause or resume request that reaches the background when the
    canonical state names no tab is dropped: nothing is forwarded and
    nothing changes.  That is the case after [stopProcess()] of the
    content script and after the background's own [resetProcess(false)],
    whatever the state was before. *)
Theorem pause_request_after_stop_is_dropped (E : Env) (w : World) (pause : bool) :
  let w1 := (StateStore.stopProcess E w).2 in
  let w2 := (StateManager.resetProcess E false w).2 in
  Main.forwardPauseResume E pause w1 = (Ok tt, w1)
  /\ Main.forwardPauseResume E pause w2 = (Ok tt, w2).
Proof.
  cbv zeta. split.
  - destruct (merged_process_tabId (bgState w)
                {[ "process" := VObj {[ "isRunning" := VBool false;
                                        "isPaused" := VBool false;
                                        "tabId" := VNull; "startTime" := VNull ]} ]}
                {[ "isRunning" := VBool false; "isPaused" := VBool false;
                   "tabId" := VNull; "startTime" := VNull ]} VNull)
      as (p & Hp & Ht); [by map_lookup|by map_lookup|by map_lookup|by map_lookup|discriminate|].
    apply (forwardPauseResume_no_tab E pause p); [|exact Ht].
    unfold StateStore.stopProcess. rewrite update_bgState by (vm_compute; reflexivity).
    exact Hp.
  - destruct (merged_process_tabId (bgState w)
                {[ "process" := VObj (<["tabId" := VNull]>
                                        {[ "isRunning" := VBool false;
                                           "isPaused" := VBool false;
                                           "startTime" := VNull ]});
                   "currentVideo" := StateManager.emptyVideo ]}
                (<["tabId" := VNull]>
                   {[ "isRunning" := VBool false; "isPaused" := VBool false;
                      "startTime" := VNull ]}) VNull)
      as (p & Hp & Ht); [by map_lookup|by map_lookup|by map_lookup|by map_lookup|discriminate|].
    apply (forwardPauseResume_no_tab E pause p); [|exact Ht].
    rewrite resetProcess_false_run. cbv zeta. cbn [snd bgState emit set_bgState].
    exact Hp.
Qed.

(** X11.  Once [handleRemoveReposts] has chosen a tab, the canonical
    state names that tab, is not yet running (the content script sets
    that itself), starts now, and has its four counters at zero and an
    empty removed list.  The new state is pushed to the runtime and to the
    chosen tab, whose cached replica then equals the canonical state.
    The [startProcess()] of the workflow that follows keeps the tab id
    and marks the state as running. *)
Theorem chosen_tab_is_recorded_and_kept
    (E : Env) (w : World) (tab : Z) (Htab : tab <> 0) :
  let r := (StateManager.handleRemoveReposts_updateState E tab w).1 in
  let w1 := (StateManager.handleRemoveReposts_updateState E tab w).2 in
  let w2 := (StateStore.startProcess E None w1).2 in
  r = Ok tt
  /\ field (bgState w1 !! "process") "tabId" = Some (VNum tab)
  /\ field (bgState w1 !! "process") "isRunning" = Some (VBool false)
  /\ field (bgState w1 !! "process") "isPaused" = Some (VBool false)
  /\ field (bgState w1 !! "process") "startTime" = Some (VNum (clock w))
  /\ bgState w1 !! "removedList" = Some (VArr [])
  /\ field (bgState w1 !! "stats") "totalReposts" = Some (VNum 0)
  /\ field (bgState w1 !! "stats") "processedVideos" = Some (VNum 0)
  /\ field (bgState w1 !! "stats") "removedVideos" = Some (VNum 0)
  /\ field (bgState w1 !! "stats") "skippedVideos" = Some (VNum 0)
  /\ trace w1 = (trace w ++ [RuntimeSend Background (stateChanged w1);
                             TabsSend (VNum tab) (stateChanged w1)])%list
  /\ (tab = selfTab E -> inSync w1 /\ inSync w2)
  /\ field (bgState w2 !! "process") "tabId" = Some (VNum tab)
  /\ field (bgState w2 !! "process") "isRunning" = Some (VBool true).
Proof.
  cbv zeta.
  set (u := ({[ "process" := VObj {[ "isRunning" := VBool false; "isPaused" := VBool false;
                                      "tabId" := VNum tab; "startTime" := VNum (clock w) ]};
                "stats" := VObj {[ "totalReposts" := VNum 0; "processedVideos" := VNum 0;
                                   "removedVideos" := VNum 0; "skippedVideos" := VNum 0 ]};
                "removedList" := VArr [] ]} : obj)).
  assert (Hrun : StateManager.handleRemoveReposts_updateState E tab w
                 = afterBroadcast E (set_bgState (deepMerge (bgState w) u) w)).
  assert (Hnp : setsProto (VObj u) = false) by (vm_compute; reflexivity).
  { unfold StateManager.handleRemoveReposts_updateState.
    by rewrite bind_now, updateState_run. }
  rewrite Hrun.
  set (w0 := set_bgState (deepMerge (bgState w) u) w).
  destruct (merged_process_tabId (bgState w) u
              {[ "isRunning" := VBool false; "isPaused" := VBool false;
                 "tabId" := VNum tab; "startTime" := VNum (clock w) ]} (VNum tab))
    as (p & Hp & Ht);
    [by subst u; map_lookup|by map_lookup|by subst u; map_lookup|by map_lookup
    |discriminate|].
  assert (Hpush : pushTarget (bgState w0) = Ok (Some tab)).
  { exact (pushTarget_tab (bgState w0) p tab Hp Ht Htab). }
  assert (Hw1 : afterBroadcast E w0
                = (Ok tt,
                   if Z.eqb tab (selfTab E)
                   then set_csState (VObj (bgState w0))
                          (emit (TabsSend (VNum tab) (stateChanged w0))
                             (emit (RuntimeSend Background (stateChanged w0)) w0))
                   else emit (TabsSend (VNum tab) (stateChanged w0))
                          (emit (RuntimeSend Background (stateChanged w0)) w0))).
  { unfold afterBroadcast. by rewrite Hpush. }
  rewrite Hw1. cbn [fst snd].
  set (w1 := if Z.eqb tab (selfTab E) then _ else _).
  assert (Hbg : bgState w1 = deepMerge (bgState w) u).
  { subst w1. by destruct (Z.eqb tab (selfTab E)). }
  assert (Hsc : stateChanged w1 = stateChanged w0).
  { subst w1. by destruct (Z.eqb tab (selfTab E)). }
  assert (Htr : trace w1 = (trace w ++ [RuntimeSend Background (stateChanged w0);
                                        TabsSend (VNum tab) (stateChanged w0)])%list).
  { subst w1. destruct (Z.eqb tab (selfTab E)); cbn [trace emit set_csState set_bgState w0];
      by rewrite <- app_assoc. }
  assert (Hsync : tab = selfTab E -> inSync w1).
  { intros ->. subst w1. rewrite Z.eqb_refl. reflexivity. }
  rewrite startProcess_is_update, update_bgState, Hbg, Hsc by (vm_compute; reflexivity).
  cbn [optInsert].
  split; [reflexivity|].
  split; [subst u; merged_field; reflexivity|].
  split; [subst u; merged_field; reflexivity|].
  split; [subst u; merged_field; reflexivity|].
  split; [subst u; merged_field; reflexivity|].
  split; [subst u; merged_field; reflexivity|].
  split; [subst u; merged_field; reflexivity|].
  split; [subst u; merged_field; reflexivity|].
  split; [subst u; merged_field; reflexivity|].
  split; [subst u; merged_field; reflexivity|].
  split; [exact Htr|].
  split.
  { intros Heq. split; [exact (Hsync Heq)|].
    apply (update_keeps_sync E _ w1 (Hsync Heq)).
    rewrite update_run by (vm_compute; reflexivity). cbn [fst].
    destruct (afterUpdate E _ w1).1 eqn:Hr; try reflexivity. exfalso. revert Hr.
    unfold afterUpdate, afterBroadcast.
    set (st2 := bgState _).
    assert (Hpush2 : pushTarget st2 = Ok (Some tab)).
    { subst st2. cbn [bgState set_bgState emit set_csState]. rewrite Hbg.
      unfold pushTarget, getPath2.
      rewrite deepMerge_lookup by (by map_lookup). map_lookup. cbv iota.
      rewrite mergeField_cases. unfold getProp.
      rewrite deepMergeV_lookup by (by map_lookup). map_lookup. cbv iota.
      rewrite spread_js_or_empty, Hp. cbn [spread]. rewrite Ht.
      unfold truthy. by rewrite (proj2 (Z.eqb_neq tab 0) Htab). }
    rewrite Hpush2. by destruct (Z.eqb tab (selfTab E)). }
  set (pp := ({[ "isRunning" := VBool true; "isPaused" := VBool false;
                 "startTime" := VNum (clock w1) ]} : obj)).
  set (u2 := ({[ "process" := VObj pp;
                 "stats" := VObj {[ "totalReposts" := VNum 0;
                                    "processedVideos" := VNum 0;
                                    "removedVideos" := VNum 0;
                                    "skippedVideos" := VNum 0 ]};
                 "removedList" := VArr [] ]} : obj)).
  assert (Hup : u2 !! "process" = Some (VObj pp)) by (by subst u2; map_lookup).
  assert (Hnu2 : u2 !! "__proto__" = None) by (by subst u2; map_lookup).
  assert (Hnpp : pp !! "__proto__" = None) by (by subst pp; map_lookup).
  split.
  - rewrite (field_section_merge _ _ _ "process" "tabId" Hnu2 Hnpp Hup).
    subst pp. map_lookup. subst u. merged_field. reflexivity.
  - rewrite (field_section_merge _ _ _ "process" "isRunning" Hnu2 Hnpp Hup).
    subst pp. by map_lookup.
Qed.

(** X11 for the tab of the running world. *)
Lemma chosen_tab_is_recorded_and_kept_witness :
  let w1 := (StateManager.handleRemoveReposts_updateState E0 7 w_running).2 in
  7 <> 0
  /\ field (bgState w1 !! "process") "tabId" = Some (VNum 7)
  /\ field (bgState w1 !! "stats") "totalReposts" = Some (VNum 0)
  /\ field (bgState w1 !! "stats") "processedVideos" = Some (VNum 0)
  /\ field (bgState w1 !! "stats") "removedVideos" = Some (VNum 0)
  /\ field (bgState w1 !! "stats") "skippedVideos" = Some (VNum 0)
  /\ trace w1 = [RuntimeSend Background (stateChanged w1);
                 TabsSend (VNum 7) (stateChanged w1)]
  /\ inSync w1.
Proof.
  assert (H : 7 <> 0) by lia.
  pose proof (chosen_tab_is_recorded_and_kept E0 w_running 7 H)
    as (_ & Htab & _ & _ & _ & _ & Ht & Hp & Hr & Hs & Htrace & Hsync & _).
  cbv zeta in *.
  split; [exact H|]. split; [exact Htab|]. split; [exact Ht|]. split; [exact Hp|].
  split; [exact Hr|]. split; [exact Hs|]. split; [exact Htrace|].
  exact (proj1 (Hsync eq_refl)).
Defined.

(* ===================================================================== *)
(** * Start-up: the stored snapshot and the selector update               *)
(* ===================================================================== *)

Section Startup.
Variable E : Env.

Lemma loadFromStorage_run (s p : obj) w :
  storage w !! "cleartokState" = Some (VObj s) ->
  (s ∪ bgState w) !! "process" = Some (VObj p) ->
  Background.loadFromStorage w =
    (Ok tt,
     set_bgState
       (<["process" := VObj (<["tabId" := VNull]>
                               (<["isPaused" := VBool false]>
                                  (<["isRunning" := VBool false]> p)))]>
          (s ∪ bgState w)) w).
Proof.
  intros Hs Hp. unfold Background.loadFromStorage, swallow, try_catch.
  rewrite bind_gets, Hs. change (truthy (Some (VObj s))) with true. cbn [when].
  rewrite bind_modify, bind_gets. cbn [bgState set_bgState spread].
  rewrite Hp. reflexivity.
Qed.

Lemma snapshot_lookup (st : obj) (k : string) :
  spread (Some (snapshotOf st)) !! k =
    if String.eqb k "stats" then st !! "stats"
    else if String.eqb k "removedList" then st !! "removedList"
    else None.
Proof.
  unfold snapshotOf. cbn [spread].
  destruct (String.eqb_spec k "stats") as [->|H1].
  { destruct (st !! "stats") as [x|] eqn:Hx; cbn [optInsert]; [by map_lookup|].
    destruct (st !! "removedList"); cbn [optInsert]; by map_lookup. }
  destruct (String.eqb_spec k "removedList") as [->|H2].
  { destruct (st !! "stats") as [x|]; cbn [optInsert];
      destruct (st !! "removedList"); cbn [optInsert]; by map_lookup. }
  destruct (st !! "stats") as [x|]; cbn [optInsert];
    destruct (st !! "removedList"); cbn [optInsert];
    rewrite ?lookup_insert_ne by done; by rewrite lookup_empty.
Qed.

Lemma metaIsFresh_force (sm : option JsVal) (t : Z) :
  Background.metaIsFresh true sm t = Ok false.
Proof. reflexivity. Qed.

End Startup.

(** X12.  What [saveToStorage] writes is what a restarted background
    reads back: after a save, a restart and [loadFromStorage], [stats]
    and [removedList] are those of the state that was saved, while
    [process] and [currentVideo] are the constructor's: not running, not
    paused, no tab.  The load does not fail and does not write. *)
Theorem saved_stats_survive_restart (w : World) (stats removedList : JsVal)
    (Hstats : bgState w !! "stats" = Some stats)
    (Hlist : bgState w !! "removedList" = Some removedList) :
  let saved := (StateManager.saveToStorage w).2 in
  let r := (Background.loadFromStorage (restarted saved)).1 in
  let w' := (Background.loadFromStorage (restarted saved)).2 in
  r = Ok tt
  /\ bgState w' !! "stats" = Some stats
  /\ bgState w' !! "removedList" = Some removedList
  /\ bgState w' !! "process" = StateManager.initialState !! "process"
  /\ bgState w' !! "currentVideo" = StateManager.initialState !! "currentVideo"
  /\ storage w' = storage saved.
Proof.
  cbv zeta. rewrite saveToStorage_run. cbn [snd].
  set (s := spread (Some (snapshotOf (bgState w)))).
  assert (Hsnap : snapshotOf (bgState w) = VObj s) by reflexivity.
  rewrite (loadFromStorage_run s
             {[ "isRunning" := VBool false; "isPaused" := VBool false;
                "tabId" := VNull; "startTime" := VNull ]}).
  - cbn [fst snd bgState storage restarted set_bgState set_storage emit].
    split; [reflexivity|].
    split.
    { rewrite lookup_insert_ne by done. rewrite lookup_union. subst s.
      rewrite snapshot_lookup. cbn. by rewrite Hstats. }
    split.
    { rewrite lookup_insert_ne by done. rewrite lookup_union. subst s.
      rewrite snapshot_lookup. cbn. by rewrite Hlist. }
    split.
    { rewrite lookup_insert_eq. vm_compute. reflexivity. }
    split; [|reflexivity].
    rewrite lookup_insert_ne by done. rewrite lookup_union. subst s.
    rewrite snapshot_lookup. cbn. reflexivity.
  - cbn [storage restarted set_bgState set_storage emit]. rewrite Hsnap. by map_lookup.
  - cbn [bgState restarted set_bgState set_storage emit]. rewrite lookup_union. subst s.
    rewrite snapshot_lookup. cbn. reflexivity.
Qed.

(** X12 on the running world. *)
Lemma saved_stats_survive_restart_witness :
  bgState (Background.loadFromStorage
             (restarted (StateManager.saveToStorage w_running).2)).2 !! "removedList"
  = Some (VArr [VObj {[ "title" := VStr "t0" ]}]).
Proof.
  exact (proj1 (proj2 (proj2 (saved_stats_survive_restart w_running
                                (VObj {[ "totalReposts" := VNum 10;
                                         "processedVideos" := VNum 4;
                                         "removedVideos" := VNum 4;
                                         "skippedVideos" := VNum 0 ]})
                                (VArr [VObj {[ "title" := VStr "t0" ]}])
                                ltac:(reflexivity) ltac:(reflexivity))))).
Defined.

Section Selectors.
Variable E : Env.

Lemma tabsSend_other w (tid : Z) (type : string) (p : JsVal) (t : Z) :
  String.eqb type "STATE_CHANGED" = false ->
  StateManager.tabsSend E (VNum tid) (mkMsg type p t) w
  = (Ok tt, emit (TabsSend (VNum tid) (mkMsg type p t)) w).
Proof.
  intros Hty. unfold StateManager.tabsSend. rewrite bind_effect. cbn [mtype].
  by rewrite Hty, andb_false_r.
Qed.

(** The run of a forced check that fetches a new version. *)
Lemma checkMeta_updates (meta : obj) (version sels : JsVal) w :
  meta !! "version" = Some version -> meta !! "selectors" = Some sels ->
  truthy (Some version) = true -> truthy (Some sels) = true ->
  strictEq (optChain (storage w !! "selectorsMeta") "version") (Some version) = false ->
  tabIdUsable w -> (exists p, bgState w !! "process" = Some (VObj p)) ->
  let newMeta := VObj {[ "version" := version; "fetchedAt" := VNum (clock w) ]} in
  let w1 := emit (StorageSet "selectorsMeta" newMeta)
              (emit (StorageSet "selectors" sels)
                 (set_storage (<["selectorsMeta" := newMeta]>
                                 (<["selectors" := sels]> (storage w))) w)) in
  Background.checkMetaAndUpdate E (FetchJson (VObj meta)) true w
  = (Ok Updated,
     match field (bgState w !! "process") "tabId" with
     | Some (VNum tid) =>
         if Z.eqb tid 0 then w1
         else emit (TabsSend (VNum tid) (mkMsg "SELECTORS_UPDATED" (VObj ∅) (clock w))) w1
     | _ => w1
     end).
Proof.
  intros Hv Hs Htv Hts Hne Htab [p Hp]. cbv zeta.
  unfold Background.checkMetaAndUpdate.
  rewrite bind_gets, bind_now, bind_lift, metaIsFresh_force.
  unfold try_catch. cbn [optChain]. rewrite Hv, Hs, Htv, Hts. cbn [negb orb].
  rewrite Hne.
  rewrite bind_now, bind_modify, bind_effect, bind_effect, bind_gets, bind_lift.
  cbn [bgState emit set_storage clock].
  rewrite (getPath2_obj _ _ _ _ Hp).
  unfold tabIdUsable, field in Htab. rewrite Hp in Htab. cbn [spread] in Htab.
  unfold field. rewrite Hp. cbn [spread].
  destruct (p !! "tabId") as [[ | |tid| | | ]|]; try (rewrite Htab; reflexivity);
    [|reflexivity].
  unfold truthy. destruct (Z.eqb tid 0); cbn [negb]; [reflexivity|].
  rewrite bind_split, tabsSend_other by reflexivity. reflexivity.
Qed.

End Selectors.

(** X13.  A forced selector check that fetches a version other than the
    stored one writes the fetched selectors and the new version, stamped
    with the time of the write, and leaves the rest of the storage and the
    canonical state alone.  For the next minute, that is while less than
    60000 ms have passed since the stamp, an unforced check returns at
    once, whatever the network would answer; from 60000 ms on it asks the
    network again.  A forced check that fetches the same version again
    reports "up to date" at any time.  None of these changes
    anything. *)
Theorem selectors_update_then_throttle
    (E : Env) (w : World) (meta : obj) (version : string) (sels : JsVal)
    (Hv : meta !! "version" = Some (VStr version))
    (Hs : meta !! "selectors" = Some sels)
    (Htv : version <> "")
    (Hts : truthy (Some sels) = true)
    (Hne : strictEq (optChain (storage w !! "selectorsMeta") "version")
             (Some (VStr version)) = false)
    (Htab : tabIdUsable w)
    (Hp : exists p, bgState w !! "process" = Some (VObj p)) :
  let r := (Background.checkMetaAndUpdate E (FetchJson (VObj meta)) true w).1 in
  let w' := (Background.checkMetaAndUpdate E (FetchJson (VObj meta)) true w).2 in
  r = Ok Updated
  /\ storage w' !! "selectors" = Some sels
  /\ storage w' !! "selectorsMeta"
     = Some (VObj {[ "version" := VStr version; "fetchedAt" := VNum (clock w) ]})
  /\ (forall k, k <> "selectors" -> k <> "selectorsMeta" -> storage w' !! k = storage w !! k)
  /\ bgState w' = bgState w
  /\ (forall fetched dt,
        dt < 60000 ->
        Background.checkMetaAndUpdate E fetched false (set_clock (clock w + dt) w')
        = (Ok Throttled, set_clock (clock w + dt) w'))
  /\ (forall dt,
        60000 <= dt ->
        Background.checkMetaAndUpdate E FetchNotOk false (set_clock (clock w + dt) w')
        = (Ok FetchFailed, set_clock (clock w + dt) w')
        /\ Background.checkMetaAndUpdate E (FetchJson (VObj meta)) false
             (set_clock (clock w + dt) w')
           = (Ok UpToDate, set_clock (clock w + dt) w'))
  /\ (forall dt,
        Background.checkMetaAndUpdate E (FetchJson (VObj meta)) true
          (set_clock (clock w + dt) w')
        = (Ok UpToDate, set_clock (clock w + dt) w')).
Proof.
  cbv zeta.
  assert (Htv' : truthy (Some (VStr version)) = true).
  { unfold truthy. by rewrite (proj2 (String.eqb_neq version "") Htv). }
  rewrite (checkMeta_updates E meta (VStr version) sels w Hv Hs Htv' Hts Hne Htab Hp).
  cbn [fst snd].
  set (newMeta := VObj {[ "version" := VStr version; "fetchedAt" := VNum (clock w) ]}).
  set (w1 := emit (StorageSet "selectorsMeta" newMeta) _).
  set (w' := match field (bgState w !! "process") "tabId" with
             | Some (VNum tid) => _
             | _ => w1
             end).
  assert (Hst : storage w' = <["selectorsMeta" := newMeta]>
                               (<["selectors" := sels]> (storage w))).
  { subst w'. destruct (field _ _) as [[ | |tid| | | ]|]; try reflexivity.
    by destruct (Z.eqb tid 0). }
  assert (Hbg : bgState w' = bgState w).
  { subst w'. destruct (field _ _) as [[ | |tid| | | ]|]; try reflexivity.
    by destruct (Z.eqb tid 0). }
  assert (Hck : clock w' = clock w).
  { subst w'. destruct (field _ _) as [[ | |tid| | | ]|]; try reflexivity.
    by destruct (Z.eqb tid 0). }
  clearbody w'. rewrite Hst, Hbg.
  split; [reflexivity|].
  split; [by map_lookup|].
  split; [by map_lookup|].
  split.
  { intros k H1 H2. by rewrite !lookup_insert_ne. }
  split; [reflexivity|].
  assert (Hfresh : forall dt,
             Background.metaIsFresh false (Some newMeta) (clock w + dt)
             = Ok (Z.ltb dt 60000)).
  { intros dt. unfold Background.metaIsFresh.
    change (truthy (Some newMeta)) with true. cbn [negb].
    subst newMeta. unfold getProp. rewrite lookup_insert_ne by done.
    rewrite lookup_singleton_eq. unfold Background.META_FRESH.
    do 2 f_equal. lia. }
  assert (Hsame : forall force w2,
             storage w2 !! "selectorsMeta" = Some newMeta ->
             Background.metaIsFresh force (Some newMeta) (clock w2) = Ok false ->
             Background.checkMetaAndUpdate E (FetchJson (VObj meta)) force w2
             = (Ok UpToDate, w2)).
  { intros force w2 Hmeta Hnot. unfold Background.checkMetaAndUpdate.
    rewrite bind_gets, bind_now, bind_lift, Hmeta, Hnot.
    unfold try_catch. cbn [optChain]. rewrite Hv, Hs, Htv', Hts. cbn [negb orb].
    subst newMeta. cbn [optChain]. rewrite lookup_insert_eq.
    unfold strictEq. rewrite String.eqb_refl. reflexivity. }
  assert (Hmeta' : forall dt, storage (set_clock (clock w + dt) w') !! "selectorsMeta"
                              = Some newMeta).
  { intros dt. cbn [storage set_clock]. rewrite Hst. by map_lookup. }
  split.
  - intros fetched dt Hdt. unfold Background.checkMetaAndUpdate.
    rewrite bind_gets, bind_now, bind_lift, Hmeta'. cbn [clock set_clock].
    rewrite Hfresh, (proj2 (Z.ltb_lt dt 60000) Hdt). reflexivity.
  - split.
    + intros dt Hdt. split.
      * unfold Background.checkMetaAndUpdate.
        rewrite bind_gets, bind_now, bind_lift, Hmeta'. cbn [clock set_clock].
        rewrite Hfresh, (proj2 (Z.ltb_ge dt 60000) Hdt). reflexivity.
      * apply Hsame; [apply Hmeta'|]. cbn [clock set_clock].
        by rewrite Hfresh, (proj2 (Z.ltb_ge dt 60000) Hdt).
    + intros dt. apply Hsame; [apply Hmeta'|]. apply metaIsFresh_force.
Qed.

(** X13 on the running world, whose storage has no selectors yet. *)
Lemma selectors_update_then_throttle_witness :
  let meta : obj := {[ "version" := VStr "v2";
                       "selectors" := VObj {[ "video" := VStr "div" ]} ]} in
  let w' := (Background.checkMetaAndUpdate E0 (FetchJson (VObj meta)) true w_running).2 in
  "v2" <> ""
  /\ storage w' !! "selectors" = Some (VObj {[ "video" := VStr "div" ]})
  /\ Background.checkMetaAndUpdate E0 FetchNotOk false (set_clock (1000 + 59999) w')
     = (Ok Throttled, set_clock (1000 + 59999) w')
  /\ Background.checkMetaAndUpdate E0 FetchNotOk false (set_clock (1000 + 60000) w')
     = (Ok FetchFailed, set_clock (1000 + 60000) w').
Proof.
  assert (H : "v2" <> "") by discriminate.
  cbv zeta.
  set (meta := ({[ "version" := VStr "v2";
                   "selectors" := VObj {[ "video" := VStr "div" ]} ]} : obj)).
  assert (Hv : meta !! "version" = Some (VStr "v2")) by (vm_compute; reflexivity).
  assert (Hs : meta !! "selectors" = Some (VObj {[ "video" := VStr "div" ]}))
    by (vm_compute; reflexivity).
  assert (Hne : strictEq (optChain (storage w_running !! "selectorsMeta") "version")
                  (Some (VStr "v2")) = false) by (vm_compute; reflexivity).
  pose proof (selectors_update_then_throttle E0 w_running meta
                "v2" (VObj {[ "video" := VStr "div" ]})
                Hv Hs H eq_refl Hne I (ex_intro _ _ eq_refl))
    as (_ & Hsel & _ & _ & _ & Hthr & Hask & _).
  cbv zeta in Hsel, Hthr, Hask.
  split; [exact H|]. split; [exact Hsel|].
  split; [exact (Hthr FetchNotOk 59999 ltac:(lia))|].
  exact (proj1 (Hask 60000 ltac:(lia))).
Defined.

(** X14.  A forced selector check whose fetch fails, whose response is
    not ok, whose body is no JSON, or whose body lacks a version or the
    selectors, changes nothing and does not fail: the storage, the state
    and the messages sent are what they were. *)
Theorem failed_selector_fetch_changes_nothing
    (E : Env) (w : World) (fetched : FetchOutcome)
    (Hbad : match fetched with
            | FetchJson meta =>
                truthy (optChain (Some meta) "version") = false
                \/ truthy (optChain (Some meta) "selectors") = false
            | _ => True
            end) :
  exists outcome,
    Background.checkMetaAndUpdate E fetched true w = (Ok outcome, w)
    /\ outcome <> Updated.
Proof.
  unfold Background.checkMetaAndUpdate.
  rewrite bind_gets, bind_now, bind_lift, metaIsFresh_force. unfold try_catch.
  destruct fetched as [ | | |meta].
  - exists Caught. by split.
  - exists FetchFailed. by split.
  - exists Caught. by split.
  - exists InvalidMeta. split; [|done].
    destruct (optChain (Some meta) "version") as [version|]; [|reflexivity].
    destruct (optChain (Some meta) "selectors") as [sels|]; [|reflexivity].
    destruct Hbad as [-> | ->]; cbn [negb orb]; [reflexivity|].
    by rewrite orb_true_r.
Qed.

(** X14 for a request that is rejected. *)
Lemma failed_selector_fetch_changes_nothing_witness :
  exists outcome,
    Background.checkMetaAndUpdate E0 FetchRejected true w_running = (Ok outcome, w_running)
    /\ outcome <> Updated.
Proof. exact (failed_selector_fetch_changes_nothing E0 w_running FetchRejected I). Defined.

(* ===================================================================== *)
(** * The workflow's helpers                                              *)
(* ===================================================================== *)

Section Strings.

Lemma length_append (a b : string) :
  String.length (a ++ b) = (String.length a + String.length b)%nat.
Proof. induction a as [|c a IH]; simpl; [reflexivity|]. f_equal. exact IH. Qed.

Lemma length_substring0 (n : nat) (s : string) :
  (String.length (substring0 n s) <= n)%nat.
Proof.
  unfold substring0. revert s. induction n as [|n IH]; intros s.
  - destruct s; cbn; lia.
  - destruct s as [|c s]; cbn; [lia|]. specialize (IH s). lia.
Qed.

Lemma eqb_empty_length (s : string) :
  String.eqb s "" = false -> (0 < String.length s)%nat.
Proof. destruct s; [discriminate|cbn; lia]. Qed.

(** The last two steps on the title: truncation and the default. *)
Lemma title_final (t : string) :
  let t1 := if Nat.ltb 50 (String.length t) then substring0 50 t ++ "..." else t in
  let t2 := if String.eqb t1 "" then "Untitled video" else t1 in
  t2 <> "" /\ (String.length t2 <= 53)%nat.
Proof.
  cbv zeta. set (t1 := if Nat.ltb 50 _ then _ else _).
  assert (Hlen : (String.length t1 <= 53)%nat).
  { subst t1. destruct (Nat.ltb_spec 50 (String.length t)).
    - rewrite length_append. pose proof (length_substring0 50 t). cbn. lia.
    - lia. }
  destruct (String.eqb_spec t1 "") as [Heq|Hne].
  - split; [discriminate|cbn; lia].
  - split; assumption.
Qed.

Lemma author_final (a : string) :
  a = "" \/ String.prefix "@" a = true ->
  String.prefix "@" (if String.eqb a "" then "@unknown" else a) = true.
Proof.
  intros [->|Ha]; [reflexivity|].
  destruct (String.eqb a ""); [reflexivity|exact Ha].
Qed.

(** The first [n] code units of a string that has them. *)
Lemma substring0_long (n : nat) (t : string) :
  (n <= String.length t)%nat ->
  String.length (substring0 n t) = n
  /\ (forall i, (i < n)%nat -> String.get i (substring0 n t) = String.get i t).
Proof.
  unfold substring0. intros Hn. split.
  - revert t Hn. induction n as [|n IH]; intros t Hn.
    + by destruct t.
    + destruct t as [|c t]; cbn in Hn; [lia|]. cbn. f_equal. apply IH. lia.
  - intros i Hi. rewrite (substring_correct1 t 0 n i Hi). f_equal. lia.
Qed.

End Strings.

(** X15.  [getVideoInfo] always returns a usable record and touches
    nothing: the title is never empty and has at most 53 code units (50
    and the ellipsis), the author starts with [@], and the url is the
    address of the page.  This holds for every page of the model (text
    and address made of code units below 256, counted and trimmed as
    JavaScript does), also when neither the title nor the author element
    is found.  A title element whose trimmed text is not empty gives the
    title: as it is up to 50 code units, cut to its first 50 and followed
    by three dots beyond.  So a title of thirty accented letters between
    a line feed, spaces and a no-break space is returned whole and
    trimmed. *)
Theorem getVideoInfo_is_always_usable (E : Env) (w : World) :
  (exists v,
     WorkflowManager.getVideoInfo E w = (Ok v, w)
     /\ title v <> ""
     /\ (String.length (title v) <= 53)%nat
     /\ String.prefix "@" (author v) = true
     /\ url v = href (dom E (tick w))
     /\ (forall el,
           UIManager.findAt E "video.title" (tick w) = Some el ->
           trim (textContent el) <> "" ->
           ((String.length (trim (textContent el)) <= 50)%nat ->
            title v = trim (textContent el))
           /\ ((50 < String.length (trim (textContent el)))%nat ->
               title v = substring0 50 (trim (textContent el)) ++ "..."
               /\ String.length (title v) = 53%nat
               /\ forall i, (i < 50)%nat ->
                    String.get i (title v) = String.get i (trim (textContent el)))))
  /\ String.length accentedTitle = 30%nat
  /\ WorkflowManager.getVideoInfo E2 w_running
     = (Ok (mkVideoInfo accentedTitle
              "https://www.tiktok.com/@me/video/123456789012?x=1" "@me"),
        w_running).
Proof.
  split; [|split; [reflexivity|vm_compute; reflexivity]].
  unfold WorkflowManager.getVideoInfo, UIManager.findElement.
  rewrite bind_gets, bind_bind, bind_gets, bind_ret, bind_bind, bind_gets, bind_ret.
  eexists. split; [reflexivity|]. cbn [title url author].
  split; [apply title_final|].
  split; [apply title_final|].
  split.
  { apply author_final.
    set (a0 := match UIManager.findAt E "video.author" (tick w) with
               | Some el => _
               | None => ""
               end).
    assert (Ha0 : a0 = "" \/ String.prefix "@" a0 = true).
    { subst a0. destruct (UIManager.findAt E "video.author" (tick w)) as [el|]; [|by left].
      destruct (String.eqb (trim (textContent el)) ""); [by left|].
      destruct (String.prefix "@" (trim (textContent el))) eqn:Hpre; [by right|].
      right. by destruct (trim (textContent el)). }
    clearbody a0.
    destruct (String.eqb a0 "" && includes "/@" (href (dom E (tick w))))%bool; [|exact Ha0].
    destruct (split "/@" (href (dom E (tick w)))) as [|x [|part rest]]; try exact Ha0.
    destruct (split "/" part) as [|authorPart more]; [exact Ha0|].
    destruct (String.eqb authorPart ""); [exact Ha0|].
    right. by destruct authorPart. }
  split; [reflexivity|].
  intros el Hel Hne. rewrite Hel.
  set (t := trim (textContent el)) in *.
  assert (Ht : String.eqb t "" = false) by (by apply String.eqb_neq).
  rewrite Ht. cbn [andb].
  split.
  - intros Hle. rewrite (proj2 (Nat.ltb_ge 50 (String.length t)) Hle). by rewrite Ht.
  - intros Hgt. rewrite (proj2 (Nat.ltb_lt 50 (String.length t)) Hgt).
    pose proof (substring0_long 50 t ltac:(lia)) as (Hlen & Hget).
    assert (Hnz : String.eqb (substring0 50 t ++ "...") "" = false).
    { apply String.eqb_neq. intros Heq. apply (f_equal String.length) in Heq.
      rewrite length_append, Hlen in Heq. cbn in Heq. lia. }
    rewrite Hnz. split; [reflexivity|]. split.
    + rewrite length_append, Hlen. reflexivity.
    + intros i Hi. rewrite <- append_correct1 by lia. by apply Hget.
Qed.

(** X16.  [getRandomDelay(min, max)] returns a whole number of
    milliseconds between [min] and [max], both included, and draws once:
    the state, the storage, the clock and the messages are untouched. *)
Theorem getRandomDelay_is_within_bounds
    (E : Env) (w : World) (min max : Z) (Hle : min <= max) :
  exists d,
    WorkflowManager.getRandomDelay E min max w = (Ok d, set_tick (S (tick w)) w)
    /\ min <= d <= max.
Proof.
  unfold WorkflowManager.getRandomDelay. rewrite bind_gets, bind_modify.
  eexists. split; [reflexivity|].
  pose proof (Z.mod_pos_bound (Z.of_nat (random E (tick w))) (max - min + 1)
                ltac:(lia)).
  lia.
Qed.

(** X16 for the delay after a removal. *)
Lemma getRandomDelay_is_within_bounds_witness :
  exists d,
    WorkflowManager.getRandomDelay E0 200 400 w_running
    = (Ok d, set_tick (S (tick w_running)) w_running)
    /\ 200 <= d <= 400.
Proof.
  exact (getRandomDelay_is_within_bounds E0 w_running 200 400 ltac:(lia)).
Defined.

(* ===================================================================== *)
(** * How a run ends: handleError and finishProcess                       *)
(* ===================================================================== *)

Section Ending.
Variable E : Env.

Lemma set_bgState_id w : set_bgState (bgState w) w = w.
Proof. by destruct w. Qed.

Lemma emit_app (l : list Effect) w :
  trace (fold_left (fun w e => emit e w) l w) = (trace w ++ l)%list.
Proof.
  revert w. induction l as [|e l IH]; intros w; cbn [fold_left].
  - by rewrite app_nil_r.
  - rewrite IH. cbn [trace emit]. by rewrite <- app_assoc.
Qed.

Lemma stopped_process (st : obj) :
  exists p, stopped st !! "process" = Some (VObj p)
            /\ p !! "isRunning" = Some (VBool false)
            /\ p !! "isPaused" = Some (VBool false)
            /\ p !! "tabId" = Some VNull
            /\ p !! "startTime" = Some VNull.
Proof.
  unfold stopped, stopUpdate. rewrite deepMerge_lookup by noproto. map_lookup. cbv iota.
  rewrite mergeField_cases. eexists. split; [reflexivity|].
  rewrite !deepMergeV_lookup by noproto. by map_lookup.
Qed.

Lemma stopped_other (st : obj) (k : string) :
  k <> "process" -> stopped st !! k = st !! k.
Proof.
  intros Hk. unfold stopped, stopUpdate. rewrite deepMerge_lookup by noproto.
  by rewrite lookup_singleton_ne.
Qed.

Lemma snapshotOf_stopped (st : obj) : snapshotOf (stopped st) = snapshotOf st.
Proof. unfold snapshotOf. by rewrite !stopped_other. Qed.

(** The background's merge for a terminal message changes nothing in a
    stopped state. *)
Lemma stopped_terminal (st : obj) :
  deepMerge (stopped st)
    {[ "process" := VObj {[ "isRunning" := VBool false; "isPaused" := VBool false ]} ]}
  = stopped st.
Proof.
  destruct (stopped_process st) as (p & Hp & Hr & Hpa & _).
  apply map_eq. intros k. rewrite deepMerge_lookup by noproto.
  destruct (decide (k = "process")) as [->|Hk]; [|by rewrite lookup_singleton_ne].
  rewrite lookup_singleton_eq, Hp, mergeField_cases, js_or_obj. do 2 f_equal.
  apply map_eq. intros j. rewrite deepMergeV_lookup by noproto. cbn [spread].
  destruct (decide (j = "isRunning")) as [->|H1]; [by map_lookup; rewrite Hr|].
  rewrite lookup_insert_ne by done.
  destruct (decide (j = "isPaused")) as [->|H2]; [by map_lookup; rewrite Hpa|].
  by rewrite lookup_singleton_ne.
Qed.

Lemma pushTarget_stopped (st : obj) : pushTarget (stopped st) = Ok None.
Proof.
  destruct (stopped_process st) as (p & Hp & _ & _ & Ht & _).
  exact (pushTarget_null _ _ Hp Ht).
Qed.

Lemma stopProcess_run w :
  StateStore.stopProcess E w =
    (Ok tt,
     emit (RuntimeSend Background
             (mkMsg "STATE_CHANGED" (VObj (stopped (bgState w))) (clock w)))
       (set_bgState (stopped (bgState w))
          (emit (RuntimeSend Content (mkMsg "UPDATE_STATE" (VObj stopUpdate) (clock w)))
             (set_csState (VObj (deepMergeV (Some (csState w)) (VObj stopUpdate))) w)))).
Proof.
  unfold StateStore.stopProcess. rewrite update_run by (vm_compute; reflexivity).
  unfold afterUpdate.
  fold stopUpdate. fold (stopped (bgState w)).
  rewrite afterBroadcast_no_tab by apply pushTarget_stopped. reflexivity.
Qed.

(** A terminal message broadcast from the content script when the
    canonical state is already stopped. *)
Lemma broadcast_terminal (type : string) (p : obj) (st : obj) w :
  type ∈ ["COMPLETE"; "ERROR"; "NO_REPOSTS_FOUND"] ->
  bgState w = stopped st ->
  MessageBus.broadcast E type p w =
    (Ok tt,
     emit (StorageSet "cleartokState" (snapshotOf st))
       (set_storage (<["cleartokState" := snapshotOf st]> (storage w))
          (emit (RuntimeSend Background (mkMsg "STATE_CHANGED" (VObj (stopped st)) (clock w)))
             (emit (RuntimeSend Content (mkMsg type (VObj p) (clock w))) w)))).
Proof.
  intros Hty Hst.
  assert (Hnorm : normType type = Some type).
  { apply list_elem_of_In in Hty. cbn in Hty.
    destruct Hty as [<-|[<-|[<-|[]]]]; vm_compute; reflexivity. }
  assert (Hin : type ∈ StateManager.contentUpdateTypes).
  { apply list_elem_of_In in Hty. cbn in Hty. apply list_elem_of_In. cbn.
    destruct Hty as [<-|[<-|[<-|[]]]]; tauto. }
  assert (Hh : forall pl w0,
             StateManager.handleContentMessage E type pl w0 =
             (StateManager.updateState E
                {[ "process" := VObj {[ "isRunning" := VBool false;
                                        "isPaused" := VBool false ]} ]} ;;;
              StateManager.saveToStorage) w0).
  { intros pl w0. apply list_elem_of_In in Hty. cbn in Hty.
    destruct Hty as [<-|[<-|[<-|[]]]]; reflexivity. }
  unfold MessageBus.broadcast. rewrite Hnorm, bind_now, bind_effect.
  unfold swallow, try_catch. rewrite bind_split.
  rewrite (onMessage_content E (mkMsg type (VObj p) (clock w)) true _ Hin).
  cbn [mtype payload when].
  rewrite bind_split, Hh, bind_split, updateState_run by (vm_compute; reflexivity).
  cbn [bgState emit]. rewrite Hst, stopped_terminal.
  rewrite afterBroadcast_no_tab by apply pushTarget_stopped.
  rewrite saveToStorage_run. unfold stateChanged.
  cbn [bgState clock emit set_bgState storage]. rewrite snapshotOf_stopped.
  rewrite <- Hst.
  replace (set_bgState (bgState w)
             (emit (RuntimeSend Content (mkMsg type (VObj p) (clock w))) w))
    with (emit (RuntimeSend Content (mkMsg type (VObj p) (clock w))) w)
    by (by destruct w).
  reflexivity.
Qed.

End Ending.

(** X17.  [handleError] always completes, whatever the state was: the
    canonical state is the stopped one (not running, not paused, no tab,
    no start time; everything else kept), the cached replica has the same
    stop merged in, [stats] and [removedList] are written to storage, and
    the effects are, in this order: the stop update and its push to the
    runtime, the removal of the border if there is one, then one ERROR
    message with the given text, the background's push and the write.
    Nothing is sent to a tab. *)
Theorem handleError_stops_and_reports
    (E : Env) (w : World) (message : string) (error : option JsError) :
  let r := (WorkflowManager.handleError E message error w).1 in
  let w' := (WorkflowManager.handleError E message error w).2 in
  let payload : obj :=
    {[ "message" := VStr message;
       "error" := VStr (match error with Some e => errToString e | None => "" end) ]} in
  r = Ok tt
  /\ bgState w' = stopped (bgState w)
  /\ canonicalFlag w' "isRunning" = false
  /\ field (bgState w' !! "process") "tabId" = Some VNull
  /\ bgState w' !! "stats" = bgState w !! "stats"
  /\ bgState w' !! "removedList" = bgState w !! "removedList"
  /\ csState w' = VObj (deepMergeV (Some (csState w)) (VObj stopUpdate))
  /\ cachedFlag w' "isRunning" = false
  /\ storage w' = <["cleartokState" := snapshotOf (bgState w)]> (storage w)
  /\ clock w' = clock w
  /\ trace w' = (trace w ++ stopEffects (clock w) (stopped (bgState w))
                   ++ borderEffects E BorderRemove
                   ++ terminalEffects "ERROR" payload (clock w) (stopped (bgState w)))%list.
Proof.
  cbv zeta. unfold WorkflowManager.handleError.
  rewrite bind_split, stopProcess_run. cbv iota beta.
  set (w1 := emit (RuntimeSend Background _) _).
  assert (Hbg1 : bgState w1 = stopped (bgState w)) by reflexivity.
  unfold Main.border. rewrite bind_when.
  set (w2 := if window_clearTokBorder E then emit (Border BorderRemove) w1 else w1).
  assert (Hrun : (if window_clearTokBorder E
                  then (x <- effect (Border BorderRemove) ;;
                        MessageBus.broadcast E "ERROR"
                          {[ "message" := VStr message;
                             "error" := VStr (match error with
                                              | Some e => errToString e
                                              | None => ""
                                              end) ]}) w1
                  else MessageBus.broadcast E "ERROR"
                         {[ "message" := VStr message;
                            "error" := VStr (match error with
                                             | Some e => errToString e
                                             | None => ""
                                             end) ]} w1)
                 = MessageBus.broadcast E "ERROR"
                     {[ "message" := VStr message;
                        "error" := VStr (match error with
                                         | Some e => errToString e
                                         | None => ""
                                         end) ]} w2).
  { subst w2. destruct (window_clearTokBorder E); [by rewrite bind_effect|reflexivity]. }
  rewrite Hrun.
  assert (Hbg2 : bgState w2 = stopped (bgState w)).
  { subst w2. by destruct (window_clearTokBorder E). }
  assert (Hin : "ERROR" ∈ ["COMPLETE"; "ERROR"; "NO_REPOSTS_FOUND"]).
  { apply list_elem_of_In. cbn. tauto. }
  rewrite (broadcast_terminal E "ERROR" _ (bgState w) w2 Hin Hbg2).
  assert (Hcs2 : csState w2 = VObj (deepMergeV (Some (csState w)) (VObj stopUpdate))).
  { subst w2. by destruct (window_clearTokBorder E). }
  assert (Hst2 : storage w2 = storage w).
  { subst w2. by destruct (window_clearTokBorder E). }
  assert (Hck2 : clock w2 = clock w).
  { subst w2. by destruct (window_clearTokBorder E). }
  assert (Htr2 : trace w2 = (trace w ++ stopEffects (clock w) (stopped (bgState w))
                               ++ borderEffects E BorderRemove)%list).
  { subst w2. unfold borderEffects, stopEffects.
    destruct (window_clearTokBorder E); cbn [trace emit set_bgState set_csState w1];
      rewrite ?app_nil_r, <- ?app_assoc; reflexivity. }
  clearbody w2. unfold canonicalFlag, cachedFlag.
  cbn [fst snd bgState csState storage clock trace emit set_storage].
  rewrite Hbg2, Hcs2, Hst2, Hck2, Htr2.
  destruct (stopped_process (bgState w)) as (p & Hp & Hr & Hpa & Ht & Hs).
  split; [reflexivity|].
  split; [reflexivity|].
  split; [unfold field; rewrite Hp; cbn [spread]; by rewrite Hr|].
  split; [unfold field; by rewrite Hp|].
  split; [by apply stopped_other|].
  split; [by apply stopped_other|].
  split; [reflexivity|].
  split.
  { assert (Hu : stopUpdate !! "process"
                 = Some (VObj {[ "isRunning" := VBool false; "isPaused" := VBool false;
                                 "tabId" := VNull; "startTime" := VNull ]}))
      by (unfold stopUpdate; by map_lookup).
    assert (Hnu : stopUpdate !! "__proto__" = None) by (vm_compute; reflexivity).
    assert (Hnpp : ({[ "isRunning" := VBool false; "isPaused" := VBool false;
                       "tabId" := VNull; "startTime" := VNull ]} : obj) !! "__proto__"
                   = None) by (vm_compute; reflexivity).
    rewrite (field_section_mergeV _ _ _ "process" "isRunning" Hnu Hnpp Hu).
    by map_lookup. }
  split; [reflexivity|].
  split; [reflexivity|].
  unfold terminalEffects. rewrite snapshotOf_stopped.
  rewrite <- !app_assoc. cbn [app]. reflexivity.
Qed.

Section Finishing.
Variable E : Env.

(** The stop and the removal of the border, before whatever follows. *)
Lemma stop_then_border {A} (k : M A) w :
  exists w2,
    (StateStore.stopProcess E ;;; Main.border E BorderRemove ;;; k) w = k w2
    /\ bgState w2 = stopped (bgState w)
    /\ csState w2 = VObj (deepMergeV (Some (csState w)) (VObj stopUpdate))
    /\ storage w2 = storage w
    /\ clock w2 = clock w
    /\ tick w2 = tick w
    /\ trace w2 = (trace w ++ stopEffects (clock w) (stopped (bgState w))
                     ++ borderEffects E BorderRemove)%list.
Proof.
  rewrite bind_split, stopProcess_run. cbv iota beta.
  unfold Main.border, borderEffects, stopEffects. rewrite bind_when.
  destruct (window_clearTokBorder E).
  - rewrite bind_effect. eexists. split; [reflexivity|].
    cbn [bgState csState storage clock tick trace emit set_bgState set_csState].
    split_and!; try reflexivity. by rewrite <- !app_assoc.
  - eexists. split; [reflexivity|].
    cbn [bgState csState storage clock tick trace emit set_bgState set_csState].
    split_and!; try reflexivity. by rewrite app_nil_r, <- !app_assoc.
Qed.

Lemma getDuration_run (p : obj) (t0 : Z) w :
  field (Some (csState w)) "process" = Some (VObj p) ->
  p !! "startTime" = Some (VNum t0) -> t0 <> 0 ->
  StateStore.getDuration E w =
    (Ok (StateStore.mkDuration (clock w - t0) ((clock w - t0) / 60000)
           (Z.rem (clock w - t0) 60000 / 1000)), w).
Proof.
  intros Hp Ht0 Hnz. unfold StateStore.getDuration.
  rewrite (bind_run _ _ _ _ _ (getState_cached E w)), bind_lift.
  unfold field in Hp. rewrite (getPath2_obj _ _ _ _ Hp), Ht0.
  assert (Htr : truthy (Some (VNum t0)) = true).
  { unfold truthy. apply negb_true_iff. by apply Z.eqb_neq. }
  rewrite Htr. cbn [negb]. by rewrite bind_now, run_ret.
Qed.

End Finishing.

(** X18.  [finishProcess] reports what the run did before it clears the
    run: the COMPLETE message carries the removed and total counts of the
    cached state and the duration since the start time, all read before
    [stopProcess()] sets the start time to [null].  The canonical state
    ends up stopped with [stats] and [removedList] kept and written to
    storage, and the effects are the stop update and its push, the
    removal of the border if there is one, then the one COMPLETE message,
    the background's push and the write. *)
Theorem finishProcess_reports_then_stops
    (E : Env) (w : World) (message : string) (p s : obj) (t0 : Z)
    (Hp : field (Some (csState w)) "process" = Some (VObj p))
    (Hs : field (Some (csState w)) "stats" = Some (VObj s))
    (Ht0 : p !! "startTime" = Some (VNum t0))
    (Hnz : t0 <> 0) :
  let r := (WorkflowManager.finishProcess E message w).1 in
  let w' := (WorkflowManager.finishProcess E message w).2 in
  let elapsed := clock w - t0 in
  let payload : obj :=
    optInsert "removedCount" (s !! "removedVideos")
      (optInsert "totalCount" (s !! "totalReposts")
         {[ "duration" :=
              VObj {[ "total" := VNum elapsed;
                      "minutes" := VNum (elapsed / 60000);
                      "seconds" := VNum (Z.rem elapsed 60000 / 1000) ]} ]}) in
  r = Ok tt
  /\ bgState w' = stopped (bgState w)
  /\ canonicalFlag w' "isRunning" = false
  /\ field (bgState w' !! "process") "startTime" = Some VNull
  /\ bgState w' !! "stats" = bgState w !! "stats"
  /\ storage w' = <["cleartokState" := snapshotOf (bgState w)]> (storage w)
  /\ trace w' = (trace w ++ stopEffects (clock w) (stopped (bgState w))
                   ++ borderEffects E BorderRemove
                   ++ terminalEffects "COMPLETE" payload (clock w)
                        (stopped (bgState w)))%list.
Proof.
  cbv zeta. unfold WorkflowManager.finishProcess.
  rewrite (bind_run _ _ _ _ _ (getState_cached E w)).
  rewrite (bind_run _ _ _ _ _ (getDuration_run E p t0 w Hp Ht0 Hnz)).
  destruct (stop_then_border E
              (removed <- lift (getPath2 (spread (Some (csState w))) "stats" "removedVideos") ;;
               totalCount <- lift (getPath2 (spread (Some (csState w))) "stats" "totalReposts") ;;
               MessageBus.broadcast E "COMPLETE"
                 (optInsert "removedCount" removed
                    (optInsert "totalCount" totalCount
                       {[ "duration" :=
                            WorkflowManager.durationVal
                              (StateStore.mkDuration (clock w - t0)
                                 ((clock w - t0) / 60000)
                                 (Z.rem (clock w - t0) 60000 / 1000)) ]}))) w)
    as (w2 & Hrun & Hbg2 & Hcs2 & Hst2 & Hck2 & Htk2 & Htr2).
  rewrite Hrun. clear Hrun.
  unfold field in Hs.
  rewrite bind_lift, (getPath2_obj _ _ _ _ Hs). cbv iota beta.
  rewrite bind_lift, (getPath2_obj _ _ _ _ Hs). cbv iota beta.
  assert (Hin : "COMPLETE" ∈ ["COMPLETE"; "ERROR"; "NO_REPOSTS_FOUND"]).
  { apply list_elem_of_In. cbn. tauto. }
  rewrite (broadcast_terminal E "COMPLETE" _ (bgState w) w2 Hin Hbg2).
  unfold canonicalFlag.
  cbn [fst snd bgState csState storage clock trace emit set_storage].
  rewrite Hbg2, Hst2, Hck2, Htr2.
  destruct (stopped_process (bgState w)) as (q & Hq & Hr & Hpa & Ht & Hstart).
  split; [reflexivity|].
  split; [reflexivity|].
  split; [unfold field; rewrite Hq; cbn [spread]; by rewrite Hr|].
  split; [unfold field; by rewrite Hq|].
  split; [by apply stopped_other|].
  split; [reflexivity|].
  unfold terminalEffects, WorkflowManager.durationVal.
  cbn [StateStore.total StateStore.minutes StateStore.seconds].
  rewrite snapshotOf_stopped. rewrite <- !app_assoc. cbn [app]. reflexivity.
Qed.

(** X18 on the running world: four of ten removed, started at 500, now
    1000. *)
Lemma finishProcess_reports_then_stops_witness :
  500 <> 0
  /\ canonicalFlag (WorkflowManager.finishProcess E0 "done" w_running).2 "isRunning" = false.
Proof.
  assert (H : 500 <> 0) by lia.
  split; [exact H|].
  assert (Hp : field (Some (csState w_running)) "process"
               = Some (VObj {[ "isRunning" := VBool true; "isPaused" := VBool false;
                               "tabId" := VNum 7; "startTime" := VNum 500 ]}))
    by (vm_compute; reflexivity).
  assert (Hs : field (Some (csState w_running)) "stats"
               = Some (VObj {[ "totalReposts" := VNum 10; "processedVideos" := VNum 4;
                               "removedVideos" := VNum 4; "skippedVideos" := VNum 0 ]}))
    by (vm_compute; reflexivity).
  assert (Ht0 : ({[ "isRunning" := VBool true; "isPaused" := VBool false;
                    "tabId" := VNum 7; "startTime" := VNum 500 ]} : obj) !! "startTime"
                = Some (VNum 500)) by (vm_compute; reflexivity).
  exact (proj1 (proj2 (proj2 (finishProcess_reports_then_stops E0 w_running "done"
                                _ _ 500 Hp Hs Ht0 H)))).
Defined.

(* ===================================================================== *)
(** * The login check                                                     *)
(* ===================================================================== *)

Section Login.
Variable E : Env.

(** A message type the background's listener has no case for goes out
    and changes nothing else. *)
Lemma broadcast_LOGIN_STATUS_UPDATE (p : obj) w :
  MessageBus.broadcast E "LOGIN_STATUS_UPDATE" p w =
    (Ok tt, emit (RuntimeSend Content (mkMsg "LOGIN_STATUS_UPDATE" (VObj p) (clock w))) w).
Proof.
  unfold MessageBus.broadcast.
  change (normType "LOGIN_STATUS_UPDATE") with (Some "LOGIN_STATUS_UPDATE").
  cbv iota beta. rewrite bind_now, bind_effect.
  unfold swallow, try_catch. rewrite bind_split.
  assert (Hon : forall w0 t, StateManager.onMessage E true
                               (mkMsg "LOGIN_STATUS_UPDATE" (VObj p) t) w0 = (Ok None, w0)).
  { intros w0 t. reflexivity. }
  by rewrite Hon.
Qed.

Lemma length_pos_nonempty (s : string) :
  Nat.ltb 0 (String.length s) = true -> s <> "".
Proof. by destruct s. Qed.

End Login.

(** X19.  [runInitialChecks] always completes and sends exactly one
    LOGIN_STATUS_UPDATE message, changing nothing else.  In its payload
    [isLoggedIn] holds exactly when a user name is reported, and that
    name is never empty; without a profile link on the page the payload
    says "not logged in" and carries no name. *)
Theorem login_check_reports_once (E : Env) (w : World) :
  exists payload : obj,
    sendsLoginStatus E w payload
    /\ (truthy (payload !! "isLoggedIn") = true ->
        exists u, payload !! "username" = Some (VStr u) /\ u <> "")
    /\ (truthy (payload !! "isLoggedIn") = false ->
        payload !! "username" = Some VNull \/ payload !! "username" = None)
    /\ (UIManager.findAt E "loginStatus.profileLink" (tick w) = None ->
        payload = {[ "isLoggedIn" := VBool false ]}).
Proof.
  unfold sendsLoginStatus, LoginCheck.runInitialChecks, try_catch.
  unfold UIManager.findElement. rewrite bind_bind, bind_gets, bind_ret.
  destruct (UIManager.findAt E "loginStatus.profileLink" (tick w)) as [link|];
    [|rewrite broadcast_LOGIN_STATUS_UPDATE; eexists; split; [reflexivity|];
      split_and!; [by map_lookup|by map_lookup; right|reflexivity]].
  destruct (getAttribute link "href") as [h|];
    [|rewrite broadcast_LOGIN_STATUS_UPDATE; eexists; split; [reflexivity|];
      split_and!; [by map_lookup|by map_lookup; right|discriminate]].
  destruct (includes "/@" h);
    [|rewrite broadcast_LOGIN_STATUS_UPDATE; eexists; split; [reflexivity|];
      split_and!; [by map_lookup|by map_lookup; right|discriminate]].
  rewrite broadcast_LOGIN_STATUS_UPDATE. eexists. split; [reflexivity|].
  split_and!; [| |discriminate].
  - destruct (nth_error (split "/@" h) 1) as [part|]; cbn [LoginCheck.loggedInValue optInsert].
    + destruct (String.eqb part "") eqn:He; cbn [optInsert].
      * rewrite lookup_insert_eq. discriminate.
      * rewrite lookup_insert_eq. unfold truthy at 1. intros Hlen.
        rewrite lookup_insert_ne by done. rewrite lookup_insert_eq.
        unfold truthy. rewrite Hlen. eexists. split; [reflexivity|].
        by apply length_pos_nonempty.
    + rewrite lookup_insert_ne by done. rewrite lookup_singleton_ne by done. discriminate.
  - destruct (nth_error (split "/@" h) 1) as [part|]; cbn [LoginCheck.loggedInValue optInsert].
    + destruct (String.eqb part "") eqn:He; cbn [optInsert].
      * intros _. left. rewrite lookup_insert_ne by done. by rewrite lookup_insert_eq.
      * rewrite lookup_insert_eq. unfold truthy at 1. intros Hlen.
        rewrite lookup_insert_ne by done. rewrite lookup_insert_eq.
        unfold truthy. rewrite Hlen. by left.
    + intros _. left. by rewrite lookup_insert_eq.
Qed.

(* ===================================================================== *)
(** * Looking elements up                                                 *)
(* ===================================================================== *)

Section Lookup.

Lemma firstMatch_Some (q : string -> option (option Elem)) (l : list string) (e : Elem) :
  UIManager.firstMatch q l = Some e <->
  exists (i : nat) (sel : string),
    l !! i = Some sel /\ q sel = Some (Some e)
    /\ forall (j : nat) (s : string), (j < i)%nat -> l !! j = Some s ->
         forall e', q s <> Some (Some e').
Proof.
  induction l as [|x l IH]; cbn [UIManager.firstMatch].
  - split; [discriminate|]. intros (i & sel & Hi & _). by destruct i.
  - destruct (q x) as [[ex|]|] eqn:Hx.
    + split.
      * intros [= <-]. exists 0%nat, x. split; [reflexivity|]. split; [exact Hx|].
        intros j s Hj. lia.
      * intros (i & sel & Hi & Hq & Hbefore). destruct i as [|i].
        { cbn in Hi. injection Hi as <-. congruence. }
        exfalso. apply (Hbefore 0%nat x ltac:(lia) eq_refl ex). exact Hx.
    + rewrite IH. split.
      * intros (i & sel & Hi & Hq & Hbefore). exists (S i), sel.
        split; [exact Hi|]. split; [exact Hq|].
        intros [|j] s Hj Hs e'; [cbn in Hs; injection Hs as <-; congruence|].
        apply (Hbefore j s); [lia|exact Hs].
      * intros (i & sel & Hi & Hq & Hbefore). destruct i as [|i].
        { cbn in Hi. injection Hi as <-. congruence. }
        exists i, sel. split; [exact Hi|]. split; [exact Hq|].
        intros j s Hj Hs. apply (Hbefore (S j) s); [lia|exact Hs].
    + rewrite IH. split.
      * intros (i & sel & Hi & Hq & Hbefore). exists (S i), sel.
        split; [exact Hi|]. split; [exact Hq|].
        intros [|j] s Hj Hs e'; [cbn in Hs; injection Hs as <-; congruence|].
        apply (Hbefore j s); [lia|exact Hs].
      * intros (i & sel & Hi & Hq & Hbefore). destruct i as [|i].
        { cbn in Hi. injection Hi as <-. congruence. }
        exists i, sel. split; [exact Hi|]. split; [exact Hq|].
        intros j s Hj Hs. apply (Hbefore (S j) s); [lia|exact Hs].
Qed.

Lemma firstWithText_Some (target : string) (cs : bool) (l : list Elem) (e : Elem) :
  let norm := fun el : Elem =>
    if cs then trim (textContent el) else toLowerCase (trim (textContent el)) in
  UIManager.firstWithText target cs l = Some e <->
  exists i : nat,
    l !! i = Some e /\ includes target (norm e) = true
    /\ forall (j : nat) (x : Elem), (j < i)%nat -> l !! j = Some x ->
         includes target (norm x) = false.
Proof.
  cbv zeta. induction l as [|x l IH]; cbn [UIManager.firstWithText].
  - split; [discriminate|]. intros (i & Hi & _). by destruct i.
  - cbv zeta.
    destruct (includes target
                (if cs then trim (textContent x) else toLowerCase (trim (textContent x))))
      eqn:Hx.
    + split.
      * intros [= <-]. exists 0%nat. split; [reflexivity|]. split; [exact Hx|].
        intros j y Hj. lia.
      * intros (i & Hi & Hq & Hbefore). destruct i as [|i].
        { cbn in Hi. by injection Hi as <-. }
        pose proof (Hbefore 0%nat x ltac:(lia) eq_refl) as Hf. congruence.
    + rewrite IH. split.
      * intros (i & Hi & Hq & Hbefore). exists (S i).
        split; [exact Hi|]. split; [exact Hq|].
        intros [|j] y Hj Hy; [cbn in Hy; by injection Hy as <-|].
        apply (Hbefore j y); [lia|exact Hy].
      * intros (i & Hi & Hq & Hbefore). destruct i as [|i].
        { cbn in Hi. injection Hi as <-. congruence. }
        exists i. split; [exact Hi|]. split; [exact Hq|].
        intros j y Hj Hy. apply (Hbefore (S j) y); [lia|exact Hy].
Qed.

Lemma firstWithText_None (target : string) (cs : bool) (l : list Elem) :
  UIManager.firstWithText target cs l = None <->
  forall x, x ∈ l ->
    includes target (if cs then trim (textContent x)
                     else toLowerCase (trim (textContent x))) = false.
Proof.
  induction l as [|y l IH]; cbn [UIManager.firstWithText].
  - split; [|reflexivity]. intros _ x Hx. by apply elem_of_nil in Hx.
  - cbv zeta.
    destruct (includes target
                (if cs then trim (textContent y) else toLowerCase (trim (textContent y))))
      eqn:Hy.
    + split; [discriminate|]. intros Hall.
      rewrite (Hall y (list_elem_of_here _ _)) in Hy. discriminate.
    + rewrite IH. split.
      * intros Hall x Hx. apply elem_of_cons in Hx as [->|Hx]; [exact Hy|by apply Hall].
      * intros Hall x Hx. apply Hall. by apply list_elem_of_further.
Qed.

Lemma lowerChar_idem (c : ascii) : lowerChar (lowerChar c) = lowerChar c.
Proof.
  destruct c as [b0 b1 b2 b3 b4 b5 b6 b7].
  destruct b0, b1, b2, b3, b4, b5, b6, b7; vm_compute; reflexivity.
Qed.

Lemma toLowerCase_idem (s : string) : toLowerCase (toLowerCase s) = toLowerCase s.
Proof.
  induction s as [|c s IH]; cbn [toLowerCase]; [reflexivity|].
  by rewrite lowerChar_idem, IH.
Qed.

End Lookup.

(** X20.  [findElement] tries the selectors of a key in the order of the
    configuration and returns the match of the first selector that has
    one: a selector without a match, or one the page rejects as invalid,
    is passed over and does not end the search.  It returns nothing
    exactly when no selector of the key matches.  The lookup itself
    changes nothing. *)
Theorem findElement_takes_first_matching_selector
    (E : Env) (w : World) (key : string) (s : Sel)
    (Hkey : selectors E key = Some s)
    (Hs : UIManager.noSelectors (Some s) = false) :
  let q := querySelector (dom E (tick w)) in
  exists r,
    UIManager.findElement E key w = (Ok r, w)
    /\ (forall e,
          r = Some e <->
          exists (i : nat) (sel : string),
            UIManager.selList s !! i = Some sel /\ q sel = Some (Some e)
            /\ forall (j : nat) (s' : string), (j < i)%nat ->
                 UIManager.selList s !! j = Some s' -> forall e', q s' <> Some (Some e'))
    /\ (r = None <->
        forall sel, sel ∈ UIManager.selList s -> forall e, q sel <> Some (Some e)).
Proof.
  cbv zeta. unfold UIManager.findElement. rewrite bind_gets, run_ret.
  eexists. split; [reflexivity|].
  unfold UIManager.findAt. rewrite Hkey, Hs.
  split; [intros e; apply firstMatch_Some|].
  split.
  - intros Hnone sel Hin e Hq.
    apply list_elem_of_lookup in Hin as [i Hi].
    revert i sel Hi e Hq Hnone.
    induction (UIManager.selList s) as [|x l IH]; intros i sel Hi e Hq Hnone;
      [by destruct i|].
    cbn [UIManager.firstMatch] in Hnone. destruct i as [|i].
    + cbn in Hi. injection Hi as ->. by rewrite Hq in Hnone.
    + destruct (querySelector (dom E (tick w)) x) as [[ex|]|]; [discriminate| |];
        exact (IH i sel Hi e Hq Hnone).
  - intros Hall.
    destruct (UIManager.firstMatch _ _) as [e|] eqn:Hfm; [|reflexivity].
    apply firstMatch_Some in Hfm as (i & sel & Hi & Hq & _).
    exfalso. apply (Hall sel (list_elem_of_lookup_2 _ _ _ Hi) e Hq).
Qed.

(** X20 on a page where the first selector of the key is invalid and the
    second matches nothing: the match of the third is returned. *)
Lemma findElement_takes_first_matching_selector_witness :
  selectors E1 "navigation.repostTab"
  = Some (SelMany ["p["; ".missing"; "[data-e2e=repost-tab]"])
  /\ querySelector page1 "p[" = None
  /\ querySelector page1 ".missing" = Some None
  /\ UIManager.findElement E1 "navigation.repostTab" w_running
     = (Ok (Some (elemOf "Reposts")), w_running).
Proof.
  assert (Hkey : selectors E1 "navigation.repostTab"
                 = Some (SelMany ["p["; ".missing"; "[data-e2e=repost-tab]"]))
    by reflexivity.
  destruct (findElement_takes_first_matching_selector E1 w_running "navigation.repostTab"
              (SelMany ["p["; ".missing"; "[data-e2e=repost-tab]"]) Hkey eq_refl)
    as (r & Hr & Hsome & _).
  assert (Hfound : r = Some (elemOf "Reposts")).
  { apply Hsome. exists 2%nat, "[data-e2e=repost-tab]".
    split; [reflexivity|]. split; [reflexivity|].
    intros [|[|j]] s' Hj Hs' e'; [| |lia].
    - injection Hs' as <-. discriminate.
    - injection Hs' as <-. discriminate. }
  split; [exact Hkey|]. split; [reflexivity|]. split; [reflexivity|].
  rewrite Hr, Hfound. reflexivity.
Defined.

(** X21.  [findByText] returns the first element of the key, in document
    order, whose trimmed text contains the wanted text; by default both
    are put in lower case first (accented capitals included), so
    searching for a text and for its lower-case form give the same
    element.  It returns nothing exactly when no element of the key
    contains the text.  With [caseSensitive] the text of the element
    found contains the text as given. *)
Theorem findByText_takes_first_containing
    (E : Env) (w : World) (key text : string) (elements : list Elem)
    (Hall : UIManager.findAllAt E key (tick w) = Some elements) :
  let lower := fun el : Elem => toLowerCase (trim (textContent el)) in
  exists r,
    UIManager.findByText E key text false w = (Ok r, w)
    /\ (forall e,
          r = Some e <->
          exists i : nat,
            elements !! i = Some e /\ includes (toLowerCase text) (lower e) = true
            /\ forall (j : nat) (x : Elem), (j < i)%nat -> elements !! j = Some x ->
                 includes (toLowerCase text) (lower x) = false)
    /\ (r = None <->
        forall x, x ∈ elements -> includes (toLowerCase text) (lower x) = false)
    /\ UIManager.findByText E key (toLowerCase text) false w = (Ok r, w)
    /\ (forall e,
          UIManager.findByText E key text true w = (Ok (Some e), w) ->
          includes text (trim (textContent e)) = true).
Proof.
  cbv zeta. unfold UIManager.findByText, UIManager.findAllElements.
  rewrite !bind_bind, !bind_gets, Hall, !bind_ret.
  eexists. split; [reflexivity|]. split; [|split; [|split]].
  - intros e. apply (firstWithText_Some (toLowerCase text) false elements e).
  - apply (firstWithText_None (toLowerCase text) false elements).
  - by rewrite toLowerCase_idem.
  - intros e [= He].
    apply (firstWithText_Some text true elements e) in He as (i & _ & Hinc & _).
    exact Hinc.
Qed.

(** X21 on a page with three tabs, the second labelled in capitals with
    an accented E (U+00C9), between white space that ends in a no-break
    space: the search for the same word in small letters (U+00E9) finds
    it. *)
Lemma findByText_takes_first_containing_witness :
  UIManager.findAllAt E1 "navigation.repostTabFallback" (tick w_running)
  = Some [elemOf " Videos "; elemOf textREPOSTS; elemOf "Liked"]
  /\ UIManager.findByText E1 "navigation.repostTabFallback" textReposts false w_running
     = (Ok (Some (elemOf textREPOSTS)), w_running).
Proof.
  assert (Hall : UIManager.findAllAt E1 "navigation.repostTabFallback" (tick w_running)
                 = Some [elemOf " Videos "; elemOf textREPOSTS; elemOf "Liked"])
    by reflexivity.
  destruct (findByText_takes_first_containing E1 w_running "navigation.repostTabFallback"
              textReposts _ Hall) as (r & Hr & Hsome & _).
  assert (Hfound : r = Some (elemOf textREPOSTS)).
  { apply Hsome. exists 1%nat.
    split; [reflexivity|]. split; [vm_compute; reflexivity|].
    intros [|j] x Hj Hx; [|lia].
    injection Hx as <-. vm_compute. reflexivity. }
  split; [exact Hall|]. rewrite Hr, Hfound. reflexivity.
Defined.

(* ===================================================================== *)
(** * The message bus of the content script                               *)
(* ===================================================================== *)

Section BusLemmas.

Lemma isAscii_app (a b : string) : isAscii (a ++ b) = isAscii a && isAscii b.
Proof.
  induction a as [|c a IH]; [reflexivity|].
  change (String c a ++ b) with (String c (a ++ b)). cbn [isAscii].
  by rewrite IH, andb_assoc.
Qed.

Lemma normChars_app (a b : string) : normChars (a ++ b) = normChars a ++ normChars b.
Proof.
  induction a as [|c a IH]; [reflexivity|].
  change (String c a ++ b) with (String c (a ++ b)). cbn [normChars].
  rewrite IH. reflexivity.
Qed.

Lemma normChar_normal (c : ascii) :
  negb (Nat.leb 97 (nat_of_ascii c) && Nat.leb (nat_of_ascii c) 122)
  && negb (Ascii.eqb c "-"%char) = true ->
  normChar c = c.
Proof.
  destruct c as [b0 b1 b2 b3 b4 b5 b6 b7].
  destruct b0, b1, b2, b3, b4, b5, b6, b7; vm_compute; intros H;
    first [reflexivity | discriminate H].
Qed.

Lemma normChars_normalised (s : string) : isNormalised s = true -> normChars s = s.
Proof.
  induction s as [|c s IH]; [reflexivity|]. cbn [isNormalised normChars].
  intros [Hc Hs]%andb_true_iff. by rewrite (normChar_normal c Hc), (IH Hs).
Qed.

Lemma normChar_is_normal (c : ascii) :
  Nat.ltb (nat_of_ascii c) 128 = true ->
  negb (Nat.leb 97 (nat_of_ascii (normChar c)) && Nat.leb (nat_of_ascii (normChar c)) 122)
  && negb (Ascii.eqb (normChar c) "-"%char) = true
  /\ Nat.ltb (nat_of_ascii (normChar c)) 128 = true.
Proof.
  destruct c as [b0 b1 b2 b3 b4 b5 b6 b7].
  destruct b0, b1, b2, b3, b4, b5, b6, b7; vm_compute; intros H;
    first [by split | discriminate H].
Qed.

Lemma normType_normalised (type t : string) :
  normType type = Some t ->
  isNormalised t = true /\ isAscii t = true /\ String.length t = String.length type.
Proof.
  unfold normType. destruct (isAscii type) eqn:Ha; [|discriminate]. intros [= <-].
  induction type as [|c type IH]; [by split_and!|].
  cbn [isAscii] in Ha. apply andb_true_iff in Ha as [Hc Ha].
  destruct (IH Ha) as (IH1 & IH2 & IH3). destruct (normChar_is_normal c Hc) as [Hn Hl].
  cbn [normChars isNormalised isAscii String.length]. rewrite Hn, Hl, IH1, IH2, IH3.
  by split_and!.
Qed.

End BusLemmas.

(** X22.  The bus files a handler under the normalised name of its
    type: the ASCII name with its small letters made capital and its
    dashes made underscores, everything else left as it is.  So
    registering under another spelling of the same name replaces the
    handler, [off] removes it, and a message whose type is the normalised
    name reaches the handler with its payload: the reply is
    [success: true] with what the handler returns, or [success: false]
    with the message of what it throws.  A type with neither a registered
    nor a default handler, and that is no name objects inherit, is
    answered with "Unknown message type".  Inherited names do find
    something: [toString] is answered with success and the tag of
    [undefined], [constructor] with success and the payload object
    itself, [__proto__] with the failure "handler is not a function". *)
Theorem bus_dispatch_by_normalised_type
    (E : Env) (handlers : gmap string Handler) (type t : string) (h : Handler)
    (Hnorm : normType type = Some t) :
  normType "abcdefghijklmnopqrstuvwxyz-pause-removal_X9"
  = Some "ABCDEFGHIJKLMNOPQRSTUVWXYZ_PAUSE_REMOVAL_X9"
  /\ isNormalised t = true
  /\ String.length t = String.length type
  /\ normType t = Some t
  /\ (forall a, isAscii a = true -> isNormalised a = true -> normType a = Some a)
  /\ (forall a b ta tb, normType a = Some ta -> normType b = Some tb ->
        normType (a ++ b) = Some (ta ++ tb))
  /\ Bus.on type h handlers = Some (<[t := h]> handlers)
  /\ Bus.on t h handlers = Some (<[t := h]> handlers)
  /\ (forall h' hs1, Bus.on t h' handlers = Some hs1 ->
        Bus.on type h hs1 = Bus.on type h handlers)
  /\ Bus.off type (<[t := h]> handlers) = Some (delete t handlers)
  /\ (forall p ts w,
        Bus.handleMessage E (<[t := h]> handlers) (mkMsg t p ts) w
        = match h (js_or (Some p) (VObj ∅)) w with
          | (Ok result, w') => (Ok (ReplyOk result), w')
          | (Throw error, w') =>
              match errMessage error with
              | Some text => (Ok (ReplyError text), w')
              | None => (Halt Unmodelled, w')
              end
          | (Halt s, w') => (Halt s, w')
          end)
  /\ (forall m w,
        handlers !! mtype m = None ->
        mtype m ∉ defaultHandlerNames -> mtype m ∉ objectPrototypeNames ->
        Bus.handleMessage E handlers m w
        = (Ok (ReplyError ("Unknown message type: " ++ mtype m)), w))
  /\ (forall p ts w,
        handlers !! "toString" = None ->
        Bus.handleMessage E handlers (mkMsg "toString" p ts) w
        = (Ok (ReplyOk (Some (VStr "[object Undefined]"))), w))
  /\ (forall p ts w,
        handlers !! "__proto__" = None ->
        Bus.handleMessage E handlers (mkMsg "__proto__" p ts) w
        = (Ok (ReplyError "handler is not a function"), w))
  /\ (forall (o : obj) ts w,
        handlers !! "constructor" = None ->
        Bus.handleMessage E handlers (mkMsg "constructor" (VObj o) ts) w
        = (Ok (ReplyOk (Some (VObj o))), w))
  /\ (forall p ts w,
        handlers !! "PING" = None ->
        Bus.handleMessage E handlers (mkMsg "PING" p ts) w
        = (Ok (ReplyOk (Some (VStr "PONG"))), w)).
Proof.
  destruct (normType_normalised type t Hnorm) as (Hn & Ha & Hlen).
  assert (Hfix : forall a, isAscii a = true -> isNormalised a = true -> normType a = Some a).
  { intros a Haa Hna. unfold normType. by rewrite Haa, (normChars_normalised a Hna). }
  split; [vm_compute; reflexivity|].
  split; [exact Hn|]. split; [exact Hlen|]. split; [by apply Hfix|].
  split; [exact Hfix|].
  split.
  { intros a b ta tb. unfold normType.
    destruct (isAscii a) eqn:Haa; [|discriminate].
    destruct (isAscii b) eqn:Hab; [|discriminate].
    intros [= <-] [= <-]. by rewrite isAscii_app, Haa, Hab, normChars_app. }
  split; [unfold Bus.on; by rewrite Hnorm|].
  split; [unfold Bus.on; by rewrite (Hfix t Ha Hn)|].
  split.
  { intros h' hs1. unfold Bus.on. rewrite (Hfix t Ha Hn), Hnorm. intros [= <-].
    by rewrite insert_insert_eq. }
  split; [unfold Bus.off; rewrite Hnorm; by rewrite delete_insert_eq|].
  split.
  { intros p ts w. unfold Bus.handleMessage. cbn [mtype payload].
    rewrite lookup_insert_eq, bind_ret. unfold try_catch. rewrite bind_split.
    destruct (h (js_or (Some p) (VObj ∅)) w) as [[r|e|s] w1]; try reflexivity.
    by destruct (errMessage e). }
  split.
  { intros m w Hnone Hdef Hproto. unfold Bus.handleMessage.
    rewrite Hnone, bind_lift.
    assert (Hd : Bus.getDefaultHandler E (mtype m) = Ok None).
    { unfold Bus.getDefaultHandler, defaultHandlerNames, objectPrototypeNames in *.
      repeat match goal with
             | |- context [String.eqb (mtype m) ?x] =>
                 destruct (String.eqb_spec (mtype m) x) as [Heq|_];
                 [exfalso; rewrite Heq in *;
                  first [ apply Hdef; apply list_elem_of_In; cbn; tauto
                        | apply Hproto; apply list_elem_of_In; cbn; tauto ]|]
             end.
      by rewrite bool_decide_eq_false_2. }
    by rewrite Hd. }
  split.
  { intros p ts w Hnone. unfold Bus.handleMessage. cbn [mtype payload].
    rewrite Hnone, bind_lift.
    change (Bus.getDefaultHandler E "toString")
      with (Ok (Some (fun _ : JsVal => ret (Some (VStr "[object Undefined]"))))
              : Res (option Handler)).
    reflexivity. }
  split.
  { intros p ts w Hnone. unfold Bus.handleMessage. cbn [mtype payload].
    rewrite Hnone, bind_lift.
    change (Bus.getDefaultHandler E "__proto__")
      with (Ok (Some (fun _ : JsVal => throw (ErrorMsg "handler is not a function")))
              : Res (option Handler)).
    reflexivity. }
  split.
  { intros o ts w Hnone. unfold Bus.handleMessage. cbn [mtype payload].
    rewrite Hnone, bind_lift.
    change (Bus.getDefaultHandler E "constructor")
      with (Ok (Some (fun p : JsVal => match p with
                                       | VObj _ | VArr _ => ret (Some p)
                                       | _ => halt Unmodelled
                                       end)) : Res (option Handler)).
    reflexivity. }
  intros p ts w Hnone. unfold Bus.handleMessage. cbn [mtype payload].
  rewrite Hnone, bind_lift.
  change (Bus.getDefaultHandler E "PING")
    with (Ok (Some (fun _ : JsVal => ret (Some (VStr "PONG")))) : Res (option Handler)).
  reflexivity.
Qed.

(** X22 for a handler registered as [pause-removal]: the message
    [PAUSE_REMOVAL] reaches it. *)
Lemma bus_dispatch_by_normalised_type_witness :
  normType "pause-removal" = Some "PAUSE_REMOVAL"
  /\ Bus.on "pause-removal" (fun _ => ret (Some (VBool true))) ∅
     = Some {[ "PAUSE_REMOVAL" := (fun _ => ret (Some (VBool true))) ]}
  /\ Bus.handleMessage E0 {[ "PAUSE_REMOVAL" := (fun _ => ret (Some (VBool true))) ]}
       (mkMsg "PAUSE_REMOVAL" VNull 1000) w_running
     = (Ok (ReplyOk (Some (VBool true))), w_running).
Proof.
  assert (H : normType "pause-removal" = Some "PAUSE_REMOVAL") by (vm_compute; reflexivity).
  pose proof (bus_dispatch_by_normalised_type E0 ∅ "pause-removal" "PAUSE_REMOVAL"
                (fun _ => ret (Some (VBool true))) H)
    as (_ & _ & _ & _ & _ & _ & Hon & _ & _ & _ & Hrun & _).
  split; [exact H|]. split; [exact Hon|]. exact (Hrun VNull 1000 w_running).
Defined.

(* ===================================================================== *)
(** * Dotted paths                                                        *)
(* ===================================================================== *)

Section Paths.

Lemma splitDots_noDot (k : string) : noDot k = true -> splitDots k = [k].
Proof.
  induction k as [|c k IH]; cbn [noDot splitDots]; [reflexivity|].
  intros [Hc Hk]%andb_true_iff. apply negb_true_iff in Hc. rewrite Hc.
  by rewrite (IH Hk).
Qed.

Lemma splitDots_app (k s : string) :
  noDot k = true -> splitDots (k ++ String "."%char s) = k :: splitDots s.
Proof.
  induction k as [|c k IH]; intros Hk.
  - reflexivity.
  - cbn [noDot] in Hk. apply andb_true_iff in Hk as [Hc Hk].
    apply negb_true_iff in Hc.
    change (String c k ++ String "."%char s) with (String c (k ++ String "."%char s)).
    cbn [splitDots]. rewrite Hc. by rewrite (IH Hk).
Qed.

Lemma splitDots_concat (keys : list string) :
  keys <> [] -> forallb noDot keys = true ->
  splitDots (String.concat "." keys) = keys.
Proof.
  induction keys as [|k keys IH]; [done|]. intros _ Hall.
  cbn [forallb] in Hall. apply andb_true_iff in Hall as [Hk Hall].
  destruct keys as [|k2 keys].
  - cbn [String.concat]. by apply splitDots_noDot.
  - change (String.concat "." (k :: k2 :: keys))
      with (k ++ String "."%char (String.concat "." (k2 :: keys))).
    rewrite (splitDots_app _ _ Hk). f_equal. by apply IH.
Qed.

(** Reading below a value looks at its own properties only. *)
Lemma readPath_spread (keys : list string) (a b : JsVal) :
  keys <> [] -> spread (Some a) = spread (Some b) -> readPath keys a = readPath keys b.
Proof. destruct keys as [|k rest]; [done|]. intros _ Hs. cbn [readPath]. by rewrite Hs. Qed.

Lemma readPath_app (pre post : list string) (v : JsVal) :
  readPath (pre ++ post) v
  = match readPath pre v with Some x => readPath post x | None => None end.
Proof.
  revert v. induction pre as [|k pre IH]; intros v; [reflexivity|].
  cbn [app readPath]. destruct (spread (Some v) !! k); [apply IH|reflexivity].
Qed.

Lemma readPath_cons (k : string) (rest : list string) (o : obj) :
  readPath (k :: rest) (VObj o)
  = match o !! k with Some x => readPath rest x | None => None end.
Proof. reflexivity. Qed.

Lemma nestPath_cons (k k2 : string) (rest : list string) (v : JsVal) :
  nestPath (k :: k2 :: rest) v = {[ k := VObj (nestPath (k2 :: rest) v) ]}.
Proof. reflexivity. Qed.

Lemma readPath_nestPath (keys : list string) (v : JsVal) :
  keys <> [] -> readPath keys (VObj (nestPath keys v)) = Some v.
Proof.
  induction keys as [|k [|k2 rest] IH]; [done| |]; intros _.
  - cbn [nestPath readPath spread]. by rewrite lookup_singleton_eq.
  - rewrite nestPath_cons. cbn [readPath spread]. rewrite lookup_singleton_eq.
    by apply IH.
Qed.

Lemma nestPath_one_key (pre : list string) (k k' : string) (post : list string) (v : JsVal) :
  k' <> k -> readPath ((pre ++ [k'])%list) (VObj (nestPath ((pre ++ k :: post)%list) v)) = None.
Proof.
  intros Hk. induction pre as [|p pre IH].
  - cbn [app]. destruct post as [|k2 post].
    + cbn [nestPath readPath spread]. by rewrite lookup_singleton_ne.
    + rewrite nestPath_cons. cbn [readPath spread]. by rewrite lookup_singleton_ne.
  - cbn [app]. destruct ((pre ++ k :: post)%list) as [|k2 rest] eqn:Heq.
    + by destruct pre.
    + rewrite nestPath_cons. cbn [readPath spread]. rewrite lookup_singleton_eq.
      exact IH.
Qed.

Lemma setsProto_nestPath (keys : list string) (v : JsVal) :
  "__proto__" ∉ keys -> setsProto v = false -> setsProto (VObj (nestPath keys v)) = false.
Proof.
  intros Hkeys Hv. induction keys as [|k [|k2 rest] IH].
  - reflexivity.
  - cbn [nestPath]. rewrite setsProto_singleton, Hv, orb_false_r.
    apply String.eqb_neq. intros ->. apply Hkeys. apply list_elem_of_here.
  - rewrite nestPath_cons, setsProto_singleton. apply orb_false_iff. split.
    + apply String.eqb_neq. intros ->. apply Hkeys. apply list_elem_of_here.
    + apply IH. intros Hin. apply Hkeys. by apply list_elem_of_further.
Qed.

(** What the merge of a nested update leaves along its keys. *)
Lemma readPath_deepMergeV (keys : list string) (v : JsVal) (target : option JsVal) :
  keys <> [] -> "__proto__" ∉ keys ->
  readPath keys (VObj (deepMergeV target (VObj (nestPath keys v))))
  = Some (mergeField (readPath keys (VObj (spread target))) v).
Proof.
  revert target. induction keys as [|k [|k2 rest] IH]; [done| |]; intros target _ Hkeys.
  - assert (Hk : k <> "__proto__") by (intros ->; apply Hkeys, list_elem_of_here).
    cbn [nestPath readPath spread].
    rewrite deepMergeV_lookup by (by rewrite lookup_singleton_ne).
    rewrite lookup_singleton_eq. by destruct (spread target !! k).
  - assert (Hk : k <> "__proto__") by (intros ->; apply Hkeys, list_elem_of_here).
    assert (Hrest : "__proto__" ∉ k2 :: rest)
      by (intros Hin; apply Hkeys; by apply list_elem_of_further).
    rewrite nestPath_cons, !(readPath_cons k).
    rewrite deepMergeV_lookup by (by rewrite lookup_singleton_ne).
    rewrite lookup_singleton_eq, mergeField_cases.
    rewrite (IH (Some (js_or (spread target !! k) (VObj ∅))) ltac:(done) Hrest).
    rewrite spread_js_or_empty. f_equal. f_equal.
    destruct (spread target !! k) as [x|]; [|reflexivity].
    by apply readPath_spread.
Qed.

(** ... and beside them. *)
Lemma readPath_deepMergeV_sibling
    (pre : list string) (k k' : string) (post : list string) (v : JsVal)
    (target : option JsVal) :
  k' <> k -> "__proto__" ∉ (pre ++ k :: post)%list ->
  readPath ((pre ++ [k'])%list) (VObj (deepMergeV target (VObj (nestPath ((pre ++ k :: post)%list) v))))
  = readPath ((pre ++ [k'])%list) (VObj (spread target)).
Proof.
  intros Hk. revert target. induction pre as [|p pre IH]; intros target Hkeys.
  - cbn [app] in *. cbn [readPath spread].
    assert (Hs : forall s : obj, s = nestPath (k :: post) v -> s !! k' = None).
    { intros s ->. destruct post; [|rewrite nestPath_cons]; cbn [nestPath];
        by rewrite lookup_singleton_ne. }
    rewrite deepMergeV_lookup_any, (Hs _ eq_refl).
    by destruct (String.eqb k' "__proto__").
  - cbn [app] in *.
    assert (Hp : p <> "__proto__") by (intros ->; apply Hkeys, list_elem_of_here).
    assert (Hrest : "__proto__" ∉ (pre ++ k :: post)%list)
      by (intros Hin; apply Hkeys; by apply list_elem_of_further).
    destruct ((pre ++ k :: post)%list) as [|k2 rest] eqn:Heq; [by destruct pre|].
    rewrite nestPath_cons, !(readPath_cons p).
    rewrite deepMergeV_lookup by (by rewrite lookup_singleton_ne).
    rewrite lookup_singleton_eq, mergeField_cases.
    rewrite (IH (Some (js_or (spread target !! p) (VObj ∅))) Hrest).
    rewrite spread_js_or_empty.
    destruct (spread target !! p) as [x|].
    + apply readPath_spread; [by destruct pre|reflexivity].
    + cbn [spread]. destruct pre; cbn [app]; rewrite readPath_cons; by rewrite lookup_empty.
Qed.

End Paths.

(** X23.  [set(path, value)] splits the path at its dots and sends the
    update that holds the value along the keys and nothing beside them.
    For keys without dots, none of them [__proto__], and a value that
    sets no prototype: the path made of the keys splits into them again;
    reading the update along the keys finds the value, and reading it
    along any other key at any level finds nothing; afterwards the
    canonical state read along the keys holds what one pass of the merge
    writes over what was there (the value itself unless it is a plain
    object), and what is read along any other key at any level is what
    was there before.  So [setTotal(n)] changes [stats.totalReposts] to
    [n] on the canonical side and nothing else: the other counters and
    the other sections are kept. *)
Theorem set_follows_dotted_path
    (E : Env) (w : World) (keys : list string) (v : JsVal) (n : Z)
    (Hne : keys <> [])
    (Hnd : forallb noDot keys = true)
    (Hkeys : "__proto__" ∉ keys)
    (Hv : setsProto v = false) :
  let w' := (StateStore.set E (String.concat "." keys) v w).2 in
  splitDots (String.concat "." keys) = keys
  /\ splitDots "a..b." = ["a"; ""; "b"; ""]
  /\ readPath keys (VObj (nestPath keys v)) = Some v
  /\ (forall pre k post k', keys = (pre ++ k :: post)%list -> k' <> k ->
        readPath ((pre ++ [k'])%list) (VObj (nestPath keys v)) = None)
  /\ readPath keys (VObj (bgState w'))
     = Some (mergeField (readPath keys (VObj (bgState w))) v)
  /\ (isPlainObject v = false -> readPath keys (VObj (bgState w')) = Some v)
  /\ (forall pre k post k', keys = (pre ++ k :: post)%list -> k' <> k ->
        readPath ((pre ++ [k'])%list) (VObj (bgState w'))
        = readPath ((pre ++ [k'])%list) (VObj (bgState w)))
  /\ (let w1 := (StateStore.setTotal E (VNum n) w).2 in
      field (bgState w1 !! "stats") "totalReposts" = Some (VNum n)
      /\ (forall k, k <> "totalReposts" ->
            field (bgState w1 !! "stats") k = field (bgState w !! "stats") k)
      /\ (forall sec, sec <> "stats" -> bgState w1 !! sec = bgState w !! sec)).
Proof.
  cbv zeta.
  assert (Hsplit : splitDots (String.concat "." keys) = keys)
    by (by apply splitDots_concat).
  assert (Hnest : setsProto (VObj (nestPath keys v)) = false)
    by (by apply setsProto_nestPath).
  assert (Hbg : bgState (StateStore.set E (String.concat "." keys) v w).2
                = deepMergeV (Some (VObj (bgState w))) (VObj (nestPath keys v))).
  { unfold StateStore.set. rewrite Hsplit. by rewrite update_bgState. }
  assert (Hread : readPath keys (VObj (bgState (StateStore.set E (String.concat "." keys) v w).2))
                  = Some (mergeField (readPath keys (VObj (bgState w))) v)).
  { rewrite Hbg. by rewrite readPath_deepMergeV. }
  split; [exact Hsplit|]. split; [vm_compute; reflexivity|].
  split; [by apply readPath_nestPath|].
  split; [intros pre k post k' -> Hk; by apply nestPath_one_key|].
  split; [exact Hread|].
  split; [intros Hplain; rewrite Hread; unfold mergeField; by rewrite Hplain|].
  split.
  { intros pre k post k' Heq Hk. rewrite Hbg. subst keys.
    by rewrite readPath_deepMergeV_sibling. }
  assert (Hset : StateStore.setTotal E (VNum n) w
                 = StateStore.update E
                     {[ "stats" := VObj {[ "totalReposts" := VNum n ]} ]} w)
    by reflexivity.
  rewrite Hset, update_bgState by (vm_compute; reflexivity). split_and!.
  - merged_field. reflexivity.
  - intros k Hk. rewrite deepMerge_lookup by noproto. map_lookup. cbv iota.
    rewrite mergeField_field by noproto. by rewrite lookup_singleton_ne.
  - intros sec Hsec. rewrite deepMerge_lookup by noproto. by rewrite lookup_singleton_ne.
Qed.

(** X23 for the path of the pause flag while a run is on: afterwards the
    flag is set, and the other fields of the process are as they were. *)
Lemma set_follows_dotted_path_witness :
  let w' := (StateStore.set E0 "process.isPaused" (VBool true) w_running).2 in
  splitDots "process.isPaused" = ["process"; "isPaused"]
  /\ readPath ["process"; "isPaused"] (VObj (bgState w')) = Some (VBool true)
  /\ readPath ["process"; "isRunning"] (VObj (bgState w')) = Some (VBool true)
  /\ readPath ["stats"] (VObj (bgState w')) = readPath ["stats"] (VObj (bgState w_running)).
Proof.
  assert (Hne : ["process"; "isPaused"] <> ([] : list string)) by discriminate.
  assert (Hkeys : "__proto__" ∉ ["process"; "isPaused"])
    by (intros Hin; apply list_elem_of_In in Hin; cbn in Hin;
        destruct Hin as [Hin|[Hin|[]]]; discriminate Hin).
  pose proof (set_follows_dotted_path E0 w_running ["process"; "isPaused"]
                (VBool true) 0 Hne eq_refl Hkeys eq_refl)
    as (Hsplit & _ & _ & _ & _ & Hval & Hsib & _).
  cbv zeta. split; [exact Hsplit|]. split; [exact (Hval eq_refl)|]. split.
  - refine (eq_trans (Hsib ["process"] "isPaused" [] "isRunning" eq_refl _) _);
      [discriminate | vm_compute; reflexivity].
  - exact (Hsib [] "process" ["isPaused"] "stats" eq_refl ltac:(discriminate)).
Defined.

(* ===================================================================== *)
(** * Progress, the fast path to the profile, and the export              *)
(* ===================================================================== *)

Section More.
Variable E : Env.

Lemma handle_UPDATE_PROGRESS (p : obj) (c t : JsVal) w :
  p !! "current" = Some c -> p !! "total" = Some t ->
  StateManager.handleContentMessage E "UPDATE_PROGRESS" (Some (VObj p)) w =
    StateManager.updateState E
      {[ "stats" := VObj {[ "processedVideos" := c; "totalReposts" := t ]} ]} w.
Proof.
  intros Hc Ht. unfold StateManager.handleContentMessage.
  change (String.eqb "UPDATE_PROGRESS" "UPDATE_PROGRESS") with true. cbv iota.
  unfold getProp. rewrite bind_lift, Hc, bind_lift, Ht. cbv iota beta.
  by rewrite !bind_lift.
Qed.

(** A status message goes out and changes nothing else. *)
Lemma broadcastStatus_run (status statusKey : string) w :
  WorkflowManager.broadcastStatus E status statusKey w =
    (Ok tt, emit (RuntimeSend Content
                    (mkMsg "STATUS_UPDATE"
                       (VObj {[ "status" := VStr status; "statusKey" := VStr statusKey ]})
                       (clock w))) w).
Proof.
  unfold WorkflowManager.broadcastStatus, MessageBus.broadcast.
  change (normType "STATUS_UPDATE") with (Some "STATUS_UPDATE"). cbv iota beta.
  rewrite bind_now, bind_effect.
  unfold swallow, try_catch. rewrite bind_split.
  assert (Hon : forall p w0 t, StateManager.onMessage E true
                                 (mkMsg "STATUS_UPDATE" p t) w0 = (Ok None, w0)).
  { intros p w0 t. reflexivity. }
  by rewrite Hon.
Qed.

(** An element that is there is found without waiting. *)
Lemma waitForElement_at_once (key : string) (timeout : Z) (e : Elem) w :
  UIManager.findAt E key (tick w) = Some e ->
  UIManager.waitForElement E key timeout w = (Ok (Some e), w).
Proof.
  intros Hfind. unfold UIManager.waitForElement. rewrite bind_now.
  destruct (Z.to_nat (timeout / 200) + 1)%nat as [|polls];
    cbn [UIManager.check]; unfold UIManager.findElement;
    by rewrite bind_bind, bind_gets, bind_ret, Hfind.
Qed.

Lemma readQuotedBody_doubleQuotes (s rest : string) :
  noLeadingQuote rest = true ->
  readQuotedBody (ClearTokUtils.doubleQuotes s ++ String ClearTokUtils.quote rest)
  = Some (s, rest).
Proof.
  intros Hrest. induction s as [|c s IH].
  - cbn [ClearTokUtils.doubleQuotes]. change (EmptyString ++ ?x) with x.
    cbn [readQuotedBody]. rewrite Ascii.eqb_refl.
    destruct rest as [|c2 r2]; [reflexivity|].
    cbn [noLeadingQuote] in Hrest. apply negb_true_iff in Hrest. by rewrite Hrest.
  - cbn [ClearTokUtils.doubleQuotes].
    destruct (Ascii.eqb c ClearTokUtils.quote) eqn:Hc.
    + apply Ascii.eqb_eq in Hc as ->.
      change (String ?a (String ?b ?x) ++ ?y) with (String a (String b (x ++ y))).
      cbn [readQuotedBody]. rewrite !Ascii.eqb_refl. by rewrite IH.
    + change (String ?a ?x ++ ?y) with (String a (x ++ y)).
      cbn [readQuotedBody]. rewrite Hc. by rewrite IH.
Qed.

Lemma append_assoc (a b c : string) : ((a ++ b) ++ c = a ++ (b ++ c))%string.
Proof.
  induction a as [|x a IH]; [reflexivity|].
  change (String x ((a ++ b) ++ c) = String x (a ++ (b ++ c)))%string.
  f_equal. exact IH.
Qed.

End More.

(** X24.  The progress callback of the scroll reports through one
    UPDATE_PROGRESS message, and the background takes its numbers over:
    the canonical [totalReposts] becomes the number of items loaded and
    [processedVideos] the current index, while the removed and skipped
    counters, [process] and the storage stay as they are.  What goes out
    is that one message, with the index, the count, the phase and the
    status line, then the push of the new state to the extension pages
    and, at most, to one tab. *)
Theorem scroll_progress_sets_total
    (E : Env) (w : World) (current : Z) (phase : string) (progress : nat)
    (isFinal : bool) (k : string)
    (Hk1 : k <> "totalReposts") (Hk2 : k <> "processedVideos") :
  let w' := (WorkflowManager.onProgress E current phase progress isFinal w).2 in
  let sent :=
    RuntimeSend Content
      (mkMsg "UPDATE_PROGRESS"
         (VObj {[ "current" := VNum current;
                  "total" := VNum (Z.of_nat progress);
                  "phase" := VStr (if isFinal then "final" else phase);
                  "status" := VStr ("Loaded " ++ toStr (VNum (Z.of_nat progress))
                                     ++ " reposts so far...");
                  "statusKey" := VStr "statusLoadedSoFar";
                  "statusParams" := VObj {[ "count" := VNum (Z.of_nat progress) ]} ]})
         (clock w)) in
  let pushed := mkMsg "STATE_CHANGED" (VObj (bgState w')) (clock w) in
  field (bgState w' !! "stats") "totalReposts" = Some (VNum (Z.of_nat progress))
  /\ field (bgState w' !! "stats") "processedVideos" = Some (VNum current)
  /\ field (bgState w' !! "stats") k = field (bgState w !! "stats") k
  /\ bgState w' !! "process" = bgState w !! "process"
  /\ bgState w' !! "removedList" = bgState w !! "removedList"
  /\ storage w' = storage w
  /\ (exists rest,
        trace w' = (trace w ++ sent :: RuntimeSend Background pushed :: rest)%list
        /\ (rest = [] \/ exists tab, rest = [TabsSend (VNum tab) pushed])
        /\ List.filter (sentOfType "UPDATE_PROGRESS")
             (sent :: RuntimeSend Background pushed :: rest) = [sent]).
Proof.
  cbv zeta. unfold WorkflowManager.onProgress, MessageBus.broadcast.
  change (normType "UPDATE_PROGRESS") with (Some "UPDATE_PROGRESS"). cbv iota beta.
  rewrite bind_now, bind_effect.
  rewrite swallow_snd, snd_then_ret.
  assert (Hin : "UPDATE_PROGRESS" ∈ StateManager.contentUpdateTypes).
  { apply list_elem_of_In. cbn. tauto. }
  set (p := ({[ "current" := VNum current;
                "total" := VNum (Z.of_nat progress);
                "phase" := VStr (if isFinal then "final" else phase);
                "status" := VStr ("Loaded " ++ toStr (VNum (Z.of_nat progress))
                                   ++ " reposts so far...");
                "statusKey" := VStr "statusLoadedSoFar";
                "statusParams" := VObj {[ "count" := VNum (Z.of_nat progress) ]} ]} : obj)).
  rewrite (onMessage_content E (mkMsg "UPDATE_PROGRESS" (VObj p) (clock w)) true _ Hin).
  unfold when. rewrite snd_then_ret. cbn [mtype payload].
  rewrite (handle_UPDATE_PROGRESS E p (VNum current) (VNum (Z.of_nat progress)));
    [|by subst p; map_lookup|by subst p; map_lookup].
  set (u := ({[ "stats" := VObj {[ "processedVideos" := VNum current;
                                   "totalReposts" := VNum (Z.of_nat progress) ]} ]} : obj)).
  assert (Hu : setsProto (VObj u) = false) by (vm_compute; reflexivity).
  assert (Hu1 : u !! "__proto__" = None) by (subst u; map_lookup; reflexivity).
  rewrite (updateState_run E u _ Hu).
  set (w0 := emit (RuntimeSend Content (mkMsg "UPDATE_PROGRESS" (VObj p) (clock w))) w).
  set (w1 := set_bgState (deepMerge (bgState w0) u) w0).
  rewrite afterBroadcast_bgState, afterBroadcast_storage.
  assert (Hbg : bgState w1 = deepMerge (bgState w) u) by reflexivity.
  assert (Hst : storage w1 = storage w) by reflexivity.
  rewrite Hbg, Hst.
  split; [subst u; merged_field; reflexivity|].
  split; [subst u; merged_field; reflexivity|].
  split.
  { rewrite (deepMerge_lookup _ _ _ Hu1). subst u. map_lookup. cbv iota.
    rewrite mergeField_field by noproto.
    rewrite lookup_insert_ne by done. by rewrite lookup_singleton_ne. }
  split; [rewrite (deepMerge_lookup _ _ _ Hu1); subst u; by map_lookup|].
  split; [rewrite (deepMerge_lookup _ _ _ Hu1); subst u; by map_lookup|].
  split; [reflexivity|].
  destruct (afterBroadcast_trace E w1) as (rest & Htr & Hrest).
  exists rest. split; [|split].
  - rewrite Htr. unfold stateChanged. rewrite Hbg.
    change (trace w1) with (trace w ++ [RuntimeSend Content (mkMsg "UPDATE_PROGRESS" (VObj p) (clock w))])%list.
    change (clock w1) with (clock w). by rewrite <- app_assoc.
  - destruct Hrest as [->|[tab ->]]; [by left|right; exists tab].
    unfold stateChanged. by rewrite Hbg.
  - destruct Hrest as [->|[tab ->]]; reflexivity.
Qed.

(** X24 for the first report of a scroll that loaded twelve items while
    the run is on in tab 7. *)
Lemma scroll_progress_sets_total_witness :
  let w' := (WorkflowManager.onProgress E0 0 "first" 12 false w_running).2 in
  field (bgState w' !! "stats") "totalReposts" = Some (VNum 12)
  /\ length (trace w') = (length (trace w_running) + 3)%nat
  /\ List.filter (sentOfType "UPDATE_PROGRESS") (trace w')
     = (List.filter (sentOfType "UPDATE_PROGRESS") (trace w_running)
        ++ [RuntimeSend Content
              (mkMsg "UPDATE_PROGRESS"
                 (VObj {[ "current" := VNum 0; "total" := VNum 12;
                          "phase" := VStr "first";
                          "status" := VStr "Loaded 12 reposts so far...";
                          "statusKey" := VStr "statusLoadedSoFar";
                          "statusParams" := VObj {[ "count" := VNum 12 ]} ]})
                 (clock w_running))])%list.
Proof.
  pose proof (scroll_progress_sets_total E0 w_running 0 "first" 12 false "removedVideos"
                ltac:(discriminate) ltac:(discriminate))
    as (Htotal & _ & _ & _ & _ & _ & rest & Htr & Hrest & Hone).
  cbv zeta. split; [exact Htotal|]. split.
  - vm_compute. reflexivity.
  - rewrite Htr, List.filter_app, Hone. reflexivity.
Defined.

(** X25.  When the Reposts tab is already on the page,
    [step_navigateToProfile] succeeds at once: it announces itself with
    one status message and does nothing else; it does not wait, click or
    touch the state. *)
Theorem profile_step_skips_navigation_when_on_profile
    (E : Env) (w : World) (e : Elem)
    (Hthere : UIManager.findAt E "navigation.repostTab" (tick w) = Some e) :
  WorkflowManager.step_navigateToProfile E w =
    (Ok true,
     emit (RuntimeSend Content
             (mkMsg "STATUS_UPDATE"
                (VObj {[ "status" := VStr "Navigating to your profile...";
                         "statusKey" := VStr "statusNavigatingProfile" ]})
                (clock w))) w).
Proof.
  unfold WorkflowManager.step_navigateToProfile.
  rewrite bind_split, broadcastStatus_run. cbv iota beta.
  rewrite bind_split, (waitForElement_at_once E _ _ e) by exact Hthere.
  cbv iota beta. by rewrite bool_decide_eq_true_2.
Qed.

(** X25 on the sample page, which shows the tab. *)
Lemma profile_step_skips_navigation_when_on_profile_witness :
  (WorkflowManager.step_navigateToProfile E0 w_running).1 = Ok true.
Proof.
  rewrite (profile_step_skips_navigation_when_on_profile E0 w_running
             (elemOf "navigation.repostTab") ltac:(vm_compute; reflexivity)).
  reflexivity.
Defined.

(** X26.  A cell of the CSV export reads back as the text it was made
    from: with every quote of the text doubled and the whole put between
    quotes, a reader that takes two quotes for one and a single quote for
    the end of the cell gets the text and is left with what follows the
    cell.  A missing text gives an empty cell. *)
Theorem csv_cell_reads_back (s rest : string) (Hrest : noLeadingQuote rest = true) :
  readQuoted (ClearTokUtils.csvCell (Some (VStr s)) ++ rest) = Some (s, rest)
  /\ readQuoted (ClearTokUtils.csvCell None ++ rest) = Some (EmptyString, rest)
  /\ readQuoted (ClearTokUtils.csvCell (Some VNull) ++ rest) = Some (EmptyString, rest).
Proof.
  assert (Hcell : forall t,
             readQuoted (String ClearTokUtils.quote
                           (ClearTokUtils.doubleQuotes t
                            ++ String ClearTokUtils.quote EmptyString) ++ rest)
             = Some (t, rest)).
  { intros t.
    change (String ?a ?x ++ ?y) with (String a (x ++ y)).
    cbn [readQuoted]. rewrite Ascii.eqb_refl, append_assoc.
    change (String ClearTokUtils.quote EmptyString ++ rest)
      with (String ClearTokUtils.quote rest).
    by apply readQuotedBody_doubleQuotes. }
  split_and!; apply Hcell.
Qed.

(** X26 for a title with a quoted word, followed by the next cell. *)
Lemma csv_cell_reads_back_witness :
  readQuoted (ClearTokUtils.csvCell
                (Some (VStr (String "a" (String ClearTokUtils.quote "b")))) ++ ",x")
  = Some (String "a" (String ClearTokUtils.quote "b"), ",x").
Proof.
  exact (proj1 (csv_cell_reads_back (String "a" (String ClearTokUtils.quote "b")) ",x"
                  eq_refl)).
Defined.
